(** * readFile.c: readFile, readLines and freeLines

    A shallow embedding of [src/readFile.c] and the properties of its three
    public functions, of [Strchr] and of the test program.

    Conventions of the embedding.
    - A [char] is its integer value ([Z]); a buffer of chars is a [list Z]
      indexed from 0.  Whether plain [char] is signed is left to the platform
      ([char_signed]).
    - [size_t] is 64 bits wide and an object pointer is 8 bytes (LP64, the
      platforms the file was written for); [size_t] arithmetic that can wrap
      is written with [wrap].
    - The C library is an oracle ([world]): it says what each call returns.
      A failing call stores its error code, never zero, in [errno] (POSIX);
      a successful call leaves [errno] alone.  malloc(0) returns NULL or a
      pointer, as the platform chooses ([malloc0_null]); realloc(p, 0)
      releases [p] and returns NULL, or shrinks the block, likewise
      ([realloc0_frees]).  A read can deliver fewer chars than asked for
      ([fread_short]).
    - A computation is a function from the machine state to an optional
      result; [None] is undefined behaviour (access outside an object,
      release of something that is not a live allocation).
    - The heap is a list of blocks; a released block stays in the list as
      [Freed], so that releasing it again is seen.

    Plan: the model of the code; the functional descriptions the statements
    use; the loops ([Strchr], compaction, counting, filling); readFile and
    readLines run forward when the library calls succeed; every way they
    can return, by inversion; the claims; further properties of the
    functions and of the test program [main], whose output is modelled as
    the list of what it writes (write errors are left out). *)

From Stdlib Require Import ZArith String Lia.
From stdpp Require Import base list.

Local Open Scope Z_scope.
Local Open Scope nat_scope.

(** ** Characters and error codes *)

Definition NUL : Z := 0.
Definition LF : Z := 10.   (* '\n' *)
Definition CR : Z := 13.   (* '\r' *)

Definition TRUE : Z := 1.

Definition EINVAL : Z := 22.
Definition EFBIG : Z := 27.
Definition ENOMEM : Z := 12.

Definition SIZE_BITS : Z := 64.
Definition SIZE_MAX : Z := 2 ^ SIZE_BITS - 1.
Definition LONG_MAX : Z := 2 ^ (SIZE_BITS - 1) - 1.
Definition PTR_SIZE : Z := 8.          (* sizeof(char * ) *)

(** [size_t] arithmetic is modulo [SIZE_MAX + 1]. *)
Definition wrap (x : Z) : Z := x mod (SIZE_MAX + 1).

(** ** Pointers, the C library oracle *)

(** A pointer is NULL or a block of the heap and an offset inside it. *)
Inductive ptr : Type :=
| NULL
| Ptr (b : nat) (o : nat).

Inductive outcome (A : Type) : Type :=
| Ok (a : A)
| Fail (e : positive).
Arguments Ok {A} a.
Arguments Fail {A} e.

Record world : Type := {
  char_signed : bool;                    (* is plain char signed? *)
  malloc0_null : bool;                   (* does malloc(0) return NULL? *)
  junk_char : nat -> Z;                  (* contents of fresh char storage *)
  junk_ptr : ptr;                        (* contents of fresh pointer storage *)
  fopen_r : string -> outcome (list Z);  (* fopen(name, "rb"): the file's bytes *)
  fseek_r : outcome unit;                (* fseek(in, 0, SEEK_END) *)
  fread_r : outcome unit;                (* Fail: ferror(in) is set *)
  fread_short : option nat;              (* Some k: the read ends after k items *)
  fclose_r : outcome unit;
  malloc_r : nat -> outcome unit;        (* by allocator call number *)
  realloc_r : nat -> outcome bool;       (* Ok moved: did the block move? *)
  realloc0_frees : bool                  (* does realloc(p, 0) release p? *)
}.

(** ** Strchr (readFile.c lines 44-59) *)

Section Strings.

Variable w : world.

(** Conversion of an [int] to plain [char] ([const char c1 = c]). *)
Definition to_char (c : Z) : Z :=
  if char_signed w then ((c + 128) mod 256 - 128)%Z else (c mod 256)%Z.

(** One round of the [for] loop reads up to three chars.  The loop test
    compares with [c1], the two inner tests compare with the [int] [c].
    Outer [None]: a read outside the object.  Inner [None]: NULL. *)
Fixpoint Strchr_loop (fuel : nat) (mem : list Z) (s : nat) (c : Z)
  : option (option nat) :=
  match fuel with
  | O => None
  | S fuel' =>
    x0 ← mem !! s;
    if (x0 =? to_char c)%Z then Some (Some s)
    else if (x0 =? 0)%Z then Some None
    else
      x1 ← mem !! (s + 1);
      if (x1 =? c)%Z then Some (Some (s + 1))
      else if (x1 =? 0)%Z then Some None
      else
        x2 ← mem !! (s + 2);
        if (x2 =? c)%Z then Some (Some (s + 2))
        else if (x2 =? 0)%Z then Some None
        else Strchr_loop fuel' mem (s + 3) c
  end.

(** Every round that recurses has read three chars inside [mem], so
    [length mem] rounds are never used up. *)
Definition Strchr (mem : list Z) (s : nat) (c : Z) : option (option nat) :=
  Strchr_loop (S (length mem)) mem s c.

(** The C standard's strchr (7.24.5.2): the first occurrence of [c]
    converted to [char] in the string, whose terminator is part of it; a null
    pointer when there is none.  Offsets are relative to the list's head. *)
Fixpoint strchr_str (str : list Z) (c1 : Z) : option nat :=
  match str with
  | [] => None
  | x :: str' =>
    if (x =? c1)%Z then Some 0
    else if (x =? 0)%Z then None
    else S <$> strchr_str str' c1
  end.

Definition strchr (mem : list Z) (s : nat) (c : Z) : option nat :=
  (λ i, s + i) <$> strchr_str (drop s mem) (to_char c).

(** [mem] holds a terminated string at offset [s]. *)
Definition terminated (mem : list Z) (s : nat) : Prop :=
  ∃ k, s ≤ k ∧ mem !! k = Some 0%Z.

End Strings.

(** ** Machine state: errno and the heap *)

Inductive block : Type :=
| Freed
| Chars (d : list Z)
| Ptrs (d : list ptr).

Record state : Type := {
  errno : Z;
  allocs : nat;          (* allocator calls made so far *)
  heap : list block
}.

Definition with_errno (e : Z) (st : state) : state :=
  {| errno := e; allocs := allocs st; heap := heap st |}.
Definition with_heap (h : list block) (st : state) : state :=
  {| errno := errno st; allocs := allocs st; heap := h |}.
Definition tick (st : state) : state :=
  {| errno := errno st; allocs := S (allocs st); heap := heap st |}.

Definition M (A : Type) : Type := state -> option (A * state).

Definition ret {A} (a : A) : M A := λ st, Some (a, st).
Definition bind {A B} (m : M A) (k : A -> M B) : M B :=
  λ st, match m st with
        | Some (a, st') => k a st'
        | None => None
        end.
Definition ub {A} : M A := λ _, None.
Definition lift {A} (o : option A) : M A :=
  λ st, match o with Some a => Some (a, st) | None => None end.

Notation "'let*' x ':=' m 'in' k" := (bind m (λ x, k))
  (at level 10, x pattern, m at level 200, k at level 200).

Definition get_errno : M Z := λ st, Some (errno st, st).
Definition set_errno (e : Z) : M unit := λ st, Some (tt, with_errno e st).

(** What a failing library call does to errno. *)
Definition lib_fail (e : positive) : M unit := set_errno (Z.pos e).

(** An in-bounds store into an array. *)
Definition store {A} (d : list A) (i : nat) (x : A) : option (list A) :=
  if decide (i < length d) then Some (<[i:=x]> d) else None.

Definition read_chars (b : nat) : M (list Z) :=
  λ st, match heap st !! b with
        | Some (Chars d) => Some (d, st)
        | _ => None
        end.
Definition write_chars (b : nat) (d : list Z) : M unit :=
  λ st, match heap st !! b with
        | Some (Chars _) => Some (tt, with_heap (<[b:=Chars d]> (heap st)) st)
        | _ => None
        end.
Definition read_ptrs (b : nat) : M (list ptr) :=
  λ st, match heap st !! b with
        | Some (Ptrs d) => Some (d, st)
        | _ => None
        end.
Definition write_ptrs (b : nat) (d : list ptr) : M unit :=
  λ st, match heap st !! b with
        | Some (Ptrs _) => Some (tt, with_heap (<[b:=Ptrs d]> (heap st)) st)
        | _ => None
        end.

Definition store_char (b i : nat) (x : Z) : M unit :=
  let* d := read_chars b in
  let* d' := lift (store d i x) in
  write_chars b d'.
Definition load_ptr (b i : nat) : M ptr :=
  let* d := read_ptrs b in lift (d !! i).
Definition store_ptr (b i : nat) (x : ptr) : M unit :=
  let* d := read_ptrs b in
  let* d' := lift (store d i x) in
  write_ptrs b d'.

(** free: a no-op on NULL, otherwise its argument must be the start of a
    live allocation. *)
Definition free (p : ptr) : M unit :=
  λ st, match p with
        | NULL => Some (tt, st)
        | Ptr b O =>
          match heap st !! b with
          | Some (Chars _) | Some (Ptrs _) =>
            Some (tt, with_heap (<[b:=Freed]> (heap st)) st)
          | _ => None
          end
        | Ptr _ (S _) => None
        end.

Section Library.

Variable w : world.

Definition fresh_chars (from len : nat) : list Z :=
  map (junk_char w) (seq from len).

(** malloc of [sz] bytes, the new block made by [mk]. *)
Definition malloc (mk : Z -> block) (sz : Z) : M ptr :=
  λ st, let st1 := tick st in
        match malloc_r w (allocs st) with
        | Fail e => bind (lib_fail e) (λ _, ret NULL) st1
        | Ok _ =>
          if (sz =? 0)%Z && malloc0_null w then Some (NULL, st1)
          else Some (Ptr (length (heap st)) 0,
                     with_heap (heap st ++ [mk sz]) st1)
        end.

Definition malloc_chars : Z -> M ptr :=
  malloc (λ sz, Chars (fresh_chars 0 (Z.to_nat sz))).
Definition malloc_ptrs : Z -> M ptr :=
  malloc (λ sz, Ptrs (replicate (Z.to_nat (sz / PTR_SIZE)) (junk_ptr w))).

(** realloc of a char block to [sz] bytes: the contents are kept up to the
    smaller of the two sizes; on failure the block is untouched.  Asked for
    0 bytes, the platforms of [realloc0_frees] (glibc, MSVC) release the
    block and return NULL without touching errno; the others treat the
    request as any other. *)
Definition resize (d : list Z) (sz : nat) : list Z :=
  take sz d ++ fresh_chars (length d) (sz - length d).

Definition realloc (p : ptr) (sz : Z) : M ptr :=
  λ st, match p with
        | Ptr b O =>
          match heap st !! b with
          | Some (Chars d) =>
            let st1 := tick st in
            if (sz =? 0)%Z && realloc0_frees w then
              Some (NULL, with_heap (<[b:=Freed]> (heap st)) st1)
            else
              match realloc_r w (allocs st) with
              | Fail e => bind (lib_fail e) (λ _, ret NULL) st1
              | Ok moved =>
                let d' := resize d (Z.to_nat sz) in
                if moved
                then Some (Ptr (length (heap st)) 0,
                           with_heap (<[b:=Freed]> (heap st) ++ [Chars d']) st1)
                else Some (Ptr b 0, with_heap (<[b:=Chars d']> (heap st)) st1)
              end
          | _ => None
          end
        | _ => None
        end.

(** fopen(name, "rb"): the stream is the file's contents. *)
Definition fopen (name : string) : M (option (list Z)) :=
  match fopen_r w name with
  | Ok content => ret (Some content)
  | Fail e => let* _ := lib_fail e in ret None
  end.

(** fseek(in, 0, SEEK_END): true when it returns 0. *)
Definition fseek_end : M bool :=
  match fseek_r w with
  | Ok _ => ret true
  | Fail e => let* _ := lib_fail e in ret false
  end.

(** ftell at the end of the stream, converted to size_t. *)
Definition ftell (content : list Z) : Z := wrap (Z.of_nat (length content)).

(** rewind then fread(buf, 1, fsize, in): returns the number of chars stored
    at the start of block [b] and the stream's error indicator.  The read
    can end before [fsize] chars, with an error or without one (the end of
    the file met before the size the seek told, a file cut meanwhile). *)
Definition fread (b : nat) (fsize : Z) (content : list Z) : M (nat * bool) :=
  let wanted :=
    match fread_short w with
    | None => Z.to_nat fsize
    | Some k => Nat.min k (Z.to_nat fsize)
    end in
  let data := take wanted content in
  let* d := read_chars b in
  if decide (length data ≤ length d) then
    let* _ := write_chars b (data ++ drop (length data) d) in
    match fread_r w with
    | Ok _ => ret (length data, false)
    | Fail e => let* _ := lib_fail e in ret (length data, true)
    end
  else ub.

Definition fclose : M unit :=
  match fclose_r w with
  | Ok _ => ret tt
  | Fail e => lib_fail e
  end.

(** ** readFile (lines 89-161) *)

(** Lines 126-128: [for (; s < end; ++s) if ( *s != CR) *d++ = *s;] with
    [k = end - s] rounds to go.  Returns the buffer and the final [d]. *)
Fixpoint compact_loop (k : nat) (buf : list Z) (s d : nat)
  : option (list Z * nat) :=
  match k with
  | O => Some (buf, d)
  | S k' =>
    x ← buf !! s;
    if (x =? CR)%Z then compact_loop k' buf (s + 1) d
    else buf' ← store buf d x; compact_loop k' buf' (s + 1) (d + 1)
  end.

(** Lines 122-133; returns the new [n]. *)
Definition readFile_text (b : nat) (n : nat) (terminate : Z) : M nat :=
  let* buf := read_chars b in
  let* s := lift (Strchr w buf 0 CR) in
  match s with
  | None => ret n
  | Some s =>
    let* (buf', d) := lift (compact_loop (n - s) buf s s) in
    let* _ := write_chars b buf' in
    let n := d in
    let* _ := (if (terminate =? 0)%Z then ret tt else store_char b n NUL) in
    ret n
  end.

(** Lines 134-140; returns the new [buf]. *)
Definition readFile_shrink (b : nat) (n : nat) (fsize t : Z) : M ptr :=
  if (Z.of_nat n <? fsize)%Z then
    let* b' := realloc (Ptr b 0) (wrap (Z.of_nat n + t)) in
    match b' with
    | NULL => let* _ := set_errno 0 in ret (Ptr b 0)
    | _ => ret b'
    end
  else ret (Ptr b 0).

(** Lines 117-141, with [buf] the start of block [b]. *)
Definition readFile_fill (b : nat) (content : list Z)
    (textMode terminate : Z) (fsize t : Z) : M (ptr * nat) :=
  let* (n, err) := fread b fsize content in
  if err then ret (Ptr b 0, n)
  else
    let* _ := (if (terminate =? 0)%Z then ret tt else store_char b n NUL) in
    let* n := (if (textMode =? 0)%Z then ret n
               else readFile_text b n terminate) in
    let* buf := readFile_shrink b n fsize t in
    ret (buf, n).

(** Lines 112-146, with the stream open on [content]. *)
Definition readFile_stream (content : list Z)
    (textMode terminate : Z) (t : Z) (maxSize : Z) : M (ptr * nat) :=
  let* seeked := fseek_end in
  let* r :=
    (if seeked then
       let fsize := ftell content in
       if (maxSize =? 0)%Z || (wrap (fsize + t) <=? maxSize)%Z then
         let* buf := malloc_chars (wrap (fsize + t)) in
         match buf with
         | Ptr b _ => readFile_fill b content textMode terminate fsize t
         | NULL => ret (NULL, 0)
         end
       else
         let* _ := set_errno EFBIG in ret (NULL, 0)
     else ret (NULL, 0)) in
  let* _ := fclose in
  ret r.

(** Lines 150-160, shared by readFile and readLines: on a non-zero errno
    the count is zeroed and [buf] released, otherwise errno is restored.
    Returns the final [buf] and count. *)
Definition epilogue (e : Z) (buf : ptr) (n : nat) : M (ptr * nat) :=
  let* err := get_errno in
  if (err =? 0)%Z then
    let* _ := set_errno e in ret (buf, n)
  else
    let* _ := free buf in ret (NULL, 0).

(** [fileName] is [None] for a null pointer.  The result is the returned
    pointer and the value stored in [*length] when [length] is non-null. *)
Definition readFile (fileName : option string) (textMode terminate : Z)
    (maxSize : Z) : M (ptr * nat) :=
  let* e := get_errno in
  let* (buf, n) :=
    (match fileName with
     | None => let* _ := set_errno EINVAL in ret (NULL, 0)
     | Some name =>
       let terminate := if (textMode =? 0)%Z then terminate else TRUE in
       let t := if (terminate =? 0)%Z then 0%Z else 1%Z in
       let* _ := set_errno 0 in
       let* in_ := fopen name in
       match in_ with
       | Some content => readFile_stream content textMode terminate t maxSize
       | None => ret (NULL, 0)
       end
     end) in
  epilogue e buf n.

(** ** readLines (lines 190-241) and freeLines (lines 251-257) *)

(** Lines 205-206: [for (p = buf; (p = Strchr(p, LF)); ++p) ++lnCnt;]. *)
Fixpoint count_loop (fuel : nat) (buf : list Z) (p lnCnt : nat)
  : option nat :=
  match fuel with
  | O => None
  | S fuel' =>
    q ← Strchr w buf p LF;
    match q with
    | None => Some lnCnt
    | Some q => count_loop fuel' buf (q + 1) (lnCnt + 1)
    end
  end.

(** Lines 214-218: [for (p = buf; (p = Strchr(p, LF));)
    { *p++ = NUL; if ( *p) *ln++ = p; }] over the chars of block [b] and the
    table; returns both and the final [ln]. *)
Fixpoint fill_loop (fuel : nat) (b : nat) (buf : list Z) (lines : list ptr)
    (p ln : nat) : option (list Z * list ptr * nat) :=
  match fuel with
  | O => None
  | S fuel' =>
    q ← Strchr w buf p LF;
    match q with
    | None => Some (buf, lines, ln)
    | Some q =>
      buf' ← store buf q NUL;
      x ← buf' !! (q + 1);
      if (x =? 0)%Z then fill_loop fuel' b buf' lines (q + 1) ln
      else
        lines' ← store lines ln (Ptr b (q + 1));
        fill_loop fuel' b buf' lines' (q + 1) (ln + 1)
    end
  end.

(** Lines 211-223, with [buf] at offset [o] of block [b] and [lines] the
    start of block [lb]; returns the new [buf]. *)
Definition readLines_table (b o : nat) (length : nat) (lb : nat) : M ptr :=
  let* (buf, ln) :=
    (if length =? 0 then
       let* _ := free (Ptr b o) in ret (NULL, 0)
     else
       let* _ := store_ptr lb 0 (Ptr b o) in
       let* d := read_chars b in
       let* tbl := read_ptrs lb in
       let* (d', tbl', ln) := lift (fill_loop (S (List.length d)) b d tbl o 1) in
       let* _ := write_chars b d' in
       let* _ := write_ptrs lb tbl' in
       ret (Ptr b o, ln)) in
  let* _ := store_ptr lb ln NULL in
  ret buf.

(** Lines 203-228; returns [lines], [buf] and [lnCnt]. *)
Definition readLines_split (buf : ptr) (length : nat) (maxSize : Z)
  : M (ptr * ptr * nat) :=
  match buf with
  | NULL => ret (NULL, NULL, 0)
  | Ptr b o =>
    let* d := read_chars b in
    let* lnCnt :=
      lift (if length =? 0 then Some 0
            else x ← d !! (o + length - 1);
                 Some (if (x =? LF)%Z then 0 else 1)) in
    let* lnCnt := lift (count_loop (S (List.length d)) d o lnCnt) in
    let linesSize := wrap ((Z.of_nat lnCnt + 1) * PTR_SIZE) in
    if (maxSize =? 0)%Z
       || (wrap (wrap (linesSize + Z.of_nat length) + 1) <=? maxSize)%Z then
      let* lines := malloc_ptrs linesSize in
      match lines with
      | NULL => ret (NULL, buf, lnCnt)
      | Ptr lb _ =>
        let* buf := readLines_table b o length lb in
        ret (lines, buf, lnCnt)
      end
    else
      let* _ := set_errno EFBIG in ret (NULL, buf, lnCnt)
  end.

(** The result is the returned pointer and the value stored in
    [*lineCount] when [lineCount] is non-null. *)
Definition readLines (fileName : option string) (maxSize : Z)
  : M (ptr * nat) :=
  let* e := get_errno in
  let* _ := set_errno 0 in
  let* (buf, length) := readFile fileName 1 1 maxSize in
  let* (lines, buf, lnCnt) := readLines_split buf length maxSize in
  let* (_, lnCnt) := epilogue e buf lnCnt in
  ret (lines, lnCnt).

End Library.

Definition freeLines (lines : ptr) : M unit :=
  let* _ := (match lines with
             | NULL => ret tt
             | Ptr lb i => let* first := load_ptr lb i in free first
             end) in
  free lines.

(** * Functional descriptions used in the statements *)

Definition strip_cr (l : list Z) : list Z := filter (λ x, x ≠ CR) l.
Definition count_lf (l : list Z) : nat := length (filter (λ x, x = LF) l).
Definition no_nul (l : list Z) : Prop := Forall (λ x, x ≠ NUL) l.

(** Does the content end in a line feed? *)
Definition ends_lf (l : list Z) : bool :=
  match last l with
  | Some x => (x =? LF)%Z
  | None => false
  end.

(** Offsets at which a further line starts: one past each line feed that is
    not the last char, for chars laid out from offset [p]. *)
Fixpoint line_starts (p : nat) (l : list Z) : list nat :=
  match l with
  | [] => []
  | x :: l' =>
    (if (x =? LF)%Z then match l' with [] => [] | _ :: _ => [S p] end else [])
    ++ line_starts (S p) l'
  end.

(** The chars after the line feeds have been overwritten by terminators. *)
Definition cut_lines (l : list Z) : list Z :=
  map (λ x, if (x =? LF)%Z then NUL else x) l.

(** What text mode leaves of the chars read: the scan for the first
    carriage return stops at a NUL, and only when it finds one are the
    carriage returns taken out. *)
Definition text_mode_content (l : list Z) : list Z :=
  match strchr_str (l ++ [NUL]) CR with
  | Some _ => strip_cr l
  | None => l
  end.

(** The chars readFile reports: the file's in binary mode. *)
Definition mode_content (textMode : Z) (content : list Z) : list Z :=
  if (textMode =? 0)%Z then content else text_mode_content content.

(** Line 105: the terminator allowance [t]. *)
Definition allowance (textMode terminate : Z) : Z :=
  if (textMode =? 0)%Z then (if (terminate =? 0)%Z then 0%Z else 1%Z) else 1%Z.

(** The stream calls on the file [name] succeed and the read delivers all
    of [content]. *)
Definition io_ok (w : world) (name : string) (content : list Z) : Prop :=
  fopen_r w name = Ok content ∧ fseek_r w = Ok tt
  ∧ fread_r w = Ok tt ∧ fread_short w = None ∧ fclose_r w = Ok tt.

(** The number of lines of a text: its line feeds, and one more for a last
    line that no line feed ends. *)
Definition line_count (text : list Z) : nat :=
  count_lf text
  + (if ends_lf text then 0 else match text with [] => 0 | _ :: _ => 1 end).

(** Offsets of the line starts of a text: offset 0 and [line_starts] when
    the text is not empty. *)
Definition line_offsets (text : list Z) : list nat :=
  match text with
  | [] => []
  | _ :: _ => 0 :: line_starts 0 text
  end.

(** A bound on file sizes under which readLines' size computations stay
    inside [size_t]. *)
Definition FILE_MAX : Z := 2 ^ 60.

(** The heap [h] is [h0] followed by released blocks and, last, the live
    char buffer [b] holding [d]. *)
Definition holds_buf (h0 h : list block) (b : nat) (d : list Z) : Prop :=
  ∃ k, h = h0 ++ replicate k Freed ++ [Chars d] ∧ b = length h0 + k.

(** The heap [h] is [h0] followed by released blocks only. *)
Definition all_released (h0 h : list block) : Prop :=
  ∃ k, h = h0 ++ replicate k Freed.

(** What realloc(buf, 0) leaves on the platforms that release the block:
    the block [b] released, like every block allocated since [h0].  It is
    asked for 0 bytes only with no terminator allowance ([t] is 0) and no
    char read ([n] is 0). *)
Definition released_buf (w : world) (h0 h : list block) (b : nat)
    (t : Z) (n : nat) : Prop :=
  realloc0_frees w = true ∧ t = 0%Z ∧ n = 0
  ∧ all_released h0 h ∧ h !! b = Some Freed.

(** The state in which readLines hands over a table: the table is the last
    block of the heap [h]; its first entry is the start of the live content
    buffer, or it is NULL and the buffer has been released already.  In
    both cases nothing else allocated since [h0] is live. *)
Definition table_owns (h0 h : list block) (lines : ptr) (n : nat) : Prop :=
  ∃ hb tbl,
    h = hb ++ [Ptrs tbl] ∧ lines = Ptr (length hb) 0
    ∧ ((∃ b d, holds_buf h0 hb b d ∧ tbl !! 0 = Some (Ptr b 0) ∧ n ≠ 0)
       ∨ (all_released h0 hb ∧ tbl !! 0 = Some NULL)).

Definition count_cr (l : list Z) : nat := length (filter (λ x, x = CR) l).

(** ** Sample worlds and states *)

(** Every library call succeeds, the file holds [content], realloc shrinks
    in place, char is signed and malloc(0) returns a pointer. *)
Definition demo_world (content : list Z) : world :=
  {| char_signed := true;
     malloc0_null := false;
     junk_char := λ _, 85%Z;
     junk_ptr := Ptr 0 7;
     fopen_r := λ _, Ok content;
     fseek_r := Ok tt;
     fread_r := Ok tt;
     fread_short := None;
     fclose_r := Ok tt;
     malloc_r := λ _, Ok tt;
     realloc_r := λ _, Ok false;
     realloc0_frees := false |}.

(** As [demo_world], on a platform whose malloc(0) returns NULL. *)
Definition malloc0_world (content : list Z) : world :=
  {| char_signed := true;
     malloc0_null := true;
     junk_char := λ _, 85%Z;
     junk_ptr := Ptr 0 7;
     fopen_r := λ _, Ok content;
     fseek_r := Ok tt;
     fread_r := Ok tt;
     fread_short := None;
     fclose_r := Ok tt;
     malloc_r := λ _, Ok tt;
     realloc_r := λ _, Ok false;
     realloc0_frees := false |}.

(** As [demo_world], with every realloc failing with ENOMEM. *)
Definition no_realloc_world (content : list Z) : world :=
  {| char_signed := true;
     malloc0_null := false;
     junk_char := λ _, 85%Z;
     junk_ptr := Ptr 0 7;
     fopen_r := λ _, Ok content;
     fseek_r := Ok tt;
     fread_r := Ok tt;
     fread_short := None;
     fclose_r := Ok tt;
     malloc_r := λ _, Ok tt;
     realloc_r := λ _, Fail 12%positive;
     realloc0_frees := false |}.

(** As [demo_world], with the read failing with EIO after two chars. *)
Definition read_error_world (content : list Z) : world :=
  {| char_signed := true;
     malloc0_null := false;
     junk_char := λ _, 85%Z;
     junk_ptr := Ptr 0 7;
     fopen_r := λ _, Ok content;
     fseek_r := Ok tt;
     fread_r := Fail 5%positive;
     fread_short := Some 2;
     fclose_r := Ok tt;
     malloc_r := λ _, Ok tt;
     realloc_r := λ _, Ok false;
     realloc0_frees := false |}.

(** As [demo_world], with the read ending after [k] chars without an
    error, on a platform whose realloc(p, 0) releases [p] (glibc). *)
Definition short_read_world (content : list Z) (k : nat) : world :=
  {| char_signed := true;
     malloc0_null := false;
     junk_char := λ _, 85%Z;
     junk_ptr := Ptr 0 7;
     fopen_r := λ _, Ok content;
     fseek_r := Ok tt;
     fread_r := Ok tt;
     fread_short := Some k;
     fclose_r := Ok tt;
     malloc_r := λ _, Ok tt;
     realloc_r := λ _, Ok false;
     realloc0_frees := true |}.

(** A caller's state: errno holds 5 from some earlier call, one live block. *)
Definition demo_state : state :=
  {| errno := 5; allocs := 0; heap := [Chars [120%Z]] |}.

(** The ways readFile fails: the causes of lines 100-145. *)
Inductive readFile_failure (w : world) (st : state)
    (textMode terminate maxSize : Z) : option string -> Prop :=
| fail_invalid_path :
    readFile_failure w st textMode terminate maxSize None
| fail_open (name : string) (e : positive) :
    fopen_r w name = Fail e ->
    readFile_failure w st textMode terminate maxSize (Some name)
| fail_seek (name : string) (content : list Z) (e : positive) :
    fopen_r w name = Ok content -> fseek_r w = Fail e ->
    readFile_failure w st textMode terminate maxSize (Some name)
| fail_size_limit (name : string) (content : list Z) :
    fopen_r w name = Ok content -> fseek_r w = Ok tt ->
    maxSize ≠ 0%Z ->
    (maxSize < wrap (ftell content + allowance textMode terminate))%Z ->
    readFile_failure w st textMode terminate maxSize (Some name)
| fail_alloc (name : string) (content : list Z) (e : positive) :
    fopen_r w name = Ok content -> fseek_r w = Ok tt ->
    (maxSize = 0
     ∨ wrap (ftell content + allowance textMode terminate) <= maxSize)%Z ->
    malloc_r w (allocs st) = Fail e ->
    readFile_failure w st textMode terminate maxSize (Some name)
| fail_read (name : string) (content : list Z) (e : positive) :
    fopen_r w name = Ok content -> fseek_r w = Ok tt ->
    (maxSize = 0
     ∨ wrap (ftell content + allowance textMode terminate) <= maxSize)%Z ->
    malloc_r w (allocs st) = Ok tt ->
    (malloc0_null w = false
     ∨ 0 < Z.of_nat (length content) + allowance textMode terminate)%Z ->
    (Z.of_nat (length content) <= LONG_MAX)%Z ->
    fread_r w = Fail e ->
    readFile_failure w st textMode terminate maxSize (Some name).

(** [i] is the first place at or after [s] where the string holds [c]:
    no [c] and no terminator comes before it. *)
Definition first_occurrence (mem : list Z) (s i : nat) (c : Z) : Prop :=
  s ≤ i ∧ mem !! i = Some c
  ∧ ∀ j, s ≤ j < i -> ∃ x, mem !! j = Some x ∧ x ≠ c ∧ x ≠ 0%Z.

(** The string at [s] ends at [k] without holding [c]. *)
Definition absent (mem : list Z) (s : nat) (c : Z) : Prop :=
  ∃ k, s ≤ k ∧ mem !! k = Some 0%Z
       ∧ (∀ j, s ≤ j < k -> mem !! j ≠ Some 0%Z)
       ∧ ∀ j, s ≤ j ≤ k -> mem !! j ≠ Some c.

(** * The test program (lines 282-311, under READFILE_TEST) *)

(** The string at the head of the chars [l]: the chars before the first
    NUL; [None] when no NUL ends it (printf would read past the object). *)
Fixpoint c_string (l : list Z) : option (list Z) :=
  match l with
  | [] => None
  | x :: l' => if (x =? 0)%Z then Some [] else (x ::.) <$> c_string l'
  end.

(** What main writes, in order. *)
Inductive event : Type :=
| Usage (progName : option string)   (* stderr: "Usage: %s filename\n" *)
| ReadError (progName fileName : option string) (errnum : Z)
                                     (* stderr: the two names, then perror *)
| Line (s : list Z)                  (* stdout: printf("%s\n", s) *)
| LineCount (n : Z).                 (* stderr: "lineCount: %ld\n" *)

(** Conversion of a size_t to long. *)
Definition to_long (x : Z) : Z :=
  ((x + 2 ^ (SIZE_BITS - 1)) mod 2 ^ SIZE_BITS - 2 ^ (SIZE_BITS - 1))%Z.

(** Lines 302-304: [p = lines; while ( *p) printf("%s\n", *p++);] with [p]
    at entry [i] of the table block [lb]. *)
Fixpoint print_loop (fuel : nat) (lb i : nat) : M (list event) :=
  match fuel with
  | O => ub
  | S fuel' =>
    let* p := load_ptr lb i in
    match p with
    | NULL => ret []
    | Ptr b o =>
      let* d := read_chars b in
      let* s := lift (c_string (drop o d)) in
      let* out := print_loop fuel' lb (i + 1) in
      ret (Line s :: out)
    end
  end.

Section Program.

Variable w : world.

(** [argv] holds the [argc] arguments; the result is the exit status and
    what was written. *)
Definition main (argv : list string) : M (Z * list event) :=
  let progName := argv !! 0 in
  if negb (length argv =? 2) then ret (1%Z, [Usage progName])
  else
    let filename := argv !! 1 in
    let* (lines, lineCount) := readLines w filename 0 in
    match lines with
    | NULL =>
      let* e := get_errno in
      ret (1%Z, [ReadError progName filename e])
    | Ptr lb i =>
      let* tbl := read_ptrs lb in
      let* out := print_loop (S (length tbl)) lb i in
      let* _ := freeLines lines in
      ret (0%Z, out ++ [LineCount (to_long (Z.of_nat lineCount))])
    end.

End Program.

(** The bytes written to stdout. *)
Definition stdout_of (evs : list event) : list Z :=
  concat (map (λ ev, match ev with Line s => s ++ [LF] | _ => [] end) evs).

(** The lines of a text: it is cut at each line feed, and a line feed at
    its end opens no further line. *)
Fixpoint split_lines (text : list Z) : list (list Z) :=
  match text with
  | [] => []
  | x :: text' =>
    if (x =? LF)%Z then [] :: split_lines text'
    else match split_lines text' with
         | [] => [[x]]
         | line :: lines => (x :: line) :: lines
         end
  end.

(** The string at a pointer, in a heap. *)
Definition string_at (h : list block) (p : ptr) : option (list Z) :=
  match p with
  | NULL => None
  | Ptr b o =>
    match h !! b with
    | Some (Chars d) => c_string (drop o d)
    | _ => None
    end
  end.

(** The line feed main's output ends with and the text lacks. *)
Definition final_lf (text : list Z) : list Z :=
  if ends_lf text then [] else match text with [] => [] | _ :: _ => [LF] end.

(** * Strchr and the standard strchr *)

Section StrchrFacts.
Variable w : world.

Lemma strchr_unfold (mem : list Z) (s : nat) (c x : Z) :
  mem !! s = Some x ->
  strchr w mem s c =
    if (x =? to_char w c)%Z then Some s
    else if (x =? 0)%Z then None
    else strchr w mem (S s) c.
Proof.
  intros Hx. unfold strchr. rewrite (drop_S _ _ _ Hx). simpl.
  destruct (x =? to_char w c)%Z.
  - simpl. f_equal. lia.
  - destruct (x =? 0)%Z; [reflexivity|].
    rewrite <- option_fmap_compose. apply option_fmap_ext. intros i. simpl. lia.
Qed.

Lemma terminated_lookup (mem : list Z) (s : nat) :
  terminated mem s -> ∃ x, mem !! s = Some x.
Proof.
  intros (k & Hk & H0). apply lookup_lt_is_Some.
  apply lookup_lt_Some in H0. lia.
Qed.

Lemma terminated_next (mem : list Z) (s : nat) (x : Z) :
  terminated mem s -> mem !! s = Some x -> x ≠ 0%Z -> terminated mem (S s).
Proof.
  intros (k & Hk & H0) Hx Hne. exists k. split; [|exact H0].
  destruct (decide (k = s)) as [->|]; [congruence|lia].
Qed.

Lemma Strchr_loop_strchr (c : Z) (mem : list Z) :
  to_char w c = c ->
  ∀ fuel s, terminated mem s -> length mem - s < fuel ->
    Strchr_loop w fuel mem s c = Some (strchr w mem s c).
Proof.
  intros Hc. induction fuel as [|fuel IH]; intros s Ht Hf; [lia|].
  simpl.
  destruct (terminated_lookup _ _ Ht) as [x0 H0].
  rewrite H0, (strchr_unfold _ _ _ _ H0), Hc. simpl.
  destruct (Z.eqb_spec x0 c); [reflexivity|].
  destruct (Z.eqb_spec x0 0); [reflexivity|].
  pose proof (terminated_next _ _ _ Ht H0 n0) as Ht1.
  destruct (terminated_lookup _ _ Ht1) as [x1 H1].
  replace (s + 1) with (S s) by lia.
  rewrite H1, (strchr_unfold _ _ _ _ H1), Hc. simpl.
  destruct (Z.eqb_spec x1 c); [reflexivity|].
  destruct (Z.eqb_spec x1 0); [reflexivity|].
  pose proof (terminated_next _ _ _ Ht1 H1 n2) as Ht2.
  destruct (terminated_lookup _ _ Ht2) as [x2 H2].
  replace (s + 2) with (S (S s)) by lia.
  rewrite H2, (strchr_unfold _ _ _ _ H2), Hc. simpl.
  destruct (Z.eqb_spec x2 c); [reflexivity|].
  destruct (Z.eqb_spec x2 0); [reflexivity|].
  pose proof (terminated_next _ _ _ Ht2 H2 n4) as Ht3.
  replace (s + 3) with (S (S (S s))) by lia.
  apply IH; [exact Ht3|].
  apply lookup_lt_Some in H2. lia.
Qed.

Theorem Strchr_is_strchr (mem : list Z) (s : nat) (c : Z) :
  terminated mem s -> to_char w c = c ->
  Strchr w mem s c = Some (strchr w mem s c).
Proof.
  intros Ht Hc. unfold Strchr. apply Strchr_loop_strchr; [exact Hc|exact Ht|lia].
Qed.
End StrchrFacts.

(** * The compaction loop *)

Lemma store_Some {A} (d : list A) (i : nat) (x : A) :
  i < length d -> store d i x = Some (<[i:=x]> d).
Proof. intros H. unfold store. destruct (decide (i < length d)); [reflexivity|lia]. Qed.

Lemma store_inv {A} (d d' : list A) (i : nat) (x : A) :
  store d i x = Some d' -> i < length d ∧ d' = <[i:=x]> d.
Proof. unfold store. destruct (decide (i < length d)); intros [= <-]; auto. Qed.

Lemma compact_loop_spec (k : nat) :
  ∀ (buf : list Z) (s d : nat),
    d ≤ s -> s + k ≤ length buf ->
    ∃ buf', compact_loop k buf s d
            = Some (buf', d + length (strip_cr (take k (drop s buf))))
      ∧ length buf' = length buf
      ∧ take (d + length (strip_cr (take k (drop s buf)))) buf'
        = take d buf ++ strip_cr (take k (drop s buf))
      ∧ drop (s + k) buf' = drop (s + k) buf.
Proof.
  induction k as [|k IH]; intros buf s d Hd Hs.
  - exists buf. simpl. rewrite !Nat.add_0_r, app_nil_r. auto.
  - destruct (lookup_lt_is_Some_2 buf s) as [x Hx]; [lia|].
    simpl. rewrite Hx. simpl. rewrite (drop_S _ _ _ Hx). simpl.
    unfold strip_cr in IH |- *. destruct (Z.eqb_spec x CR) as [->|Hne].
    + rewrite filter_cons_False by (intros H; apply H; reflexivity).
      destruct (IH buf (s + 1) d) as (buf' & Hrun & Hlen & Htake & Hdrop); [lia|lia|].
      replace (S s) with (s + 1) by lia. exists buf'.
      replace (s + S k) with (s + 1 + k) by lia. auto.
    + rewrite filter_cons_True by exact Hne.
      rewrite store_Some by lia. simpl.
      destruct (IH (<[d:=x]> buf) (s + 1) (d + 1)) as (buf' & Hrun & Hlen & Htake & Hdrop);
        [lia|rewrite length_insert; lia|].
      rewrite drop_insert_lt in Hrun, Htake by lia.
      replace (S s) with (s + 1) by lia. exists buf'.
      replace (s + S k) with (s + 1 + k) by lia.
      simpl. replace (d + S (length (filter (λ x0 : Z, x0 ≠ CR) (take k (drop (s + 1) buf)))))
        with (d + 1 + length (filter (λ x0 : Z, x0 ≠ CR) (take k (drop (s + 1) buf)))) by lia.
      rewrite length_insert in Hlen.
      rewrite drop_insert_lt in Hdrop by lia.
      split; [exact Hrun|]. split; [exact Hlen|]. split; [|exact Hdrop].
      rewrite Htake. replace (d + 1) with (S d) by lia.
      rewrite (take_S_r _ _ x) by (apply list_lookup_insert_eq; lia).
      rewrite take_insert_ge by lia. rewrite <- app_assoc. reflexivity.
Qed.

(** * The counting loop *)

Section LoopFacts.
Variable w : world.

Lemma to_char_small (c : Z) : (0 <= c < 128)%Z -> to_char w c = c.
Proof.
  intros H. unfold to_char. destruct (char_signed w).
  - rewrite Z.mod_small by lia. lia.
  - apply Z.mod_small. lia.
Qed.

Lemma Strchr_hit (mem : list Z) (p : nat) (c : Z) :
  mem !! p = Some (to_char w c) -> Strchr w mem p c = Some (Some p).
Proof.
  intros H. unfold Strchr. simpl. rewrite H. simpl. rewrite Z.eqb_refl. reflexivity.
Qed.

Lemma Strchr_nul (mem : list Z) (p : nat) (c : Z) :
  mem !! p = Some 0%Z -> to_char w c ≠ 0%Z -> Strchr w mem p c = Some None.
Proof.
  intros H Hc. unfold Strchr. cbn -[Z.eqb]. rewrite H. cbn -[Z.eqb].
  destruct (Z.eqb_spec 0 (to_char w c)); [congruence|reflexivity].
Qed.

Lemma Strchr_skip (mem : list Z) (p : nat) (c x : Z) :
  terminated mem p -> to_char w c = c ->
  mem !! p = Some x -> x ≠ c -> x ≠ 0%Z ->
  Strchr w mem p c = Strchr w mem (S p) c.
Proof.
  intros Ht Hc Hx Hne H0.
  rewrite (Strchr_is_strchr w mem p c Ht Hc).
  rewrite (Strchr_is_strchr w mem (S p) c (terminated_next _ _ _ Ht Hx H0) Hc).
  rewrite (strchr_unfold w _ _ _ _ Hx), Hc.
  destruct (Z.eqb_spec x c); [contradiction|].
  destruct (Z.eqb_spec x 0); [contradiction|reflexivity].
Qed.

Lemma terminated_middle (pre suf rest : list Z) :
  terminated (pre ++ suf ++ 0%Z :: rest) (length pre).
Proof.
  exists (length pre + length suf). split; [lia|].
  rewrite lookup_app_r by lia.
  replace (length pre + length suf - length pre) with (length suf) by lia.
  apply list_lookup_middle. reflexivity.
Qed.

Lemma lookup_pre_head (pre : list Z) (x : Z) (l : list Z) :
  (pre ++ x :: l) !! length pre = Some x.
Proof. apply list_lookup_middle. reflexivity. Qed.

Lemma count_loop_skip (fuel : nat) (mem : list Z) (p acc : nat) (x : Z) :
  terminated mem p -> mem !! p = Some x -> x ≠ LF -> x ≠ 0%Z ->
  count_loop w fuel mem p acc = count_loop w fuel mem (S p) acc.
Proof.
  intros Ht Hx Hne H0. destruct fuel as [|fuel]; [reflexivity|]. simpl.
  rewrite (Strchr_skip mem p LF x Ht (to_char_small LF ltac:(unfold LF; lia)) Hx Hne H0).
  reflexivity.
Qed.

Lemma count_loop_spec (suf : list Z) :
  ∀ (pre rest : list Z) (acc fuel : nat),
    no_nul suf -> length suf < fuel ->
    count_loop w fuel (pre ++ suf ++ 0%Z :: rest) (length pre) acc
    = Some (acc + count_lf suf).
Proof.
  induction suf as [|x suf IH]; intros pre rest acc fuel Hnn Hf.
  - destruct fuel as [|fuel]; [simpl in Hf; lia|]. simpl.
    rewrite Strchr_nul.
    + simpl. f_equal. unfold count_lf. simpl. lia.
    + apply lookup_pre_head.
    + rewrite to_char_small; unfold LF; lia.
  - apply Forall_cons in Hnn as [Hx Hnn]. simpl in Hf.
    assert (Hstep : pre ++ (x :: suf) ++ 0%Z :: rest
                    = (pre ++ [x]) ++ suf ++ 0%Z :: rest)
      by (rewrite <- app_assoc; reflexivity).
    assert (Hlen : S (length pre) = length (pre ++ [x]))
      by (rewrite length_app; simpl; lia).
    destruct (decide (x = LF)) as [->|Hne].
    + destruct fuel as [|fuel]; [lia|]. simpl.
      rewrite Strchr_hit
        by (rewrite to_char_small by (unfold LF; lia); apply lookup_pre_head).
      simpl. replace (length pre + 1) with (S (length pre)) by lia.
      change (pre ++ LF :: suf ++ 0%Z :: rest) with (pre ++ (LF :: suf) ++ 0%Z :: rest).
      rewrite Hstep, Hlen, IH by (auto; lia).
      f_equal. unfold count_lf. rewrite filter_cons_True by reflexivity. simpl. lia.
    + rewrite (count_loop_skip _ _ _ _ x (terminated_middle pre (x :: suf) rest)
                 (lookup_pre_head pre x _) Hne Hx).
      rewrite Hstep, Hlen, IH by (auto; lia).
      f_equal. unfold count_lf. rewrite filter_cons_False by exact Hne. reflexivity.
Qed.

End LoopFacts.

(** * The loop that fills the table *)

Section FillFacts.
Variable w : world.

Lemma to_char_LF : to_char w LF = LF.
Proof. apply to_char_small. unfold LF. lia. Qed.

Lemma to_char_CR : to_char w CR = CR.
Proof. apply to_char_small. unfold CR. lia. Qed.

Lemma insert_pre_head {A} (pre : list A) (x y : A) (l : list A) :
  <[length pre:=y]> (pre ++ x :: l) = pre ++ y :: l.
Proof.
  replace (length pre) with (length pre + 0) by lia.
  rewrite insert_app_r. reflexivity.
Qed.

Lemma lookup_pre_second {A} (pre : list A) (x y : A) (l : list A) :
  (pre ++ x :: y :: l) !! S (length pre) = Some y.
Proof.
  rewrite lookup_app_r by lia.
  replace (S (length pre) - length pre) with 1 by lia. reflexivity.
Qed.

Lemma line_starts_lf (p : nat) (y : Z) (l : list Z) :
  line_starts p (LF :: y :: l) = S p :: line_starts (S p) (y :: l).
Proof. reflexivity. Qed.

Lemma line_starts_other (p : nat) (x : Z) (l : list Z) :
  x ≠ LF -> line_starts p (x :: l) = line_starts (S p) l.
Proof.
  intros H. cbn [line_starts]. destruct (Z.eqb_spec x LF); [contradiction|].
  reflexivity.
Qed.

Lemma fill_loop_skip (fuel b : nat) (mem : list Z) (lines : list ptr)
    (p ln : nat) (x : Z) :
  terminated mem p -> mem !! p = Some x -> x ≠ LF -> x ≠ 0%Z ->
  fill_loop w fuel b mem lines p ln = fill_loop w fuel b mem lines (S p) ln.
Proof.
  intros Ht Hx Hne H0. destruct fuel as [|fuel]; [reflexivity|]. simpl.
  rewrite (Strchr_skip w mem p LF x Ht to_char_LF Hx Hne H0).
  reflexivity.
Qed.

Lemma fill_loop_spec (b : nat) (suf : list Z) :
  ∀ (pre rest : list Z) (lines : list ptr) (ln fuel : nat),
    no_nul suf -> length suf < fuel ->
    ln + length (line_starts (length pre) suf) ≤ length lines ->
    fill_loop w fuel b (pre ++ suf ++ 0%Z :: rest) lines (length pre) ln
    = Some (pre ++ cut_lines suf ++ 0%Z :: rest,
            take ln lines ++ map (Ptr b) (line_starts (length pre) suf)
              ++ drop (ln + length (line_starts (length pre) suf)) lines,
            ln + length (line_starts (length pre) suf)).
Proof.
  induction suf as [|x suf IH]; intros pre rest lines ln fuel Hnn Hf Hcap.
  - destruct fuel as [|fuel]; [simpl in Hf; lia|]. simpl.
    rewrite Strchr_nul
      by (first [apply lookup_pre_head | rewrite to_char_LF; unfold LF; lia]).
    simpl. rewrite Nat.add_0_r, take_drop. reflexivity.
  - apply Forall_cons in Hnn as [Hx Hnn]. simpl in Hf.
    assert (Hstep : ∀ y, pre ++ y :: suf ++ 0%Z :: rest
                         = (pre ++ [y]) ++ suf ++ 0%Z :: rest)
      by (intros y; rewrite <- app_assoc; reflexivity).
    assert (Hlen : ∀ y : Z, S (length pre) = length (pre ++ [y]))
      by (intros y; rewrite length_app; simpl; lia).
    destruct (decide (x = LF)) as [->|Hne].
    + destruct fuel as [|fuel]; [lia|].
      cbn [fill_loop app].
      rewrite Strchr_hit by (rewrite to_char_LF; apply lookup_pre_head).
      cbn [mbind option_bind].
      rewrite (store_Some (pre ++ _)) by (rewrite length_app; simpl; lia).
      cbn [mbind option_bind]. unfold NUL. rewrite insert_pre_head.
      replace (length pre + 1) with (S (length pre)) by lia.
      destruct suf as [|y suf].
      * cbn [app]. rewrite lookup_pre_second. cbn [mbind option_bind Z.eqb].
        change (pre ++ 0%Z :: 0%Z :: rest) with (pre ++ 0%Z :: [] ++ 0%Z :: rest).
        rewrite (Hstep 0%Z), (Hlen 0%Z).
        rewrite IH by (auto; simpl in *; lia).
        rewrite <- (Hlen 0%Z). simpl. rewrite <- app_assoc. reflexivity.
      * apply Forall_cons in Hnn as Hnn'. destruct Hnn' as [Hy _].
        cbn [app]. rewrite lookup_pre_second. cbn [mbind option_bind].
        destruct (Z.eqb_spec y 0); [contradiction|].
        rewrite line_starts_lf in Hcap |- *. cbn [length] in Hcap.
        rewrite store_Some by lia. cbn [mbind option_bind].
        change (pre ++ 0%Z :: y :: suf ++ 0%Z :: rest)
          with (pre ++ 0%Z :: (y :: suf) ++ 0%Z :: rest).
        rewrite (Hstep 0%Z), (Hlen 0%Z).
        rewrite (IH (pre ++ [0%Z]) rest (<[ln:=Ptr b (length (pre ++ [0%Z]))]> lines) (ln + 1) fuel)
          by (first [exact Hnn | simpl in *; lia
                    | rewrite length_insert, <- (Hlen 0%Z); lia]).
        rewrite <- (Hlen 0%Z).
        cbn [length map cut_lines]. rewrite Z.eqb_refl.
        f_equal. f_equal; [f_equal|lia].
        -- rewrite <- app_assoc. reflexivity.
        -- replace (ln + 1) with (S ln) by lia.
           rewrite (take_S_r _ _ (Ptr b (S (length pre))))
             by (apply list_lookup_insert_eq; lia).
           rewrite take_insert_ge by lia.
           rewrite drop_insert_lt by lia.
           rewrite <- app_assoc. cbn [app].
           do 4 f_equal. lia.
    + rewrite (fill_loop_skip _ _ _ _ _ _ x (terminated_middle pre (x :: suf) rest)
                 (lookup_pre_head pre x _) Hne Hx).
      cbn [app]. rewrite Hstep, (Hlen x).
      rewrite (line_starts_other _ _ _ Hne) in Hcap |- *.
      rewrite (Hlen x) in Hcap.
      rewrite IH by (auto; lia).
      rewrite <- (Hlen x). cbn [cut_lines map].
      destruct (Z.eqb_spec x LF); [contradiction|].
      rewrite <- app_assoc. reflexivity.
Qed.

End FillFacts.

(** * Facts on contents *)

Section ContentFacts.

Lemma line_starts_count (l : list Z) (p : nat) :
  length (line_starts p l) + (if ends_lf l then 1 else 0) = count_lf l.
Proof.
  revert p. induction l as [|x l IH]; intros p; [reflexivity|].
  unfold count_lf in *. cbn [line_starts].
  assert (Hends : ends_lf (x :: l)
                  = match l with [] => (x =? LF)%Z | _ :: _ => ends_lf l end)
    by (destruct l; reflexivity).
  rewrite Hends, length_app.
  destruct (Z.eqb_spec x LF) as [->|Hne].
  - rewrite filter_cons_True by reflexivity. cbn [length].
    rewrite <- (IH (S p)). destruct l; simpl; lia.
  - rewrite filter_cons_False by exact Hne.
    rewrite <- (IH (S p)). destruct l; simpl; lia.
Qed.

Lemma strchr_str_take (c : Z) (n : nat) :
  ∀ d : list Z, d !! n = Some 0%Z ->
    strchr_str d c = strchr_str (take n d ++ [0%Z]) c.
Proof.
  induction n as [|n IH]; intros [|x d] H; try discriminate.
  - simpl in H. injection H as ->. simpl.
    destruct (0 =? c)%Z; reflexivity.
  - simpl in H. simpl. rewrite (IH d H). reflexivity.
Qed.

Lemma strchr_str_found (c : Z) (l : list Z) (s : nat) :
  c ≠ 0%Z -> strchr_str (l ++ [0%Z]) c = Some s ->
  s < length l ∧ l !! s = Some c ∧ filter (λ x, x ≠ c) (take s l) = take s l.
Proof.
  intros Hc. revert s. induction l as [|x l IH]; intros s H.
  - cbn -[Z.eqb] in H. revert H.
    destruct (Z.eqb_spec 0 c); [congruence|discriminate].
  - cbn -[Z.eqb] in H. revert H.
    destruct (Z.eqb_spec x c) as [->|Hne]; intros H.
    + injection H as <-. simpl. split; [lia|]. split; reflexivity.
    + destruct (x =? 0)%Z; [discriminate|].
      destruct (strchr_str (l ++ [0%Z]) c) as [s'|] eqn:E; [|discriminate].
      injection H as <-. destruct (IH s' eq_refl) as (Hlt & Hs & Hf).
      simpl. split; [lia|]. split; [exact Hs|].
      rewrite filter_cons_True by exact Hne. rewrite Hf. reflexivity.
Qed.

Lemma strchr_str_missing (c : Z) (l : list Z) :
  no_nul l -> strchr_str (l ++ [0%Z]) c = None ->
  filter (λ x, x ≠ c) l = l.
Proof.
  intros Hnn. induction Hnn as [|x l Hx Hnn IH]; intros H; [reflexivity|].
  cbn -[Z.eqb] in H. revert H.
  destruct (Z.eqb_spec x c) as [->|Hne]; [discriminate|].
  destruct (Z.eqb_spec x 0); [contradiction|].
  destruct (strchr_str (l ++ [0%Z]) c) eqn:E; [discriminate|]. intros _.
  rewrite filter_cons_True by exact Hne. rewrite IH; reflexivity.
Qed.

Lemma text_mode_content_no_nul (l : list Z) :
  no_nul l -> text_mode_content l = strip_cr l.
Proof.
  intros Hnn. unfold text_mode_content.
  destruct (strchr_str (l ++ [NUL]) CR) eqn:E; [reflexivity|].
  symmetry. apply (strchr_str_missing CR); assumption.
Qed.

Lemma strip_cr_length (l : list Z) : length (strip_cr l) ≤ length l.
Proof. apply length_filter. Qed.

Lemma text_mode_content_length (l : list Z) :
  length (text_mode_content l) ≤ length l.
Proof.
  unfold text_mode_content. destruct (strchr_str _ _); [apply strip_cr_length|lia].
Qed.

Lemma no_nul_strip_cr (l : list Z) : no_nul l -> no_nul (strip_cr l).
Proof.
  unfold no_nul, strip_cr. rewrite !Forall_forall.
  intros H x Hx. apply H. apply list_elem_of_filter in Hx. tauto.
Qed.

End ContentFacts.

(** * Running readFile: text mode *)

Section MonadFacts.

Lemma bind_run {A B} (m : M A) (k : A -> M B) (st st1 : state) (a : A) :
  m st = Some (a, st1) -> bind m k st = k a st1.
Proof. intros H. unfold bind. rewrite H. reflexivity. Qed.

Lemma with_heap_same (st : state) : with_heap (heap st) st = st.
Proof. destruct st. reflexivity. Qed.

Lemma read_chars_run (st : state) (b : nat) (d : list Z) :
  heap st !! b = Some (Chars d) -> read_chars b st = Some (d, st).
Proof. intros H. unfold read_chars. rewrite H. reflexivity. Qed.

Lemma write_chars_run (st : state) (b : nat) (d d' : list Z) :
  heap st !! b = Some (Chars d) ->
  write_chars b d' st = Some (tt, with_heap (<[b:=Chars d']> (heap st)) st).
Proof. intros H. unfold write_chars. rewrite H. reflexivity. Qed.

Lemma store_char_run (st : state) (b i : nat) (x : Z) (d : list Z) :
  heap st !! b = Some (Chars d) -> i < length d ->
  store_char b i x st
  = Some (tt, with_heap (<[b:=Chars (<[i:=x]> d)]> (heap st)) st).
Proof.
  intros H Hi. unfold store_char.
  rewrite (bind_run _ _ _ _ _ (read_chars_run _ _ _ H)).
  unfold lift, bind. rewrite (store_Some _ _ _ Hi).
  apply (write_chars_run _ _ d). exact H.
Qed.

Lemma heap_updated (st : state) (b : nat) (x y : block) :
  heap st !! b = Some x ->
  heap (with_heap (<[b:=y]> (heap st)) st) !! b = Some y.
Proof.
  intros H. simpl. apply list_lookup_insert_eq.
  apply lookup_lt_Some in H. exact H.
Qed.

End MonadFacts.

Section ReadFileText.
Variable w : world.

Lemma Strchr_buffer (d : list Z) (n : nat) (c : Z) :
  d !! n = Some 0%Z -> to_char w c = c ->
  Strchr w d 0 c = Some (strchr_str (take n d ++ [0%Z]) c).
Proof.
  intros Hn Hc.
  rewrite Strchr_is_strchr; [|exists n; split; [lia|exact Hn]|exact Hc].
  unfold strchr. rewrite Hc, drop_0, <- (strchr_str_take c n d Hn).
  f_equal. destruct (strchr_str d c); reflexivity.
Qed.

Lemma readFile_text_run (st : state) (b n : nat) (d : list Z) (terminate : Z) :
  heap st !! b = Some (Chars d) -> d !! n = Some 0%Z -> terminate ≠ 0%Z ->
  let out := text_mode_content (take n d) in
  ∃ d', readFile_text w b n terminate st
        = Some (length out, with_heap (<[b:=Chars d']> (heap st)) st)
    ∧ length d' = length d
    ∧ take (length out) d' = out
    ∧ d' !! length out = Some 0%Z.
Proof.
  intros Hb Hn Hterm out.
  assert (Hlt : n < length d) by (apply lookup_lt_Some in Hn; exact Hn).
  unfold readFile_text.
  rewrite (bind_run _ _ _ _ _ (read_chars_run _ _ _ Hb)).
  unfold lift at 1. unfold bind at 1.
  rewrite (Strchr_buffer d n CR Hn (to_char_CR w)).
  subst out. unfold text_mode_content, NUL.
  destruct (strchr_str (take n d ++ [0%Z]) CR) as [s|] eqn:Hs.
  - destruct (strchr_str_found CR _ _ ltac:(unfold CR; lia) Hs) as (Hsl & Hcr & Hpre).
    rewrite length_take_le in Hsl by lia.
    rewrite take_take in Hpre. replace (s `min` n) with s in Hpre by lia.
    destruct (compact_loop_spec (n - s) d s s) as (d1 & Hrun & Hlen1 & Htake1 & _);
      [lia|lia|].
    assert (Hout : strip_cr (take n d)
                   = take s d ++ strip_cr (take (n - s) (drop s d))).
    { assert (Hsplit : take n d = take s d ++ take (n - s) (drop s d))
        by (rewrite take_take_drop; f_equal; lia).
      rewrite Hsplit at 1. unfold strip_cr. rewrite filter_app, Hpre.
      reflexivity. }
    assert (Hdst : s + length (strip_cr (take (n - s) (drop s d)))
                   = length (strip_cr (take n d))).
    { rewrite Hout, length_app, length_take_le by lia. reflexivity. }
    rewrite Hdst in Hrun, Htake1.
    unfold lift at 1. unfold bind at 1. rewrite Hrun.
    rewrite (bind_run _ _ _ _ _ (write_chars_run _ _ _ d1 Hb)).
    destruct (Z.eqb_spec terminate 0); [contradiction|].
    pose proof (strip_cr_length (take n d)) as Hle.
    rewrite length_take_le in Hle by lia.
    rewrite (bind_run _ _ _ _ _
               (store_char_run _ b (length (strip_cr (take n d))) 0%Z d1
                  (heap_updated _ _ _ _ Hb) ltac:(lia))).
    exists (<[length (strip_cr (take n d)):=0%Z]> d1).
    simpl. rewrite list_insert_insert_eq.
    split; [reflexivity|]. split; [rewrite length_insert; exact Hlen1|].
    split.
    + rewrite take_insert_ge by lia. rewrite Htake1. symmetry. exact Hout.
    + apply list_lookup_insert_eq. lia.
  - exists d. rewrite (list_insert_id _ _ _ Hb), with_heap_same.
    rewrite length_take_le by lia.
    split; [reflexivity|]. split; [reflexivity|].
    split; [reflexivity|exact Hn].
Qed.

End ReadFileText.

(** * Running readFile: the shrinking realloc *)

Section ReadFileRun.
Variable w : world.

Lemma wrap_small (x : Z) : (0 <= x <= SIZE_MAX)%Z -> wrap x = x.
Proof. intros H. unfold wrap. apply Z.mod_small. lia. Qed.

Lemma LONG_MAX_lt_SIZE_MAX : (LONG_MAX < SIZE_MAX)%Z.
Proof. reflexivity. Qed.

Lemma lookup_snoc_last {A} (l : list A) (x : A) : (l ++ [x]) !! length l = Some x.
Proof. apply list_lookup_middle. reflexivity. Qed.

Lemma resize_shrink (d : list Z) (sz : nat) :
  sz ≤ length d -> resize w d sz = take sz d.
Proof.
  intros H. unfold resize, fresh_chars.
  replace (sz - length d) with 0 by lia. simpl. apply app_nil_r.
Qed.

Lemma readFile_shrink_run (st : state) (b n : nat) (fsize t : Z) (d : list Z) :
  heap st !! b = Some (Chars d) -> errno st = 0%Z ->
  (0 <= t)%Z -> (Z.of_nat (length d) <= SIZE_MAX)%Z ->
  n + Z.to_nat t ≤ length d ->
  (realloc0_frees w = false ∨ 0 < t ∨ fsize <= Z.of_nat n)%Z ->
  ∃ b' d' st',
    readFile_shrink w b n fsize t st = Some (Ptr b' 0, st')
    ∧ heap st' !! b' = Some (Chars d')
    ∧ take (n + Z.to_nat t) d' = take (n + Z.to_nat t) d
    ∧ errno st' = 0%Z
    ∧ length (heap st) ≤ length (heap st').
Proof.
  intros Hb He Ht Hmax Hn Hzero. unfold readFile_shrink.
  destruct (Z.ltb_spec (Z.of_nat n) fsize) as [Hnf|_].
  2: { exists b, d, st. repeat split; auto. }
  rewrite wrap_small by lia.
  unfold bind at 1. unfold realloc. rewrite Hb.
  assert (Hz : (Z.of_nat n + t =? 0)%Z && realloc0_frees w = false).
  { destruct Hzero as [->|[H|H]]; [apply andb_false_r| |lia].
    apply andb_false_iff. left. apply Z.eqb_neq. lia. }
  rewrite Hz.
  destruct (realloc_r w (allocs st)) as [moved|e].
  - pose proof (lookup_lt_Some _ _ _ Hb) as Hlt.
    replace (Z.to_nat (Z.of_nat n + t)) with (n + Z.to_nat t) by lia.
    rewrite resize_shrink by exact Hn.
    destruct moved.
    + eexists _, _, _. split; [reflexivity|]. simpl.
      split; [|split; [|split; [exact He|]]].
      * rewrite <- (length_insert (heap st) b Freed) at 1. apply lookup_snoc_last.
      * rewrite take_take. f_equal. lia.
      * rewrite length_app, length_insert. lia.
    + eexists _, _, _. split; [reflexivity|]. simpl.
      split; [|split; [|split; [exact He|]]].
      * apply list_lookup_insert_eq. exact Hlt.
      * rewrite take_take. f_equal. lia.
      * rewrite length_insert. lia.
  - exists b, d. unfold lib_fail, bind, ret, set_errno.
    eexists; (split; [reflexivity|]); simpl; auto.
Qed.

End ReadFileRun.

(** * Running readFile: lines 117-141 *)

Section ReadFileFill.
Variable w : world.

Lemma readFile_fill_run (st : state) (b : nat) (content d0 : list Z)
    (textMode terminate fsize t : Z) :
  heap st !! b = Some (Chars d0) ->
  length d0 = length content + Z.to_nat t ->
  fread_r w = Ok tt ->
  fread_short w = None ->
  errno st = 0%Z ->
  fsize = Z.of_nat (length content) ->
  (Z.of_nat (length content) + t <= SIZE_MAX)%Z ->
  t = (if (terminate =? 0)%Z then 0%Z else 1%Z) ->
  (textMode ≠ 0%Z -> terminate ≠ 0%Z) ->
  let out := mode_content textMode content in
  ∃ b' d' st',
    readFile_fill w b content textMode terminate fsize t st
    = Some (Ptr b' 0, length out, st')
    ∧ heap st' !! b' = Some (Chars d')
    ∧ take (length out) d' = out
    ∧ (t = 1%Z -> d' !! length out = Some 0%Z)
    ∧ errno st' = 0%Z
    ∧ length (heap st) ≤ length (heap st').
Proof.
  intros Hb Hlen Hread Hfull He Hfs Hsz Ht Htext out.
  unfold readFile_fill, fread. rewrite Hread, Hfull, Hfs, Nat2Z.id.
  rewrite take_ge by lia.
  unfold bind at 1. unfold bind at 1.
  rewrite (read_chars_run _ _ _ Hb).
  destruct (decide (length content ≤ length d0)) as [_|]; [|lia].
  rewrite (bind_run _ _ _ _ _ (write_chars_run _ _ _ _ Hb)).
  unfold ret at 1.
  set (d1 := content ++ drop (length content) d0).
  set (st1 := with_heap (<[b:=Chars d1]> (heap st)) st).
  assert (Hb1 : heap st1 !! b = Some (Chars d1)) by (apply (heap_updated _ _ _ _ Hb)).
  assert (Hlen1 : length d1 = length content + Z.to_nat t).
  { unfold d1. rewrite length_app, length_drop. lia. }
  assert (Htake1 : take (length content) d1 = content)
    by (unfold d1; apply take_app_length).
  assert (Hh1 : length (heap st1) = length (heap st))
    by (simpl; apply length_insert).
  (* the terminator *)
  assert (Hterm : ∃ d2 st2,
    (if (terminate =? 0)%Z then ret tt
     else store_char b (length content) NUL) st1 = Some (tt, st2)
    ∧ heap st2 !! b = Some (Chars d2) ∧ length d2 = length d1
    ∧ take (length content) d2 = content
    ∧ (t = 1%Z -> d2 !! length content = Some 0%Z)
    ∧ errno st2 = 0%Z ∧ length (heap st2) = length (heap st)).
  { destruct (Z.eqb_spec terminate 0) as [Hz|Hnz].
    - exists d1, st1. repeat split; auto. intros ->. discriminate.
    - assert (Hin : length content < length d1) by lia.
      exists (<[length content:=NUL]> d1). eexists.
      split; [apply (store_char_run _ _ _ _ _ Hb1 Hin)|].
      split; [apply (heap_updated _ _ _ _ Hb1)|].
      split; [apply length_insert|].
      split; [rewrite take_insert_ge by lia; exact Htake1|].
      split; [intros _; apply list_lookup_insert_eq; exact Hin|].
      split; [exact He|]. simpl. rewrite !length_insert. reflexivity. }
  destruct Hterm as (d2 & st2 & Hrun2 & Hb2 & Hlen2 & Htake2 & Hnul2 & He2 & Hh2).
  rewrite (bind_run _ _ _ _ _ Hrun2).
  (* text mode *)
  assert (Htxt : ∃ d3 st3,
    (if (textMode =? 0)%Z then ret (length content)
     else readFile_text w b (length content) terminate) st2
    = Some (length out, st3)
    ∧ heap st3 !! b = Some (Chars d3) ∧ length d3 = length d1
    ∧ take (length out) d3 = out
    ∧ (t = 1%Z -> d3 !! length out = Some 0%Z)
    ∧ errno st3 = 0%Z ∧ length (heap st3) = length (heap st)).
  { subst out. unfold mode_content. destruct (Z.eqb_spec textMode 0) as [Hz|Hnz].
    - exists d2, st2. repeat split; auto.
    - specialize (Htext Hnz).
      assert (Ht1 : t = 1%Z) by (destruct (Z.eqb_spec terminate 0); [contradiction|exact Ht]).
      destruct (readFile_text_run w st2 b (length content) d2 terminate
                  Hb2 (Hnul2 Ht1) Htext)
        as (d3 & Hrun3 & Hlen3 & Htake3 & Hnul3).
      rewrite Htake2 in Hrun3, Htake3, Hnul3.
      exists d3. eexists. split; [exact Hrun3|].
      split; [apply (heap_updated _ _ _ _ Hb2)|].
      split; [lia|]. split; [exact Htake3|]. split; [intros _; exact Hnul3|].
      split; [exact He2|]. simpl. rewrite length_insert. exact Hh2. }
  destruct Htxt as (d3 & st3 & Hrun3 & Hb3 & Hlen3 & Htake3 & Hnul3 & He3 & Hh3).
  rewrite (bind_run _ _ _ _ _ Hrun3).
  assert (Hout : length out ≤ length content).
  { subst out. unfold mode_content. destruct (textMode =? 0)%Z;
      [lia|apply text_mode_content_length]. }
  assert (Ht01 : (0 <= t <= 1)%Z) by (destruct (terminate =? 0)%Z; lia).
  destruct (readFile_shrink_run w st3 b (length out) (Z.of_nat (length content)) t d3
              Hb3 He3)
    as (b' & d' & st' & Hrun4 & Hb4 & Htake4 & He4 & Hh4); [lia|lia|lia| |].
  { subst out. unfold mode_content.
    destruct (Z.eqb_spec textMode 0) as [Hz|Hnz]; [right; right; lia|].
    right. left. specialize (Htext Hnz).
    destruct (Z.eqb_spec terminate 0); [contradiction|lia]. }
  rewrite (bind_run _ _ _ _ _ Hrun4).
  exists b', d', st'. split; [reflexivity|]. split; [exact Hb4|].
  split.
  - assert (E : ∀ l : list Z,
               take (length out) (take (length out + Z.to_nat t) l)
               = take (length out) l)
      by (intros l; rewrite take_take; f_equal; lia).
    rewrite <- (E d'), Htake4, E. exact Htake3.
  - split; [|split; [exact He4|lia]].
    intros Ht1. rewrite <- (Hnul3 Ht1).
    rewrite <- (lookup_take_lt d' (length out + Z.to_nat t)) by lia.
    rewrite Htake4. apply lookup_take_lt. lia.
Qed.

End ReadFileFill.

(** * readFile when every call succeeds *)

Section ReadFileOk.
Variable w : world.

Lemma readFile_ok (st : state) (name : string) (content : list Z)
    (textMode terminate maxSize : Z) :
  io_ok w name content ->
  malloc_r w (allocs st) = Ok tt ->
  (Z.of_nat (length content) <= LONG_MAX)%Z ->
  (maxSize = 0
   ∨ Z.of_nat (length content) + allowance textMode terminate <= maxSize)%Z ->
  (malloc0_null w = false
   ∨ 0 < Z.of_nat (length content) + allowance textMode terminate)%Z ->
  let out := mode_content textMode content in
  ∃ b data st',
    readFile w (Some name) textMode terminate maxSize st
    = Some (Ptr b 0, length out, st')
    ∧ heap st' !! b = Some (Chars data)
    ∧ take (length out) data = out
    ∧ (allowance textMode terminate = 1%Z -> data !! length out = Some 0%Z)
    ∧ errno st' = errno st
    ∧ length (heap st) < length (heap st').
Proof.
  intros (Hopen & Hseek & Hread & Hfull & Hclose) Hmalloc Hsize Hmax Hnull out.
  pose proof LONG_MAX_lt_SIZE_MAX as HLS.
  set (terminate' := if (textMode =? 0)%Z then terminate else TRUE).
  set (t := allowance textMode terminate).
  assert (Ht : t = if (terminate' =? 0)%Z then 0%Z else 1%Z).
  { unfold t, allowance, terminate'. destruct (textMode =? 0)%Z; reflexivity. }
  assert (Ht01 : (0 <= t <= 1)%Z) by (rewrite Ht; destruct (terminate' =? 0)%Z; lia).
  assert (Htext : textMode ≠ 0%Z -> terminate' ≠ 0%Z).
  { unfold terminate'. intros H. destruct (Z.eqb_spec textMode 0); [contradiction|].
    unfold TRUE. lia. }
  unfold readFile. fold terminate'. rewrite <- Ht.
  unfold get_errno at 1. unfold bind at 1. unfold bind at 1. unfold bind at 1.
  unfold set_errno at 1. unfold bind at 1. unfold fopen. rewrite Hopen.
  unfold ret at 1.
  unfold readFile_stream, fseek_end. rewrite Hseek.
  unfold bind at 1. unfold bind at 1. unfold ret at 1.
  unfold ftell. rewrite (wrap_small (Z.of_nat (length content))) by lia.
  rewrite (wrap_small (Z.of_nat (length content) + t)) by lia.
  assert (Hchk : (maxSize =? 0)%Z
                 || (Z.of_nat (length content) + t <=? maxSize)%Z = true).
  { apply orb_true_iff. destruct Hmax as [->|H]; [left; reflexivity|right; lia]. }
  rewrite Hchk.
  unfold bind at 1. unfold malloc_chars, malloc.
  cbn [allocs with_errno]. rewrite Hmalloc.
  assert (Hz : (Z.of_nat (length content) + t =? 0)%Z && malloc0_null w = false).
  { destruct Hnull as [->|H]; [apply andb_false_r|].
    apply andb_false_iff. left. lia. }
  rewrite Hz.
  set (d0 := fresh_chars w 0 (Z.to_nat (Z.of_nat (length content) + t))).
  set (st1 := with_heap (heap (with_errno 0 st) ++ [Chars d0]) (tick (with_errno 0 st))).
  destruct (readFile_fill_run w st1 (length (heap (with_errno 0 st))) content d0
              textMode terminate' (Z.of_nat (length content)) t)
    as (b & data & st2 & Hrun & Hb & Htake & Hnul & He & Hh); auto.
  { apply lookup_snoc_last. }
  { unfold d0, fresh_chars. rewrite length_map, length_seq. lia. }
  { lia. }
  rewrite Hrun. unfold fclose. rewrite Hclose. unfold ret at 1.
  unfold ret at 1. unfold epilogue, get_errno.
  exists b, data. eexists.
  split; [unfold bind; rewrite He; reflexivity|]. cbn [heap errno with_errno].
  split; [exact Hb|]. split; [exact Htake|]. split; [exact Hnul|].
  split; [reflexivity|].
  unfold st1 in Hh. cbn [heap with_heap] in Hh. rewrite length_app in Hh.
  simpl in Hh. lia.
Qed.

End ReadFileOk.

(** * Running readLines: the table *)

Section ReadLinesRun.
Variable w : world.

Lemma read_ptrs_run (st : state) (b : nat) (d : list ptr) :
  heap st !! b = Some (Ptrs d) -> read_ptrs b st = Some (d, st).
Proof. intros H. unfold read_ptrs. rewrite H. reflexivity. Qed.

Lemma write_ptrs_run (st : state) (b : nat) (d d' : list ptr) :
  heap st !! b = Some (Ptrs d) ->
  write_ptrs b d' st = Some (tt, with_heap (<[b:=Ptrs d']> (heap st)) st).
Proof. intros H. unfold write_ptrs. rewrite H. reflexivity. Qed.

Lemma store_ptr_run (st : state) (b i : nat) (x : ptr) (d : list ptr) :
  heap st !! b = Some (Ptrs d) -> i < length d ->
  store_ptr b i x st
  = Some (tt, with_heap (<[b:=Ptrs (<[i:=x]> d)]> (heap st)) st).
Proof.
  intros H Hi. unfold store_ptr.
  rewrite (bind_run _ _ _ _ _ (read_ptrs_run _ _ _ H)).
  unfold lift, bind. rewrite (store_Some _ _ _ Hi).
  apply (write_ptrs_run _ _ d). exact H.
Qed.

Lemma heap_other (st : state) (b b' : nat) (y : block) :
  b ≠ b' -> heap (with_heap (<[b:=y]> (heap st)) st) !! b' = heap st !! b'.
Proof. intros H. simpl. apply list_lookup_insert_ne. exact H. Qed.

Lemma line_count_nonempty (text : list Z) :
  text ≠ [] -> line_count text = S (length (line_starts 0 text)).
Proof.
  intros H. unfold line_count. rewrite <- (line_starts_count text 0).
  destruct text; [contradiction|]. destruct (ends_lf _); lia.
Qed.

Lemma readLines_table_run (st : state) (b lb : nat) (text rest : list Z)
    (tbl : list ptr) :
  heap st !! b = Some (Chars (text ++ 0%Z :: rest)) ->
  heap st !! lb = Some (Ptrs tbl) ->
  b ≠ lb -> text ≠ [] -> no_nul text ->
  length tbl = line_count text + 1 ->
  ∃ st', readLines_table w b 0 (length text) lb st = Some (Ptr b 0, st')
    ∧ heap st' !! lb
      = Some (Ptrs (map (Ptr b) (0 :: line_starts 0 text) ++ [NULL]))
    ∧ heap st' !! b = Some (Chars (cut_lines text ++ 0%Z :: rest))
    ∧ errno st' = errno st
    ∧ length (heap st') = length (heap st).
Proof.
  intros Hb Hlb Hne Htext Hnn Htbl.
  rewrite (line_count_nonempty _ Htext) in Htbl.
  set (k := length (line_starts 0 text)) in *.
  unfold readLines_table.
  destruct (Nat.eqb_spec (length text) 0) as [H0|_];
    [destruct text; [contradiction|discriminate]|].
  (* first line *)
  set (tbl1 := <[0:=Ptr b 0]> tbl).
  set (st1 := with_heap (<[lb:=Ptrs tbl1]> (heap st)) st).
  assert (Hrun1 : store_ptr lb 0 (Ptr b 0) st = Some (tt, st1))
    by (apply store_ptr_run; [exact Hlb|lia]).
  assert (Hlb1 : heap st1 !! lb = Some (Ptrs tbl1))
    by (apply (heap_updated _ _ _ _ Hlb)).
  assert (Hb1 : heap st1 !! b = Some (Chars (text ++ 0%Z :: rest)))
    by (unfold st1; rewrite heap_other by auto; exact Hb).
  unfold bind at 1. unfold bind at 1. rewrite Hrun1.
  rewrite (bind_run _ _ _ _ _ (read_chars_run _ _ _ Hb1)).
  rewrite (bind_run _ _ _ _ _ (read_ptrs_run _ _ _ Hlb1)).
  (* the loop *)
  pose proof (fill_loop_spec w b text [] rest tbl1 1
                (S (length (text ++ 0%Z :: rest))) Hnn) as Hfill.
  cbn [app length] in Hfill. fold k in Hfill.
  rewrite Hfill; clear Hfill;
    [|rewrite length_app; simpl; lia|unfold tbl1; rewrite length_insert; lia].
  unfold lift at 1. unfold bind at 1. cbn [fst snd].
  rewrite (bind_run _ _ _ _ _ (write_chars_run _ _ _ _ Hb1)).
  set (st2 := with_heap (<[b:=Chars (cut_lines text ++ 0%Z :: rest)]> (heap st1)) st1).
  assert (Hlb2 : heap st2 !! lb = Some (Ptrs tbl1))
    by (unfold st2; rewrite heap_other by auto; exact Hlb1).
  rewrite (bind_run _ _ _ _ _ (write_ptrs_run _ _ _ _ Hlb2)).
  set (tbl2 := take 1 tbl1 ++ map (Ptr b) (line_starts 0 text) ++ drop (1 + k) tbl1).
  set (st3 := with_heap (<[lb:=Ptrs tbl2]> (heap st2)) st2).
  assert (Hlb3 : heap st3 !! lb = Some (Ptrs tbl2))
    by (apply (heap_updated _ _ _ _ Hlb2)).
  unfold ret at 1.
  assert (Hlen1 : length tbl1 = S k + 1) by (unfold tbl1; rewrite length_insert; lia).
  assert (Hlen2 : length tbl2 = S k + 1).
  { unfold tbl2. rewrite !length_app, length_take, length_map, length_drop.
    fold k. lia. }
  rewrite (bind_run _ _ _ _ _ (store_ptr_run _ _ (1 + k) NULL _ Hlb3 ltac:(lia))).
  eexists. split; [reflexivity|].
  split; [|split; [|split]].
  - rewrite (heap_updated _ _ _ _ Hlb3). f_equal. f_equal.
    unfold tbl2, tbl1. destruct tbl as [|p0 tbl]; [simpl in Htbl; lia|].
    simpl in Htbl.
    assert (Hd : ∃ p1, drop k tbl = [p1]).
    { destruct (drop k tbl) as [|p1 [|p2 l]] eqn:Hd; [| exists p1; reflexivity |];
        apply (f_equal length) in Hd; rewrite length_drop in Hd; simpl in Hd; lia. }
    destruct Hd as [p1 Hd].
    cbn [take insert list_insert app map drop Nat.add]. rewrite Hd.
    f_equal.
    replace k with (length (map (Ptr b) (line_starts 0 text)))
      at 1 by (rewrite length_map; reflexivity).
    apply insert_pre_head.
  - rewrite heap_other by auto. unfold st3. rewrite heap_other by auto.
    apply (heap_updated _ _ _ _ Hb1).
  - reflexivity.
  - simpl. rewrite !length_insert. reflexivity.
Qed.

Lemma readLines_table_empty (st : state) (b lb : nat) (d : list Z)
    (tbl : list ptr) :
  heap st !! b = Some (Chars d) ->
  heap st !! lb = Some (Ptrs tbl) ->
  b ≠ lb -> length tbl = 1 ->
  ∃ st', readLines_table w b 0 0 lb st = Some (NULL, st')
    ∧ heap st' !! lb = Some (Ptrs [NULL])
    ∧ heap st' !! b = Some Freed
    ∧ errno st' = errno st
    ∧ length (heap st') = length (heap st).
Proof.
  intros Hb Hlb Hne Htbl. unfold readLines_table. cbn [Nat.eqb].
  unfold bind at 1. unfold bind at 1. unfold free at 1. rewrite Hb.
  unfold ret at 1.
  set (st1 := with_heap (<[b:=Freed]> (heap st)) st).
  assert (Hlb1 : heap st1 !! lb = Some (Ptrs tbl))
    by (unfold st1; rewrite heap_other by auto; exact Hlb).
  rewrite (bind_run _ _ _ _ _ (store_ptr_run _ _ 0 NULL _ Hlb1 ltac:(lia))).
  eexists. split; [reflexivity|]. split; [|split; [|split]].
  - rewrite (heap_updated _ _ _ _ Hlb1).
    destruct tbl as [|p [|q tbl]]; try discriminate. reflexivity.
  - rewrite heap_other by auto. apply (heap_updated _ _ _ _ Hb).
  - reflexivity.
  - simpl. rewrite !length_insert. reflexivity.
Qed.

End ReadLinesRun.

(** * readLines when every call succeeds *)

Section ReadLinesOk.
Variable w : world.

Lemma line_offsets_length (text : list Z) :
  length (line_offsets text) = line_count text.
Proof.
  destruct text as [|x text]; [reflexivity|].
  rewrite line_count_nonempty by discriminate. reflexivity.
Qed.

Lemma count_lf_le (l : list Z) : count_lf l ≤ length l.
Proof. apply length_filter. Qed.

Lemma line_count_le (l : list Z) : line_count l ≤ length l + 1.
Proof.
  unfold line_count. pose proof (count_lf_le l).
  destruct (ends_lf l); [lia|]. destruct l; simpl in *; lia.
Qed.

Lemma buffer_split (data out : list Z) (x : Z) :
  take (length out) data = out -> data !! length out = Some x ->
  data = out ++ x :: drop (S (length out)) data.
Proof.
  intros Ht Hx. rewrite <- Ht at 1. symmetry. apply take_drop_middle. exact Hx.
Qed.

Lemma first_count (text rest : list Z) :
  (if length text =? 0 then Some 0
   else x ← (text ++ 0%Z :: rest) !! (0 + length text - 1);
        Some (if (x =? LF)%Z then 0 else 1))
  = Some (if ends_lf text then 0 else match text with [] => 0 | _ :: _ => 1 end).
Proof.
  destruct text as [|y text] using rev_ind; [reflexivity|]. clear IHtext.
  rewrite length_app. cbn [length].
  destruct (Nat.eqb_spec (length text + 1) 0); [lia|].
  replace (0 + (length text + 1) - 1) with (length text) by lia.
  rewrite <- app_assoc. cbn [app]. rewrite lookup_pre_head. cbn [mbind option_bind].
  unfold ends_lf. rewrite last_snoc.
  destruct (y =? LF)%Z; [reflexivity|]. destruct text; reflexivity.
Qed.

Lemma readLines_ok (st : state) (name : string) (content : list Z)
    (maxSize : Z) :
  io_ok w name content ->
  (∀ k, malloc_r w k = Ok tt) ->
  no_nul content ->
  (Z.of_nat (length content) < FILE_MAX)%Z ->
  let text := strip_cr content in
  (maxSize = 0
   ∨ (Z.of_nat (length content) + 1 <= maxSize
      ∧ (Z.of_nat (line_count text) + 1) * PTR_SIZE
        + Z.of_nat (length text) + 1 <= maxSize))%Z ->
  ∃ lb b st',
    readLines w (Some name) maxSize st = Some (Ptr lb 0, line_count text, st')
    ∧ heap st' !! lb = Some (Ptrs (map (Ptr b) (line_offsets text) ++ [NULL]))
    ∧ (match text with
       | [] => heap st' !! b = Some Freed
       | _ :: _ => ∃ rest,
           heap st' !! b = Some (Chars (cut_lines text ++ 0%Z :: rest))
       end)
    ∧ b ≠ lb
    ∧ errno st' = errno st.
Proof.
  intros Hio Hmalloc Hnn Hsize text Hmax.
  assert (HF : FILE_MAX = 1152921504606846976%Z) by reflexivity.
  assert (HS : SIZE_MAX = 18446744073709551615%Z) by reflexivity.
  assert (HL : LONG_MAX = 9223372036854775807%Z) by reflexivity.
  assert (Htl : length text ≤ length content) by apply strip_cr_length.
  pose proof (line_count_le text) as Hlc.
  unfold readLines.
  unfold get_errno at 1. unfold bind at 1. unfold bind at 1.
  unfold set_errno at 1.
  destruct (readFile_ok w (with_errno 0 st) name content 1 1 maxSize Hio)
    as (b & data & st1 & Hrun1 & Hb1 & Htake1 & Hnul1 & He1 & Hh1).
  { apply Hmalloc. }
  { lia. }
  { destruct Hmax as [->|[H _]]; [left; reflexivity|right; exact H]. }
  { right. unfold allowance. simpl. lia. }
  unfold mode_content in Hrun1, Htake1, Hnul1. cbn [Z.eqb] in Hrun1, Htake1, Hnul1.
  rewrite (text_mode_content_no_nul _ Hnn) in Hrun1, Htake1, Hnul1.
  fold text in Hrun1, Htake1, Hnul1. specialize (Hnul1 eq_refl).
  cbn [errno with_errno] in He1.
  unfold bind at 1. rewrite Hrun1.
  pose proof (buffer_split _ _ _ Htake1 Hnul1) as Hdata.
  set (rest := drop (S (length text)) data) in Hdata.
  rewrite Hdata in Hb1.
  (* counting *)
  unfold readLines_split.
  unfold bind at 1. unfold bind at 1.
  rewrite (read_chars_run _ _ _ Hb1).
  unfold bind at 1. unfold lift at 1. rewrite first_count.
  unfold bind at 1. unfold lift at 1.
  pose proof (count_loop_spec w text [] rest
                (if ends_lf text then 0 else match text with [] => 0 | _ :: _ => 1 end)
                (S (length (text ++ 0%Z :: rest))) (no_nul_strip_cr _ Hnn)) as Hcnt.
  cbn [app length] in Hcnt.
  rewrite Hcnt by (rewrite length_app; simpl; lia). clear Hcnt.
  rewrite (Nat.add_comm _ (count_lf text)). fold (line_count text).
  (* the table *)
  rewrite (wrap_small ((Z.of_nat (line_count text) + 1) * PTR_SIZE))
    by (unfold PTR_SIZE; lia).
  rewrite (wrap_small ((Z.of_nat (line_count text) + 1) * PTR_SIZE
                       + Z.of_nat (length text)))
    by (unfold PTR_SIZE; lia).
  rewrite (wrap_small ((Z.of_nat (line_count text) + 1) * PTR_SIZE
                       + Z.of_nat (length text) + 1))
    by (unfold PTR_SIZE; lia).
  assert (Hchk : (maxSize =? 0)%Z
                 || ((Z.of_nat (line_count text) + 1) * PTR_SIZE
                     + Z.of_nat (length text) + 1 <=? maxSize)%Z = true).
  { apply orb_true_iff. destruct Hmax as [->|[_ H]]; [left; reflexivity|right; lia]. }
  rewrite Hchk.
  unfold bind at 1. unfold malloc_ptrs, malloc. rewrite Hmalloc.
  destruct (Z.eqb_spec ((Z.of_nat (line_count text) + 1) * PTR_SIZE) 0) as [Hz|_];
    [unfold PTR_SIZE in Hz; lia|]. cbn [andb].
  rewrite Z_div_mult by (unfold PTR_SIZE; lia).
  replace (Z.to_nat (Z.of_nat (line_count text) + 1)) with (line_count text + 1) by lia.
  set (tbl := replicate (line_count text + 1) (junk_ptr w)).
  set (lb := length (heap st1)).
  set (st2 := with_heap (heap st1 ++ [Ptrs tbl]) (tick st1)).
  assert (Hblt : b < lb) by (apply lookup_lt_Some in Hb1; exact Hb1).
  assert (Hb2 : heap st2 !! b = Some (Chars (text ++ 0%Z :: rest)))
    by (simpl; rewrite lookup_app_l by exact Hblt; exact Hb1).
  assert (Hlb2 : heap st2 !! lb = Some (Ptrs tbl)) by apply lookup_snoc_last.
  assert (Htbl : length tbl = line_count text + 1) by apply length_replicate.
  assert (Hne : b ≠ lb) by lia.
  assert (Htab : ∃ buf st3,
    readLines_table w b 0 (length text) lb st2 = Some (buf, st3)
    ∧ heap st3 !! lb = Some (Ptrs (map (Ptr b) (line_offsets text) ++ [NULL]))
    ∧ (match text with
       | [] => heap st3 !! b = Some Freed
       | _ :: _ => ∃ rest, heap st3 !! b = Some (Chars (cut_lines text ++ 0%Z :: rest))
       end)
    ∧ errno st3 = 0%Z
    ∧ match buf with NULL => True | Ptr b' o => heap st3 !! b' = Some (Chars (cut_lines text ++ 0%Z :: rest)) end).
  { destruct text as [|x text'] eqn:Etext.
    - destruct (readLines_table_empty w st2 b lb _ tbl Hb2 Hlb2 Hne Htbl)
        as (st3 & Hrun & Hl & Hf & He & _).
      exists NULL, st3. cbn [length]. repeat split; auto. rewrite He. exact He1.
    - destruct (readLines_table_run w st2 b lb (x :: text') rest tbl Hb2 Hlb2 Hne)
        as (st3 & Hrun & Hl & Hc & He & _); [discriminate| |exact Htbl|].
      { rewrite <- Etext. apply no_nul_strip_cr. exact Hnn. }
      exists (Ptr b 0), st3. repeat split; auto.
      + exists rest. exact Hc.
      + rewrite He. exact He1. }
  destruct Htab as (buf & st3 & Hrun3 & Hl3 & Hc3 & He3 & _).
  rewrite (bind_run _ _ _ _ _ Hrun3). unfold ret at 1. cbn [fst snd].
  unfold epilogue, get_errno.
  exists lb, b. eexists.
  split; [unfold bind; rewrite He3; reflexivity|].
  cbn [heap errno with_errno set_errno]. auto.
Qed.

End ReadLinesOk.

(** * Inversion of the primitive computations *)

Section Inversion.

Lemma bind_inv {A B} (m : M A) (k : A -> M B) (st : state) (r : B * state) :
  bind m k st = Some r -> ∃ a st1, m st = Some (a, st1) ∧ k a st1 = Some r.
Proof.
  unfold bind. destruct (m st) as [[a st1]|]; [|discriminate].
  intros H. exists a, st1. auto.
Qed.

Lemma ret_inv {A} (a a' : A) (st st' : state) :
  ret a st = Some (a', st') -> a' = a ∧ st' = st.
Proof. unfold ret. intros [= <- <-]. auto. Qed.

Lemma lift_inv {A} (o : option A) (a : A) (st st' : state) :
  lift o st = Some (a, st') -> o = Some a ∧ st' = st.
Proof. unfold lift. destruct o; [|discriminate]. intros [= <- <-]. auto. Qed.

Lemma set_errno_inv (e : Z) (u : unit) (st st' : state) :
  set_errno e st = Some (u, st') -> st' = with_errno e st.
Proof. unfold set_errno. intros [= _ <-]. reflexivity. Qed.

Lemma get_errno_inv (e : Z) (st st' : state) :
  get_errno st = Some (e, st') -> e = errno st ∧ st' = st.
Proof. unfold get_errno. intros [= <- <-]. auto. Qed.

Lemma lib_fail_inv (e : positive) (u : unit) (st st' : state) :
  lib_fail e st = Some (u, st') ->
  heap st' = heap st ∧ allocs st' = allocs st ∧ errno st' ≠ 0%Z.
Proof.
  unfold lib_fail. intros ->%set_errno_inv. repeat split; simpl; lia.
Qed.

Lemma read_chars_inv (b : nat) (d : list Z) (st st' : state) :
  read_chars b st = Some (d, st') -> heap st !! b = Some (Chars d) ∧ st' = st.
Proof.
  unfold read_chars. destruct (heap st !! b) as [[| |]|]; try discriminate.
  intros [= <- <-]. auto.
Qed.

Lemma write_chars_inv (b : nat) (d : list Z) (u : unit) (st st' : state) :
  write_chars b d st = Some (u, st') ->
  (∃ d0, heap st !! b = Some (Chars d0))
  ∧ st' = with_heap (<[b:=Chars d]> (heap st)) st.
Proof.
  unfold write_chars. destruct (heap st !! b) as [[|d0|]|]; try discriminate.
  intros [= _ <-]. split; [exists d0|]; reflexivity.
Qed.

Lemma store_char_inv (b i : nat) (x : Z) (u : unit) (st st' : state) :
  store_char b i x st = Some (u, st') ->
  ∃ d, heap st !! b = Some (Chars d) ∧ i < length d
       ∧ st' = with_heap (<[b:=Chars (<[i:=x]> d)]> (heap st)) st.
Proof.
  unfold store_char.
  intros (d & st1 & [Hd ->]%read_chars_inv & H)%bind_inv.
  apply bind_inv in H as (d' & st2 & [Hs ->]%lift_inv & H).
  apply store_inv in Hs as [Hi ->].
  apply write_chars_inv in H as [_ ->]. exists d. auto.
Qed.

Lemma read_ptrs_inv (b : nat) (d : list ptr) (st st' : state) :
  read_ptrs b st = Some (d, st') -> heap st !! b = Some (Ptrs d) ∧ st' = st.
Proof.
  unfold read_ptrs. destruct (heap st !! b) as [[| |]|]; try discriminate.
  intros [= <- <-]. auto.
Qed.

Lemma write_ptrs_inv (b : nat) (d : list ptr) (u : unit) (st st' : state) :
  write_ptrs b d st = Some (u, st') ->
  (∃ d0, heap st !! b = Some (Ptrs d0))
  ∧ st' = with_heap (<[b:=Ptrs d]> (heap st)) st.
Proof.
  unfold write_ptrs. destruct (heap st !! b) as [[| |d0]|]; try discriminate.
  intros [= _ <-]. split; [exists d0|]; reflexivity.
Qed.

Lemma store_ptr_inv (b i : nat) (x : ptr) (u : unit) (st st' : state) :
  store_ptr b i x st = Some (u, st') ->
  ∃ d, heap st !! b = Some (Ptrs d) ∧ i < length d
       ∧ st' = with_heap (<[b:=Ptrs (<[i:=x]> d)]> (heap st)) st.
Proof.
  unfold store_ptr.
  intros (d & st1 & [Hd ->]%read_ptrs_inv & H)%bind_inv.
  apply bind_inv in H as (d' & st2 & [Hs ->]%lift_inv & H).
  apply store_inv in Hs as [Hi ->].
  apply write_ptrs_inv in H as [_ ->]. exists d. auto.
Qed.

Lemma free_inv (p : ptr) (u : unit) (st st' : state) :
  free p st = Some (u, st') ->
  (p = NULL ∧ st' = st)
  ∨ (∃ b x, p = Ptr b 0 ∧ heap st !! b = Some x ∧ x ≠ Freed
            ∧ st' = with_heap (<[b:=Freed]> (heap st)) st).
Proof.
  unfold free. destruct p as [|b [|o]]; [| |discriminate].
  - intros [= _ <-]. left. auto.
  - intros H. right. destruct (heap st !! b) as [x|] eqn:Hb; [|discriminate].
    exists b, x. split; [reflexivity|]. split; [exact Hb|].
    destruct x; [discriminate| |]; injection H as _ <-; split;
      first [discriminate | reflexivity].
Qed.

End Inversion.

(** * The shape of the heap *)

Section HeapShape.

Lemma holds_buf_lookup (h0 h : list block) (b : nat) (d : list Z) :
  holds_buf h0 h b d -> h !! b = Some (Chars d).
Proof.
  intros (k & -> & ->). rewrite app_assoc.
  replace (length h0 + k) with (length (h0 ++ replicate k Freed))
    by (rewrite length_app, length_replicate; reflexivity).
  apply lookup_snoc_last.
Qed.

Lemma holds_buf_length (h0 h : list block) (b : nat) (d : list Z) :
  holds_buf h0 h b d -> length h = S b.
Proof.
  intros (k & -> & ->). rewrite !length_app, length_replicate. simpl. lia.
Qed.

Lemma holds_buf_write (h0 h : list block) (b : nat) (d d' : list Z) :
  holds_buf h0 h b d -> holds_buf h0 (<[b:=Chars d']> h) b d'.
Proof.
  intros (k & -> & ->). exists k. split; [|reflexivity].
  rewrite insert_app_r.
  replace k with (length (replicate k Freed) + 0) at 1
    by (rewrite length_replicate; lia).
  rewrite insert_app_r. reflexivity.
Qed.

Lemma holds_buf_free (h0 h : list block) (b : nat) (d : list Z) :
  holds_buf h0 h b d -> all_released h0 (<[b:=Freed]> h).
Proof.
  intros (k & -> & ->). exists (S k).
  rewrite insert_app_r.
  replace k with (length (replicate k Freed) + 0) at 1
    by (rewrite length_replicate; lia).
  rewrite insert_app_r, replicate_S_end. reflexivity.
Qed.

Lemma holds_buf_move (h0 h : list block) (b : nat) (d d' : list Z) :
  holds_buf h0 h b d ->
  holds_buf h0 (<[b:=Freed]> h ++ [Chars d']) (length h) d'.
Proof.
  intros Hh. pose proof (holds_buf_length _ _ _ _ Hh) as Hlen.
  destruct (holds_buf_free _ _ _ _ Hh) as (k & Hk). rewrite Hk.
  exists k. split; [rewrite <- app_assoc; reflexivity|].
  apply (f_equal length) in Hk.
  rewrite length_insert, length_app, length_replicate in Hk. lia.
Qed.

Lemma holds_buf_alloc (h0 : list block) (d : list Z) :
  holds_buf h0 (h0 ++ [Chars d]) (length h0) d.
Proof. exists 0. split; [reflexivity|lia]. Qed.

Lemma all_released_refl (h : list block) : all_released h h.
Proof. exists 0. simpl. rewrite app_nil_r. reflexivity. Qed.

End HeapShape.

Section ReadFileInv.
Variable w : world.

Lemma wrap_range (x : Z) : (0 <= wrap x <= SIZE_MAX)%Z.
Proof.
  unfold wrap. pose proof (Z.mod_pos_bound x (SIZE_MAX + 1) ltac:(reflexivity)). lia.
Qed.

Lemma readFile_shrink_inv (h0 : list block) (st st' : state) (b n : nat)
    (fsize t : Z) (d : list Z) (buf : ptr) :
  readFile_shrink w b n fsize t st = Some (buf, st') ->
  holds_buf h0 (heap st) b d -> errno st = 0%Z ->
  (0 <= t <= 1)%Z -> (fsize <= SIZE_MAX)%Z ->
  n + Z.to_nat t ≤ length d ->
  ∃ b', buf = Ptr b' 0 ∧ errno st' = 0%Z
    ∧ ((∃ d', holds_buf h0 (heap st') b' d'
              ∧ take (n + Z.to_nat t) d' = take (n + Z.to_nat t) d)
       ∨ released_buf w h0 (heap st') b' t n).
Proof.
  intros H Hh He Ht Hfs Hn. unfold readFile_shrink in H.
  destruct (Z.ltb_spec (Z.of_nat n) fsize) as [Hlt|_].
  2: { apply ret_inv in H as [-> ->]. exists b. split; [reflexivity|].
       split; [exact He|]. left. exists d. auto. }
  rewrite wrap_small in H by lia.
  apply bind_inv in H as (p & st1 & Hre & H).
  unfold realloc in Hre. rewrite (holds_buf_lookup _ _ _ _ Hh) in Hre.
  destruct (Z.eqb_spec (Z.of_nat n + t) 0) as [Hz|_];
    [destruct (realloc0_frees w) eqn:Hfrees|]; cbn [andb] in Hre.
  { (* realloc(buf, 0) releases the block; line 139 keeps the old pointer *)
    injection Hre as <- <-.
    apply bind_inv in H as (u' & st3 & ->%set_errno_inv & [-> ->]%ret_inv).
    exists b. split; [reflexivity|]. split; [reflexivity|]. right.
    unfold released_buf. cbn [heap with_heap with_errno tick].
    split; [exact Hfrees|]. split; [lia|]. split; [lia|].
    split; [apply (holds_buf_free _ _ _ _ Hh)|].
    apply list_lookup_insert_eq.
    apply (lookup_lt_Some _ _ _ (holds_buf_lookup _ _ _ _ Hh)). }
  all: replace (Z.to_nat (Z.of_nat n + t)) with (n + Z.to_nat t) in Hre by lia;
    rewrite resize_shrink in Hre by exact Hn;
    destruct (realloc_r w (allocs st)) as [[|]|e];
    [ injection Hre as <- <-; apply ret_inv in H as [-> ->];
      eexists; split; [reflexivity|]; split; [exact He|]; left;
      eexists; split; [apply (holds_buf_move _ _ _ _ _ Hh)|];
      rewrite take_take; f_equal; lia
    | injection Hre as <- <-; apply ret_inv in H as [-> ->];
      eexists; split; [reflexivity|]; split; [exact He|]; left;
      eexists; split; [apply (holds_buf_write _ _ _ _ _ Hh)|];
      rewrite take_take; f_equal; lia
    | apply bind_inv in Hre as (u & st2 & (Hheap & _)%lib_fail_inv & [-> ->]%ret_inv);
      apply bind_inv in H as (u' & st3 & ->%set_errno_inv & [-> ->]%ret_inv);
      exists b; split; [reflexivity|]; split; [reflexivity|]; left;
      exists d; simpl; rewrite Hheap; auto ].
Qed.

End ReadFileInv.

(** * Every way lines 117-141 can return *)

Section ReadFileFillInv.
Variable w : world.

Lemma fread_inv (b : nat) (fsize : Z) (content : list Z) (n : nat)
    (err : bool) (st st1 : state) :
  fread w b fsize content st = Some ((n, err), st1) ->
  ∃ d0, heap st !! b = Some (Chars d0)
    ∧ n ≤ length content ∧ n ≤ length d0
    ∧ heap st1 = <[b:=Chars (take n content ++ drop n d0)]> (heap st)
    ∧ ((fread_r w = Ok tt ∧ err = false ∧ errno st1 = errno st)
       ∨ (∃ e, fread_r w = Fail e ∧ err = true ∧ errno st1 ≠ 0%Z)).
Proof.
  unfold fread. intros (d0 & st0 & [Hd ->]%read_chars_inv & H)%bind_inv.
  set (data := take _ content) in H.
  destruct (decide (length data ≤ length d0)) as [Hle|]; [|discriminate].
  apply bind_inv in H as (u & st2 & [_ ->]%write_chars_inv & H).
  assert (Hdata : take (length data) content = data).
  { unfold data. rewrite length_take.
    match goal with |- take (?a `min` _) _ = _ =>
      destruct (Nat.min_spec a (length content)) as [[? ->]|[? ->]] end;
      [reflexivity|rewrite !take_ge by lia; reflexivity]. }
  assert (Hlen : length data ≤ length content)
    by (unfold data; rewrite length_take; lia).
  exists d0. destruct (fread_r w) as [[]|e].
  - apply ret_inv in H as [[= -> ->] ->]. rewrite Hdata.
    repeat split; auto.
  - apply bind_inv in H as (u' & st3 & (Hh & _ & He)%lib_fail_inv
                              & [[= -> ->] ->]%ret_inv).
    rewrite Hdata, Hh. repeat split; auto. right. exists e. auto.
Qed.

Lemma readFile_fill_inv (h0 : list block) (st st' : state) (b : nat)
    (content d0 : list Z) (textMode terminate fsize t : Z) (buf : ptr)
    (n : nat) :
  readFile_fill w b content textMode terminate fsize t st = Some (buf, n, st') ->
  holds_buf h0 (heap st) b d0 -> errno st = 0%Z ->
  t = (if (terminate =? 0)%Z then 0%Z else 1%Z) ->
  (textMode ≠ 0%Z -> terminate ≠ 0%Z) ->
  (fsize <= SIZE_MAX)%Z ->
  ∃ b', buf = Ptr b' 0
    ∧ n ≤ length content
    ∧ (fread_r w = Ok tt -> errno st' = 0%Z)
    ∧ (∀ e, fread_r w = Fail e -> errno st' ≠ 0%Z)
    ∧ ((∃ d', holds_buf h0 (heap st') b' d'
              ∧ (fread_r w = Ok tt -> t = 1%Z -> d' !! n = Some 0%Z))
       ∨ released_buf w h0 (heap st') b' t n).
Proof.
  intros H Hh He Ht Htext Hfs. unfold readFile_fill in H.
  apply bind_inv in H as ([n0 err] & st1 & Hfread & H).
  apply fread_inv in Hfread as (d0' & Hd0 & Hn0 & Hn0d & Hheap1 & Hres).
  rewrite (holds_buf_lookup _ _ _ _ Hh) in Hd0. injection Hd0 as <-.
  set (d1 := take n0 content ++ drop n0 d0) in *.
  assert (Hh1 : holds_buf h0 (heap st1) b d1)
    by (rewrite Hheap1; apply (holds_buf_write _ _ _ _ _ Hh)).
  assert (Hlen1 : length d1 = length d0).
  { unfold d1. rewrite length_app, length_take, length_drop. lia. }
  destruct Hres as [(Hok & -> & He1)|(e & Hfail & -> & Hne)].
  2: { apply ret_inv in H as [[= -> ->] ->]. exists b.
       split; [reflexivity|]. split; [exact Hn0|].
       split; [rewrite Hfail; discriminate|].
       split; [intros e' _; exact Hne|].
       left. exists d1. split; [exact Hh1|]. rewrite Hfail. discriminate. }
  rewrite He in He1.
  (* the terminator *)
  apply bind_inv in H as (u & st2 & Hterm & H).
  assert (Hh2 : ∃ d2, holds_buf h0 (heap st2) b d2 ∧ errno st2 = 0%Z
                      ∧ length d2 = length d0 ∧ n0 + Z.to_nat t ≤ length d2
                      ∧ (t = 1%Z -> d2 !! n0 = Some 0%Z)).
  { destruct (Z.eqb_spec terminate 0) as [Hz|Hnz].
    - apply ret_inv in Hterm as [_ ->]. exists d1. subst t.
      repeat split; auto; [simpl; lia|discriminate].
    - apply store_char_inv in Hterm as (d1' & Hd1 & Hlt & ->).
      rewrite (holds_buf_lookup _ _ _ _ Hh1) in Hd1. injection Hd1 as <-.
      exists (<[n0:=NUL]> d1). subst t.
      split; [apply (holds_buf_write _ _ _ _ _ Hh1)|]. split; [exact He1|].
      split; [rewrite length_insert; exact Hlen1|].
      split; [rewrite length_insert; simpl; lia|].
      intros _. apply list_lookup_insert_eq. exact Hlt. }
  destruct Hh2 as (d2 & Hh2 & He2 & Hlen2 & Hcap2 & Hnul2).
  (* text mode *)
  apply bind_inv in H as (n1 & st3 & Htxt & H).
  assert (Hh3 : ∃ d3, holds_buf h0 (heap st3) b d3 ∧ errno st3 = 0%Z
                      ∧ n1 ≤ n0 ∧ n1 + Z.to_nat t ≤ length d3
                      ∧ (t = 1%Z -> d3 !! n1 = Some 0%Z)).
  { destruct (Z.eqb_spec textMode 0) as [Hz|Hnz].
    - apply ret_inv in Htxt as [-> ->]. exists d2. auto.
    - specialize (Htext Hnz).
      assert (Ht1 : t = 1%Z)
        by (subst t; destruct (Z.eqb_spec terminate 0); [contradiction|reflexivity]).
      destruct (readFile_text_run w st2 b n0 d2 terminate
                  (holds_buf_lookup _ _ _ _ Hh2) (Hnul2 Ht1) Htext)
        as (d3 & Hrun & Hlen3 & _ & Hnul3).
      rewrite Hrun in Htxt. injection Htxt as <- <-.
      pose proof (text_mode_content_length (take n0 d2)) as Hle.
      rewrite length_take in Hle.
      exists d3. split; [apply (holds_buf_write _ _ _ _ _ Hh2)|].
      split; [exact He2|]. split; [lia|]. split; [rewrite Ht1 in *; simpl in *; lia|].
      intros _. exact Hnul3. }
  destruct Hh3 as (d3 & Hh3 & He3 & Hle3 & Hcap3 & Hnul3).
  (* the shrink *)
  apply bind_inv in H as (p & st4 & Hshr & [[= -> ->] ->]%ret_inv).
  assert (Ht01 : (0 <= t <= 1)%Z) by (subst t; destruct (terminate =? 0)%Z; lia).
  destruct (readFile_shrink_inv w h0 _ _ _ _ _ _ _ _ Hshr Hh3 He3 Ht01 Hfs Hcap3)
    as (b' & -> & He4 & Hres).
  exists b'. split; [reflexivity|]. split; [lia|].
  split; [intros _; exact He4|]. split; [rewrite Hok; discriminate|].
  destruct Hres as [(d' & Hh4 & Htake4)|Hrel]; [left|right; exact Hrel].
  exists d'. split; [exact Hh4|]. intros _ Ht1.
  rewrite <- (Hnul3 Ht1).
  rewrite <- (lookup_take_lt d' (n1 + Z.to_nat t)) by lia.
  rewrite Htake4. apply lookup_take_lt. lia.
Qed.

End ReadFileFillInv.

(** * Every way readFile can return *)

Section ReadFileInversion.
Variable w : world.

Lemma malloc_inv (mk : Z -> block) (sz : Z) (p : ptr) (st st1 : state) :
  malloc w mk sz st = Some (p, st1) ->
  (p = NULL ∧ heap st1 = heap st ∧ (errno st1 = errno st ∨ errno st1 ≠ 0%Z))
  ∨ (p = Ptr (length (heap st)) 0 ∧ heap st1 = heap st ++ [mk sz]
     ∧ errno st1 = errno st).
Proof.
  unfold malloc. destruct (malloc_r w (allocs st)) as [[]|e].
  - destruct ((sz =? 0)%Z && malloc0_null w); intros [= <- <-]; [left|right]; auto.
  - intros (u & st2 & (Hh & _ & He)%lib_fail_inv & [-> ->]%ret_inv)%bind_inv.
    left. auto.
Qed.

Lemma fclose_inv (u : unit) (st st' : state) :
  fclose w st = Some (u, st') ->
  heap st' = heap st ∧ (errno st' = errno st ∨ errno st' ≠ 0%Z).
Proof.
  unfold fclose. destruct (fclose_r w) as [[]|e].
  - intros [_ ->]%ret_inv. auto.
  - intros (Hh & _ & He)%lib_fail_inv. auto.
Qed.

Lemma readFile_stream_inv (st st' : state) (content : list Z)
    (textMode terminate t maxSize : Z) (buf : ptr) (n : nat) :
  readFile_stream w content textMode terminate t maxSize st
  = Some (buf, n, st') ->
  errno st = 0%Z ->
  t = (if (terminate =? 0)%Z then 0%Z else 1%Z) ->
  (textMode ≠ 0%Z -> terminate ≠ 0%Z) ->
  match buf with
  | NULL => n = 0 ∧ heap st' = heap st
  | Ptr b o =>
    o = 0 ∧ n ≤ length content
    ∧ ((∃ d, holds_buf (heap st) (heap st') b d
             ∧ (errno st' = 0%Z -> t = 1%Z -> d !! n = Some 0%Z))
       ∨ released_buf w (heap st) (heap st') b t n)
  end.
Proof.
  intros H He Ht Htext. unfold readFile_stream in H.
  apply bind_inv in H as (seeked & st1 & Hseek & H).
  apply bind_inv in H as ([buf0 n0] & st2 & Hbody & H).
  apply bind_inv in H as (u & st3 & [Hh3 He3]%fclose_inv & [[= -> ->] ->]%ret_inv).
  assert (Hs1 : heap st1 = heap st
                ∧ (seeked = true -> errno st1 = 0%Z)).
  { unfold fseek_end in Hseek. destruct (fseek_r w) as [[]|e].
    - apply ret_inv in Hseek as [-> ->]. auto.
    - apply bind_inv in Hseek as (u' & st0 & (Hh & _)%lib_fail_inv
                                    & [-> ->]%ret_inv).
      split; [exact Hh|discriminate]. }
  destruct Hs1 as [Hh1 He1]. rewrite Hh3.
  destruct seeked.
  2: { apply ret_inv in Hbody as [[= -> ->] ->]. split; [reflexivity|exact Hh1]. }
  specialize (He1 eq_refl).
  destruct ((maxSize =? 0)%Z || (wrap (ftell content + t) <=? maxSize)%Z).
  2: { apply bind_inv in Hbody as (u' & st0 & ->%set_errno_inv & [[= -> ->] ->]%ret_inv).
       split; [reflexivity|exact Hh1]. }
  apply bind_inv in Hbody as (p & st0 & Hm & Hbody).
  apply malloc_inv in Hm as [(-> & Hh0 & _)|(-> & Hh0 & He0)].
  { apply ret_inv in Hbody as [[= -> ->] ->]. split; [reflexivity|congruence]. }
  rewrite He1 in He0.
  assert (Hhold : holds_buf (heap st) (heap st0) (length (heap st1))
                    (fresh_chars w 0 (Z.to_nat (wrap (ftell content + t))))).
  { rewrite Hh0, Hh1. apply holds_buf_alloc. }
  destruct (readFile_fill_inv w _ _ _ _ _ _ _ _ _ _ _ _ Hbody Hhold He0 Ht Htext)
    as (b' & -> & Hn & Hok & Hfail & Hres).
  { apply wrap_range. }
  split; [reflexivity|]. split; [exact Hn|].
  destruct Hres as [(d' & Hh2 & Hnul)|Hrel]; [left|right; exact Hrel].
  exists d'. split; [exact Hh2|].
  intros Hz Ht1.
  assert (He2 : errno st2 = 0%Z) by (destruct He3 as [<-|]; [exact Hz|contradiction]).
  destruct (fread_r w) as [[]|e] eqn:Hfr.
  - apply Hnul; auto.
  - exfalso. apply (Hfail e eq_refl). exact He2.
Qed.

Lemma epilogue_inv (e : Z) (buf buf' : ptr) (n n' : nat) (st st' : state) :
  epilogue e buf n st = Some (buf', n', st') ->
  (errno st = 0%Z ∧ buf' = buf ∧ n' = n ∧ st' = with_errno e st)
  ∨ (errno st ≠ 0%Z ∧ buf' = NULL ∧ n' = 0 ∧ errno st' = errno st
     ∧ free buf st = Some (tt, st')).
Proof.
  unfold epilogue.
  intros (err & st1 & [-> ->]%get_errno_inv & H)%bind_inv.
  destruct (Z.eqb_spec (errno st) 0) as [Hz|Hnz].
  - apply bind_inv in H as (u & st2 & ->%set_errno_inv & [[= -> ->] ->]%ret_inv).
    left. auto.
  - apply bind_inv in H as ([] & st2 & Hfree & [[= -> ->] ->]%ret_inv).
    right. repeat split; auto.
    apply free_inv in Hfree as [[_ ->]|(b & x & _ & _ & _ & ->)]; reflexivity.
Qed.

(** Every way readFile can return: with NULL and what it allocated
    released; with the start of a fresh live buffer; or, where
    realloc(buf, 0) releases the block, with the pointer it had before that
    call. *)
Lemma readFile_inv_all (fileName : option string)
    (textMode terminate maxSize : Z)
    (st st' : state) (buf : ptr) (n : nat) :
  readFile w fileName textMode terminate maxSize st = Some (buf, n, st') ->
  match buf with
  | NULL => n = 0 ∧ all_released (heap st) (heap st')
  | Ptr b o =>
    o = 0 ∧ errno st' = errno st
    ∧ ∃ name content,
        fileName = Some name ∧ fopen_r w name = Ok content
        ∧ n ≤ length content
        ∧ ((∃ d, holds_buf (heap st) (heap st') b d
                 ∧ (allowance textMode terminate = 1%Z -> d !! n = Some 0%Z))
           ∨ released_buf w (heap st) (heap st') b
               (allowance textMode terminate) n)
  end.
Proof.
  intros H. unfold readFile in H.
  apply bind_inv in H as (e & st0 & [-> ->]%get_errno_inv & H).
  apply bind_inv in H as ([buf0 n0] & st1 & Hbody & H).
  assert (Ha : (if ((if (textMode =? 0)%Z then terminate else TRUE) =? 0)%Z
                then 0%Z else 1%Z) = allowance textMode terminate).
  { unfold allowance. destruct (textMode =? 0)%Z; reflexivity. }
  assert (Hb : match buf0 with
               | NULL => n0 = 0 ∧ heap st1 = heap st
               | Ptr b o =>
                 o = 0 ∧ ∃ name content,
                   fileName = Some name ∧ fopen_r w name = Ok content
                   ∧ n0 ≤ length content
                   ∧ ((∃ d, holds_buf (heap st) (heap st1) b d
                            ∧ (errno st1 = 0%Z ->
                               allowance textMode terminate = 1%Z ->
                               d !! n0 = Some 0%Z))
                      ∨ released_buf w (heap st) (heap st1) b
                          (allowance textMode terminate) n0)
               end).
  { destruct fileName as [name|].
    2: { apply bind_inv in Hbody as (u & st2 & ->%set_errno_inv
                                       & [[= -> ->] ->]%ret_inv). auto. }
    apply bind_inv in Hbody as (u & st2 & ->%set_errno_inv & Hbody).
    apply bind_inv in Hbody as (in_ & st3 & Hopen & Hbody).
    unfold fopen in Hopen. destruct (fopen_r w name) as [content|e] eqn:Hfo.
    2: { apply bind_inv in Hopen as (u' & st4 & (Hh & _)%lib_fail_inv
                                       & [-> ->]%ret_inv).
         apply ret_inv in Hbody as [[= -> ->] ->]. auto. }
    apply ret_inv in Hopen as [-> ->].
    apply readFile_stream_inv in Hbody; [|reflexivity|reflexivity|].
    2: { intros Hnz. destruct (Z.eqb_spec textMode 0); [contradiction|].
         unfold TRUE. lia. }
    destruct buf0 as [|b o]; [exact Hbody|].
    rewrite Ha in Hbody.
    destruct Hbody as (-> & Hn & Hres). split; [reflexivity|].
    exists name, content. repeat split; auto. }
  apply epilogue_inv in H
    as [(Hz & -> & -> & ->)|(Hnz & -> & -> & _ & Hfree)].
  - destruct buf0 as [|b o].
    + destruct Hb as [-> Hh]. split; [reflexivity|]. simpl. rewrite Hh.
      apply all_released_refl.
    + destruct Hb as (-> & name & content & Hname & Hfo & Hn & Hres).
      split; [reflexivity|]. split; [reflexivity|].
      exists name, content. repeat split; auto.
      destruct Hres as [(d & Hh & Hnul)|Hrel]; [left|right; exact Hrel].
      exists d. split; [exact Hh|]. intros Ht1. apply Hnul; assumption.
  - split; [reflexivity|].
    apply free_inv in Hfree as [[-> ->]|(b & x & -> & Hx & Hlive & ->)].
    + destruct Hb as [_ Hh]. rewrite Hh. apply all_released_refl.
    + destruct Hb as (_ & name & content & _ & _ & _ & Hres).
      destruct Hres as [(d & Hh & _)|(_ & _ & _ & _ & Hfreed)].
      * simpl. apply (holds_buf_free _ _ _ _ Hh).
      * exfalso. apply Hlive. congruence.
Qed.

(** The same when the shrinking realloc cannot have been asked for 0 bytes
    on a platform that releases the block then. *)
Lemma readFile_inv (fileName : option string) (textMode terminate maxSize : Z)
    (st st' : state) (b o n : nat) :
  readFile w fileName textMode terminate maxSize st = Some (Ptr b o, n, st') ->
  realloc0_frees w = false ∨ allowance textMode terminate = 1%Z ∨ n ≠ 0 ->
  o = 0 ∧ errno st' = errno st
  ∧ ∃ name content d,
      fileName = Some name ∧ fopen_r w name = Ok content
      ∧ n ≤ length content
      ∧ holds_buf (heap st) (heap st') b d
      ∧ (allowance textMode terminate = 1%Z -> d !! n = Some 0%Z).
Proof.
  intros H Hlive. apply readFile_inv_all in H.
  destruct H as (-> & He & name & content & Hname & Hfo & Hn & Hres).
  split; [reflexivity|]. split; [exact He|].
  destruct Hres as [(d & Hh & Hnul)|(Hfrees & Ht & Hn0 & _)].
  - exists name, content, d. auto.
  - exfalso. destruct Hlive as [H|[H|H]]; [congruence|lia|contradiction].
Qed.

End ReadFileInversion.

(** * Every way the table can be built *)

Section ReadLinesInversion.
Variable w : world.

Lemma fill_loop_inv (b : nat) (fuel : nat) :
  ∀ (buf buf' : list Z) (lines lines' : list ptr) (p ln ln' : nat),
    fill_loop w fuel b buf lines p ln = Some (buf', lines', ln') ->
    ln ≤ ln' ∧ length lines' = length lines
    ∧ ∀ i, i < ln -> lines' !! i = lines !! i.
Proof.
  induction fuel as [|fuel IH]; intros buf buf' lines lines' p ln ln' H;
    [discriminate|].
  cbn [fill_loop] in H.
  destruct (Strchr w buf p LF) as [[q|]|]; cbn [mbind option_bind] in H;
    [| |discriminate].
  2: { injection H as <- <- <-. auto. }
  destruct (store buf q NUL) as [buf1|]; cbn [mbind option_bind] in H;
    [|discriminate].
  destruct (buf1 !! (q + 1)) as [x|]; cbn [mbind option_bind] in H;
    [|discriminate].
  destruct (x =? 0)%Z.
  - apply IH in H. exact H.
  - destruct (store lines ln (Ptr b (q + 1))) as [lines1|] eqn:Hs;
      cbn [mbind option_bind] in H; [|discriminate].
    apply store_inv in Hs as [Hlt ->].
    apply IH in H as (Hle & Hlen & Hkeep). rewrite length_insert in Hlen.
    split; [lia|]. split; [exact Hlen|].
    intros i Hi. rewrite Hkeep by lia. apply list_lookup_insert_ne. lia.
Qed.

(** What lines 211-223 leave: the buffer block [b] and the table block
    [lb], last in the heap, agree on who owns the buffer. *)
Lemma readLines_table_inv (h0 hb : list block) (b o lb len : nat)
    (d : list Z) (tbl0 : list ptr) (buf : ptr) (st st' : state) :
  readLines_table w b o len lb st = Some (buf, st') ->
  heap st = hb ++ [Ptrs tbl0] -> lb = length hb ->
  holds_buf h0 hb b d ->
  errno st' = errno st
  ∧ ∃ hb' tbl, heap st' = hb' ++ [Ptrs tbl]
      ∧ length hb' = length hb
      ∧ length tbl = length tbl0
      ∧ ((buf = Ptr b o ∧ len ≠ 0 ∧ 1 < length tbl
          ∧ (∃ d', holds_buf h0 hb' b d') ∧ tbl !! 0 = Some (Ptr b o))
         ∨ (buf = NULL ∧ len = 0 ∧ o = 0
            ∧ all_released h0 hb' ∧ tbl !! 0 = Some NULL)).
Proof.
  intros H Hheap Hlb Hh. unfold readLines_table in H.
  pose proof (holds_buf_length _ _ _ _ Hh) as Hlen.
  assert (Hblt : b < length hb) by lia.
  apply bind_inv in H as ([buf0 ln] & st1 & Hbody & H).
  apply bind_inv in H as (u & st2 & Hsent & [-> ->]%ret_inv).
  destruct (Nat.eqb_spec len 0) as [->|Hnz].
  - apply bind_inv in Hbody as (u' & st0 & Hfree & [[= -> ->] ->]%ret_inv).
    apply free_inv in Hfree as [[[=] _]|(b' & x & [= <- ->] & _ & _ & ->)].
    apply store_ptr_inv in Hsent as (tbl & Htbl & Hlt & ->).
    cbn [heap with_heap] in Htbl. rewrite Hheap in Htbl.
    rewrite insert_app_l in Htbl by exact Hblt.
    rewrite <- (length_insert hb b Freed) in Hlb. rewrite Hlb in Htbl.
    rewrite lookup_snoc_last in Htbl. injection Htbl as <-.
    split; [reflexivity|].
    exists (<[b:=Freed]> hb), (<[0:=NULL]> tbl0).
    cbn [heap with_heap]. rewrite Hheap, insert_app_l by exact Hblt.
    rewrite Hlb, insert_pre_head, !length_insert.
    split; [reflexivity|]. split; [reflexivity|]. split; [reflexivity|].
    right. repeat split; auto.
    + apply (holds_buf_free _ _ _ _ Hh).
    + apply list_lookup_insert_eq. exact Hlt.
  - apply bind_inv in Hbody as (u0 & st3 & Hfirst & Hbody).
    apply store_ptr_inv in Hfirst as (tbl0' & Htbl0 & Hlt0 & ->).
    rewrite Hheap, Hlb, lookup_snoc_last in Htbl0. injection Htbl0 as <-.
    apply bind_inv in Hbody as (d1 & st4 & [Hd1 ->]%read_chars_inv & Hbody).
    apply bind_inv in Hbody as (t1 & st5 & [Ht1 ->]%read_ptrs_inv & Hbody).
    apply bind_inv in Hbody as ([[d2 t2] ln2] & st6 & [Hfill ->]%lift_inv & Hbody).
    apply bind_inv in Hbody as (u1 & st7 & [_ ->]%write_chars_inv & Hbody).
    apply bind_inv in Hbody as (u2 & st8 & [_ ->]%write_ptrs_inv
                                  & [[= -> ->] ->]%ret_inv).
    cbn [heap with_heap fst snd] in *.
    rewrite Hheap, Hlb in *.
    rewrite insert_pre_head in Ht1.
    rewrite lookup_snoc_last in Ht1. injection Ht1 as <-.
    apply fill_loop_inv in Hfill as (Hle & Hlen2 & Hkeep).
    rewrite length_insert in Hlen2.
    apply store_ptr_inv in Hsent as (tbl & Htbl & Hlt & ->).
    cbn [heap with_heap] in *.
    assert (Hshape : ∀ (x : block) (y : list ptr),
      <[length hb:=Ptrs y]> (<[b:=x]>
        (<[length hb:=Ptrs (<[0:=Ptr b o]> tbl0)]> (hb ++ [Ptrs tbl0])))
      = <[b:=x]> hb ++ [Ptrs y]).
    { intros x y. rewrite insert_pre_head.
      rewrite insert_app_l by exact Hblt.
      rewrite <- (length_insert hb b x). apply insert_pre_head. }
    rewrite Hshape in Htbl |- *.
    rewrite <- (length_insert hb b (Chars d2)) in Htbl at 1.
    rewrite lookup_snoc_last in Htbl. injection Htbl as <-.
    split; [reflexivity|].
    exists (<[b:=Chars d2]> hb), (<[ln2:=NULL]> t2).
    rewrite <- (length_insert hb b (Chars d2)) at 1.
    rewrite insert_pre_head, !length_insert.
    split; [reflexivity|]. split; [reflexivity|]. split; [exact Hlen2|].
    left. split; [reflexivity|]. split; [exact Hnz|]. split; [lia|]. split.
    + exists d2. apply (holds_buf_write _ _ _ _ _ Hh).
    + rewrite list_lookup_insert_ne by lia. rewrite Hkeep by lia.
      apply list_lookup_insert_eq. exact Hlt0.
Qed.

End ReadLinesInversion.

(** * Every way readLines can return *)

Section ReadLinesInv.
Variable w : world.

Lemma readLines_split_inv (h0 : list block) (b len : nat) (d : list Z)
    (maxSize : Z) (lines buf' : ptr) (lnCnt : nat) (st st' : state) :
  readLines_split w (Ptr b 0) len maxSize st = Some (lines, buf', lnCnt, st') ->
  holds_buf h0 (heap st) b d -> errno st = 0%Z ->
  lines ≠ NULL ->
  errno st' = 0%Z ∧ table_owns h0 (heap st') lines lnCnt.
Proof.
  intros H Hh He Hlines. unfold readLines_split in H.
  apply bind_inv in H as (d0 & st0 & [_ ->]%read_chars_inv & H).
  apply bind_inv in H as (c0 & st0 & [_ ->]%lift_inv & H).
  apply bind_inv in H as (c1 & st0 & [_ ->]%lift_inv & H).
  destruct ((maxSize =? 0)%Z || _).
  2: { apply bind_inv in H as (u & st0 & _ & [[= -> _ _] _]%ret_inv).
       contradiction. }
  apply bind_inv in H as (p & st1 & Hm & H).
  apply malloc_inv in Hm as [(-> & _)|(-> & Hh1 & He1)].
  { apply ret_inv in H as [[= -> _ _] _]. contradiction. }
  apply bind_inv in H as (buf0 & st2 & Htab & [[= -> -> ->] ->]%ret_inv).
  pose proof (holds_buf_length _ _ _ _ Hh) as Hlen.
  destruct (readLines_table_inv w h0 (heap st) b 0 (length (heap st)) len d _ _ _ _
              Htab Hh1 eq_refl Hh)
    as (He2 & hb' & tbl & Hh2 & Hlen2 & Htl & Hcases).
  split; [congruence|].
  exists hb', tbl. split; [exact Hh2|]. split; [rewrite Hlen2; reflexivity|].
  destruct Hcases as [(_ & Hnz & Hcap & (d' & Hd') & Hfirst)
                     |(_ & _ & _ & Hrel & Hfirst)]; [left|right; auto].
  exists b, d'. split; [exact Hd'|]. split; [exact Hfirst|].
  intros ->. rewrite Htl, length_replicate in Hcap.
  rewrite wrap_small in Hcap by (unfold PTR_SIZE, SIZE_MAX, SIZE_BITS; simpl; lia).
  vm_compute in Hcap. lia.
Qed.

Lemma freeLines_table (h0 : list block) (lines : ptr) (n : nat) (st : state) :
  table_owns h0 (heap st) lines n ->
  ∃ st', freeLines lines st = Some (tt, st')
         ∧ all_released h0 (heap st') ∧ errno st' = errno st.
Proof.
  intros (hb & tbl & Hheap & -> & Hcases).
  assert (Hlb : heap st !! length hb = Some (Ptrs tbl))
    by (rewrite Hheap; apply lookup_snoc_last).
  unfold freeLines, load_ptr. cbv beta iota.
  unfold bind at 1. unfold bind at 1.
  rewrite (bind_run _ _ _ _ _ (read_ptrs_run _ _ _ Hlb)).
  destruct Hcases as [(b & d & Hh & Hfirst & _)|(Hrel & Hfirst)];
    rewrite Hfirst; unfold lift at 1.
  - pose proof (holds_buf_length _ _ _ _ Hh) as Hlen.
    assert (Hb : heap st !! b = Some (Chars d)).
    { rewrite Hheap, lookup_app_l by lia. apply (holds_buf_lookup _ _ _ _ Hh). }
    unfold free at 1. rewrite Hb.
    unfold free. cbn [heap with_heap]. rewrite Hheap.
    rewrite insert_app_l by lia.
    assert (E : length hb = length (<[b:=Freed]> hb))
      by (rewrite length_insert; reflexivity).
    rewrite E, lookup_snoc_last.
    eexists. split; [reflexivity|]. split; [|reflexivity].
    cbn [heap with_heap]. rewrite insert_pre_head.
    destruct (holds_buf_free _ _ _ _ Hh) as (k & ->).
    exists (S k). rewrite replicate_S_end, <- !app_assoc. reflexivity.
  - unfold free at 1. unfold free. rewrite Hlb.
    eexists. split; [reflexivity|]. split; [|reflexivity].
    cbn [heap with_heap]. rewrite Hheap, insert_pre_head.
    destruct Hrel as (k & ->).
    exists (S k). rewrite replicate_S_end, <- !app_assoc. reflexivity.
Qed.

Lemma readLines_inv (fileName : option string) (maxSize : Z)
    (st st' : state) (lines : ptr) (n : nat) :
  readLines w fileName maxSize st = Some (lines, n, st') ->
  lines ≠ NULL ->
  errno st' = errno st ∧ table_owns (heap st) (heap st') lines n.
Proof.
  intros H Hlines. unfold readLines in H.
  apply bind_inv in H as (e & st0 & [-> ->]%get_errno_inv & H).
  apply bind_inv in H as (u & st0 & ->%set_errno_inv & H).
  apply bind_inv in H as ([buf len] & st1 & Hrf & H).
  apply bind_inv in H as ([[lines0 buf'] lnCnt] & st2 & Hsplit & H).
  apply bind_inv in H as ([buf2 lnCnt2] & st3 & Hep & [[= -> ->] ->]%ret_inv).
  cbn [fst snd] in *.
  destruct buf as [|b o].
  { apply ret_inv in Hsplit as [[= -> _ _] _]. contradiction. }
  apply readFile_inv in Hrf; [|right; left; reflexivity].
  destruct Hrf as (-> & He1 & name & content & d & _ & _ & _ & Hh & _).
  cbn [heap errno with_errno] in Hh, He1.
  destruct (readLines_split_inv _ _ _ _ _ _ _ _ _ _ Hsplit Hh He1 Hlines)
    as (He2 & Hown).
  apply epilogue_inv in Hep as [(_ & _ & -> & ->)|(Hnz & _)]; [|contradiction].
  split; [reflexivity|exact Hown].
Qed.

End ReadLinesInv.
(** * The claims *)

(** ** C9: Strchr against the standard strchr *)

Section StrchrSpec.
Variable w : world.

Lemma strchr_first (mem : list Z) (c : Z) (n : nat) :
  ∀ s k, s ≤ k -> k - s = n -> mem !! k = Some 0%Z ->
    match strchr w mem s c with
    | Some i => first_occurrence mem s i (to_char w c)
    | None => absent mem s (to_char w c)
    end.
Proof.
  induction n as [|n IH]; intros s k Hsk Hn Hk.
  - assert (k = s) as -> by lia.
    rewrite (strchr_unfold w _ _ _ _ Hk).
    destruct (Z.eqb_spec 0 (to_char w c)) as [Hc|Hc].
    + split; [lia|]. split; [rewrite <- Hc; exact Hk|]. intros j Hj. lia.
    + simpl. exists s. split; [lia|]. split; [exact Hk|].
      split; [intros j Hj; lia|].
      intros j Hj. assert (j = s) as -> by lia. rewrite Hk. congruence.
  - destruct (lookup_lt_is_Some_2 mem s) as [x Hx];
      [apply lookup_lt_Some in Hk; lia|].
    rewrite (strchr_unfold w _ _ _ _ Hx).
    destruct (Z.eqb_spec x (to_char w c)) as [Hc|Hc].
    + split; [lia|]. split; [rewrite <- Hc; exact Hx|]. intros j Hj. lia.
    + destruct (Z.eqb_spec x 0) as [Hz|Hz].
      * exists s. split; [lia|]. split; [rewrite <- Hz; exact Hx|].
        split; [intros j Hj; lia|].
        intros j Hj. assert (j = s) as -> by lia. rewrite Hx. congruence.
      * specialize (IH (S s) k ltac:(lia) ltac:(lia) Hk).
        destruct (strchr w mem (S s) c) as [i|].
        -- destruct IH as (Hi & Hfound & Hbefore).
           split; [lia|]. split; [exact Hfound|].
           intros j Hj. destruct (decide (j = s)) as [->|Hne].
           ++ exists x. auto.
           ++ apply Hbefore. lia.
        -- destruct IH as (t & Ht & Hnul & Hbefore & Hnone).
           exists t. split; [lia|]. split; [exact Hnul|]. split.
           ++ intros j Hj. destruct (decide (j = s)) as [->|Hne].
              ** rewrite Hx. congruence.
              ** apply Hbefore. lia.
           ++ intros j Hj. destruct (decide (j = s)) as [->|Hne].
              ** rewrite Hx. congruence.
              ** apply Hnone. lia.
Qed.

End StrchrSpec.

(** Where the claim holds.  On every terminated string, for every [c] that
    is a value of type [char], Strchr returns what the standard strchr
    returns: the first occurrence of [c] (which is the terminator itself
    when [c] is NUL), or NULL when [c] does not occur up to the
    terminator. *)
Theorem Strchr_refines_strchr (w : world) (mem : list Z) (s : nat) (c : Z) :
  terminated mem s -> to_char w c = c ->
  Strchr w mem s c = Some (strchr w mem s c)
  ∧ match strchr w mem s c with
    | Some i => first_occurrence mem s i c
    | None => c ≠ 0%Z ∧ absent mem s c
    end.
Proof.
  intros Ht Hc. split; [apply Strchr_is_strchr; assumption|].
  destruct Ht as (k & Hk & Hnul).
  pose proof (strchr_first w mem c (k - s) s k Hk eq_refl Hnul) as H.
  rewrite Hc in H. destruct (strchr w mem s c) as [i|]; [exact H|].
  split; [|exact H].
  destruct H as (t & Ht & Htn & _ & Hnone). intros ->.
  apply (Hnone t); [lia|exact Htn].
Qed.

Lemma Strchr_refines_strchr_witness :
  Strchr (demo_world []) [104; 105; 10; 0]%Z 0 10
  = Some (strchr (demo_world []) [104; 105; 10; 0]%Z 0 10)
  ∧ first_occurrence [104; 105; 10; 0]%Z 0 2 10.
Proof.
  exact (Strchr_refines_strchr (demo_world []) [104; 105; 10; 0]%Z 0 10
           (ex_intro _ 3 (conj (le_S _ _ (le_S _ _ (le_S _ _ (le_n 0)))) eq_refl))
           eq_refl).
Defined.

(** Likewise for an [int] outside the values of both char types. *)
Lemma Strchr_int_argument :
  Strchr (demo_world []) [97; 65; 0]%Z 0 321 = Some None
  ∧ strchr (demo_world []) [97; 65; 0]%Z 0 321 = Some 1.
Proof. split; reflexivity. Qed.


(** ** C1: text mode and carriage returns *)

Lemma strip_cr_count (l : list Z) : length (strip_cr l) + count_cr l = length l.
Proof.
  unfold strip_cr, count_cr. induction l as [|x l IH]; [reflexivity|].
  destruct (decide (x = CR)) as [->|Hne].
  - rewrite filter_cons_False by (intros H; apply H; reflexivity).
    rewrite filter_cons_True by reflexivity. simpl. lia.
  - rewrite filter_cons_True by exact Hne.
    rewrite filter_cons_False by exact Hne. simpl. lia.
Qed.

(** When no NUL comes before the first carriage return, text mode reports
    the file's size less its carriage returns and returns the file's chars
    without them, terminated. *)
Lemma readFile_text_mode_strips (w : world) (st : state) (name : string)
    (content : list Z) (terminate maxSize : Z) :
  io_ok w name content ->
  malloc_r w (allocs st) = Ok tt ->
  (Z.of_nat (length content) <= LONG_MAX)%Z ->
  (maxSize = 0 ∨ Z.of_nat (length content) + 1 <= maxSize)%Z ->
  no_nul content ->
  ∃ b data st',
    readFile w (Some name) 1 terminate maxSize st
    = Some (Ptr b 0, length content - count_cr content, st')
    ∧ heap st' !! b = Some (Chars data)
    ∧ take (length content - count_cr content) data = strip_cr content
    ∧ data !! (length content - count_cr content) = Some 0%Z.
Proof.
  intros Hio Hm Hsize Hmax Hnn.
  destruct (readFile_ok w st name content 1 terminate maxSize Hio Hm Hsize)
    as (b & data & st' & Hrun & Hb & Htake & Hnul & _).
  { exact Hmax. }
  { right. unfold allowance. simpl. lia. }
  unfold mode_content in Hrun, Htake, Hnul. simpl in Hrun, Htake, Hnul.
  rewrite (text_mode_content_no_nul _ Hnn) in Hrun, Htake, Hnul.
  replace (length (strip_cr content)) with (length content - count_cr content)
    in Hrun, Htake, Hnul by (pose proof (strip_cr_count content); lia).
  exists b, data, st'. auto.
Qed.

(** C1, on the file "\0\r": one carriage return in a file of two bytes, and
    text mode reports two chars and leaves the carriage return in the
    buffer, because the scan for the first carriage return stops at the NUL. *)
Theorem readFile_text_mode_nul_hides_cr :
  ∃ data st',
    readFile (demo_world [0; 13]%Z) (Some "f"%string) 1 0 0 demo_state
    = Some (Ptr 1 0, 2, st')
    ∧ heap st' !! 1 = Some (Chars data)
    ∧ take 2 data = [0; 13]%Z
    ∧ length [0; 13]%Z - count_cr [0; 13]%Z = 1.
Proof.
  eexists _, _. split; [vm_compute; reflexivity|].
  split; [reflexivity|]. split; reflexivity.
Qed.

(** ** C2: the line count *)

(** C2 as stated fails on the file "\0\nx": its content has one line feed
    and does not end in one, which makes two lines, and readLines reports
    one. *)
Lemma readLines_count_nul_counterexample :
  ∃ lines n st',
    readLines (demo_world [0; 10; 120]%Z) (Some "f"%string) 0 demo_state
    = Some (lines, n, st')
    ∧ lines ≠ NULL
    ∧ n ≠ line_count (strip_cr [0; 10; 120]%Z).
Proof.
  eexists _, _, _. split; [vm_compute; reflexivity|].
  split; [discriminate|]. vm_compute. discriminate.
Qed.

(** C2, amended. For every file without NUL bytes that readLines reads
    with success, the reported count is the number of line feeds of the
    content without carriage returns, plus one when that content is not
    empty and does not end in a line feed. *)
Theorem readLines_line_count (w : world) (st : state) (name : string)
    (content : list Z) (maxSize : Z) :
  io_ok w name content ->
  (∀ k, malloc_r w k = Ok tt) ->
  no_nul content ->
  (Z.of_nat (length content) < FILE_MAX)%Z ->
  (maxSize = 0
   ∨ (Z.of_nat (length content) + 1 <= maxSize
      ∧ (Z.of_nat (line_count (strip_cr content)) + 1) * PTR_SIZE
        + Z.of_nat (length (strip_cr content)) + 1 <= maxSize))%Z ->
  ∃ lb st',
    readLines w (Some name) maxSize st
    = Some (Ptr lb 0,
            count_lf (strip_cr content)
            + (if ends_lf (strip_cr content) then 0
               else match strip_cr content with [] => 0 | _ :: _ => 1 end),
            st').
Proof.
  intros Hio Hm Hnn Hsize Hmax.
  destruct (readLines_ok w st name content maxSize Hio Hm Hnn Hsize Hmax)
    as (lb & b & st' & Hrun & _).
  exists lb, st'. exact Hrun.
Qed.

Lemma readLines_line_count_witness :
  ∃ lb st',
    readLines (demo_world [97; 13; 10; 98; 13; 10; 99]%Z) (Some "f"%string) 0
      demo_state
    = Some (Ptr lb 0, 3, st').
Proof.
  apply (readLines_line_count (demo_world [97; 13; 10; 98; 13; 10; 99]%Z)
           demo_state "f"%string [97; 13; 10; 98; 13; 10; 99]%Z 0).
  - repeat split.
  - intros k. reflexivity.
  - repeat constructor; discriminate.
  - reflexivity.
  - left. reflexivity.
Defined.

(** ** C3: the layout of the table *)

Lemma line_starts_above (l : list Z) :
  ∀ p y, y ∈ line_starts p l -> p < y.
Proof.
  induction l as [|x l IH]; intros p y Hy; [inversion Hy|].
  cbn [line_starts] in Hy. apply elem_of_app in Hy as [Hy|Hy].
  - destruct (x =? LF)%Z; [|inversion Hy]. destruct l; [inversion Hy|].
    apply list_elem_of_singleton in Hy. lia.
  - apply IH in Hy. lia.
Qed.

Lemma line_starts_increasing (l : list Z) :
  ∀ p i j x y, i < j ->
    line_starts p l !! i = Some x -> line_starts p l !! j = Some y -> x < y.
Proof.
  induction l as [|x0 l IH]; intros p i j x y Hij Hi Hj; [discriminate|].
  cbn [line_starts] in Hi, Hj.
  destruct (if (x0 =? LF)%Z then match l with [] => [] | _ :: _ => [S p] end else [])
    as [|z [|z' zs]] eqn:Hpre.
  - simpl in Hi, Hj. eapply IH; eauto.
  - assert (z = S p) as ->.
    { destruct (x0 =? LF)%Z; [|discriminate]. destruct l; [discriminate|].
      injection Hpre as <-. reflexivity. }
    destruct i as [|i]; destruct j as [|j]; try lia; simpl in Hi, Hj.
    + injection Hi as <-.
      apply (line_starts_above l (S p)). apply list_elem_of_lookup. eauto.
    + apply (IH (S p) i j); auto. lia.
  - destruct (x0 =? LF)%Z; [|discriminate]. destruct l; discriminate.
Qed.

Lemma line_offsets_increasing (text : list Z) (i j x y : nat) :
  i < j -> line_offsets text !! i = Some x -> line_offsets text !! j = Some y ->
  x < y.
Proof.
  intros Hij Hi Hj. destruct text as [|c text]; [discriminate|].
  unfold line_offsets in Hi, Hj.
  destruct i as [|i]; destruct j as [|j]; try lia; simpl in Hi, Hj.
  - injection Hi as <-.
    apply (line_starts_above (c :: text) 0). apply list_elem_of_lookup. eauto.
  - apply (line_starts_increasing (c :: text) 0 i j); auto. lia.
Qed.

(** C3. The count and the table disagree on the file of the bytes
    61 0A 00 62 ("a", line feed, NUL, "b"), every library call succeeding.
    The count takes one line for the line feed Strchr finds and one more
    for a last char, "b", that is no line feed; the filling loop sees the
    NUL after the line feed and stores no second pointer.  So readLines
    reports two lines and returns a table of three entries that holds one
    line pointer, then NULL, then an entry never written (here the junk
    [Ptr 0 7] the allocator left). *)
Theorem readLines_count_fill_mismatch :
  ∃ st',
    readLines (demo_world [97; 10; 0; 98]%Z) (Some "f"%string) 0 demo_state
    = Some (Ptr 2 0, 2, st')
    ∧ heap st' !! 2 = Some (Ptrs [Ptr 1 0; NULL; junk_ptr (demo_world [])])
    ∧ heap st' !! 1 = Some (Chars [97; 0; 0; 98; 0]%Z).
Proof.
  eexists. split; [vm_compute; reflexivity|].
  split; reflexivity.
Qed.

(** The same disagreement on the file of the bytes 00 0A: the count is
    zero, the table has one entry, the filling stores the buffer at entry 0
    and the sentinel at entry 1, outside the table. *)
Lemma readLines_table_overflow :
  readLines (demo_world [0; 10]%Z) (Some "f"%string) 0 demo_state = None.
Proof. vm_compute. reflexivity. Qed.

(** Where the claim holds.  For every file without NUL bytes that
    readLines reads with success, the table has exactly *lineCount + 1
    entries: *lineCount pointers into the content buffer, at strictly
    increasing offsets from offset 0, and then NULL. *)
Theorem readLines_table_layout (w : world) (st : state) (name : string)
    (content : list Z) (maxSize : Z) :
  io_ok w name content ->
  (∀ k, malloc_r w k = Ok tt) ->
  no_nul content ->
  (Z.of_nat (length content) < FILE_MAX)%Z ->
  (maxSize = 0
   ∨ (Z.of_nat (length content) + 1 <= maxSize
      ∧ (Z.of_nat (line_count (strip_cr content)) + 1) * PTR_SIZE
        + Z.of_nat (length (strip_cr content)) + 1 <= maxSize))%Z ->
  ∃ lb b lineCount offsets st',
    readLines w (Some name) maxSize st = Some (Ptr lb 0, lineCount, st')
    ∧ heap st' !! lb = Some (Ptrs (map (Ptr b) offsets ++ [NULL]))
    ∧ length offsets = lineCount
    ∧ length (map (Ptr b) offsets ++ [NULL]) = lineCount + 1
    ∧ (∀ i j x y, i < j -> offsets !! i = Some x -> offsets !! j = Some y ->
       x < y)
    ∧ (lineCount ≠ 0 -> offsets !! 0 = Some 0).
Proof.
  intros Hio Hm Hnn Hsize Hmax.
  destruct (readLines_ok w st name content maxSize Hio Hm Hnn Hsize Hmax)
    as (lb & b & st' & Hrun & Htbl & _).
  exists lb, b, (line_count (strip_cr content)),
    (line_offsets (strip_cr content)), st'.
  split; [exact Hrun|]. split; [exact Htbl|].
  split; [apply line_offsets_length|].
  split; [rewrite length_app, length_map, line_offsets_length; reflexivity|].
  split; [apply line_offsets_increasing|].
  intros Hnz. destruct (strip_cr content); [contradiction|reflexivity].
Qed.

Lemma readLines_table_layout_witness :
  ∃ lb b lineCount offsets st',
    readLines (demo_world [97; 13; 10; 98; 13; 10; 99]%Z) (Some "f"%string) 0
      demo_state
    = Some (Ptr lb 0, lineCount, st')
    ∧ heap st' !! lb = Some (Ptrs (map (Ptr b) offsets ++ [NULL]))
    ∧ length offsets = lineCount
    ∧ length (map (Ptr b) offsets ++ [NULL]) = lineCount + 1
    ∧ (∀ i j x y, i < j -> offsets !! i = Some x -> offsets !! j = Some y ->
       x < y)
    ∧ (lineCount ≠ 0 -> offsets !! 0 = Some 0).
Proof.
  apply (readLines_table_layout (demo_world [97; 13; 10; 98; 13; 10; 99]%Z)
           demo_state "f"%string [97; 13; 10; 98; 13; 10; 99]%Z 0).
  - repeat split.
  - intros k. reflexivity.
  - repeat constructor; discriminate.
  - reflexivity.
  - left. reflexivity.
Defined.

(** ** C4: one freeLines for every table *)

(** C4. Whatever table readLines returns, its first entry is the live
    content buffer, or it is NULL and the buffer was released inside
    readLines, which is the case whenever the count is zero; one freeLines
    then releases the buffer (if still live) and the table without releasing
    anything twice, and leaves live nothing that was allocated since
    readLines was called.  freeLines(NULL) changes nothing. *)
Theorem freeLines_releases_once (w : world) (fileName : option string)
    (maxSize : Z) (st st' : state) (lines : ptr) (n : nat) :
  readLines w fileName maxSize st = Some (lines, n, st') ->
  freeLines NULL st' = Some (tt, st')
  ∧ (lines ≠ NULL ->
     table_owns (heap st) (heap st') lines n
     ∧ ∃ st'', freeLines lines st' = Some (tt, st'')
               ∧ all_released (heap st) (heap st'')).
Proof.
  intros H. split; [reflexivity|]. intros Hl.
  destruct (readLines_inv w _ _ _ _ _ _ H Hl) as [_ Hown].
  split; [exact Hown|].
  destruct (freeLines_table _ _ _ _ Hown) as (st'' & Hrun & Hrel & _).
  exists st''. auto.
Qed.

Lemma freeLines_releases_once_witness :
  ∃ st' st'',
    readLines (demo_world []) (Some "f"%string) 0 demo_state
    = Some (Ptr 2 0, 0, st')
    ∧ heap st' = [Chars [120%Z]; Freed; Ptrs [NULL]]
    ∧ freeLines (Ptr 2 0) st' = Some (tt, st'')
    ∧ all_released (heap demo_state) (heap st'').
Proof.
  pose (st' := {| errno := 5; allocs := 2;
                  heap := [Chars [120%Z]; Freed; Ptrs [NULL]] |}).
  assert (H : readLines (demo_world []) (Some "f"%string) 0 demo_state
              = Some (Ptr 2 0, 0, st'))
    by (vm_compute; reflexivity).
  destruct (proj2 (freeLines_releases_once (demo_world []) (Some "f"%string) 0
                     demo_state st' (Ptr 2 0) 0 H)
              ltac:(discriminate))
    as (_ & st'' & Hfree & Hrel).
  exists st', st''. split; [exact H|]. split; [reflexivity|].
  split; [exact Hfree|exact Hrel].
Defined.

(** ** C5: the terminator *)

(** C5. When readFile returns a buffer and a terminator was asked for
    (by [terminate] or by [textMode]), the buffer is a live block whose char
    at index *length is NUL, and *length counts at most the chars of the
    file: the terminator lies after the chars it counts. *)
Theorem readFile_terminator (w : world) (fileName : option string)
    (textMode terminate maxSize : Z) (st st' : state) (b o n : nat) :
  readFile w fileName textMode terminate maxSize st = Some (Ptr b o, n, st') ->
  terminate ≠ 0%Z ∨ textMode ≠ 0%Z ->
  ∃ name content data,
    fileName = Some name ∧ fopen_r w name = Ok content
    ∧ o = 0 ∧ heap st' !! b = Some (Chars data)
    ∧ data !! n = Some NUL
    ∧ n ≤ length content.
Proof.
  intros H Ht.
  assert (Ha : allowance textMode terminate = 1%Z).
  { unfold allowance.
    destruct (Z.eqb_spec textMode 0); [|reflexivity].
    destruct (Z.eqb_spec terminate 0); [|reflexivity].
    destruct Ht; contradiction. }
  apply readFile_inv in H; [|right; left; exact Ha].
  destruct H as (-> & _ & name & content & d & Hname & Hopen & Hn & Hh & Hnul).
  exists name, content, d.
  split; [exact Hname|]. split; [exact Hopen|]. split; [reflexivity|].
  split; [apply (holds_buf_lookup _ _ _ _ Hh)|].
  split; [apply Hnul; exact Ha|exact Hn].
Qed.

Lemma readFile_terminator_witness :
  ∃ data st',
    readFile (demo_world [97; 13; 10; 98; 13; 10]%Z) (Some "f"%string) 1 0 0
      demo_state
    = Some (Ptr 1 0, 4, st')
    ∧ heap st' !! 1 = Some (Chars data)
    ∧ data !! 4 = Some NUL.
Proof.
  pose (st' := {| errno := 5; allocs := 2;
                  heap := [Chars [120%Z]; Chars [97; 10; 98; 10; 0]%Z] |}).
  assert (H : readFile (demo_world [97; 13; 10; 98; 13; 10]%Z) (Some "f"%string)
                1 0 0 demo_state
              = Some (Ptr 1 0, 4, st'))
    by (vm_compute; reflexivity).
  assert (Hmode : (0 ≠ 0 ∨ 1 ≠ 0)%Z) by (right; discriminate).
  destruct (readFile_terminator (demo_world [97; 13; 10; 98; 13; 10]%Z)
              (Some "f"%string) 1 0 0 demo_state st' 1 0 4 H Hmode)
    as (name & content & data & _ & _ & _ & Hb & Hnul & _).
  exists data, st'. split; [exact H|]. split; [exact Hb|exact Hnul].
Defined.

(** ** C10: errno on success *)

(** C10. When readFile returns a buffer, and when readLines returns a
    table, errno is what it was on entry, whatever the library calls made
    on the way did to it. *)
Theorem errno_restored (w : world) (fileName : option string) (st st' : state)
    (b o n : nat) :
  (∀ textMode terminate maxSize,
     readFile w fileName textMode terminate maxSize st = Some (Ptr b o, n, st') ->
     errno st' = errno st)
  ∧ (∀ maxSize,
       readLines w fileName maxSize st = Some (Ptr b o, n, st') ->
       errno st' = errno st).
Proof.
  split.
  - intros textMode terminate maxSize H. apply readFile_inv_all in H.
    destruct H as (_ & He & _). exact He.
  - intros maxSize H.
    destruct (readLines_inv w _ _ _ _ _ _ H ltac:(discriminate)) as [He _].
    exact He.
Qed.

Lemma errno_restored_witness :
  ∃ st',
    readFile (no_realloc_world [97; 13; 10]%Z) (Some "f"%string) 1 0 0 demo_state
    = Some (Ptr 1 0, 2, st')
    ∧ errno st' = 5%Z.
Proof.
  pose (st' := {| errno := 5; allocs := 2;
                  heap := [Chars [120%Z]; Chars [97; 10; 0; 0]%Z] |}).
  assert (H : readFile (no_realloc_world [97; 13; 10]%Z) (Some "f"%string)
                1 0 0 demo_state
              = Some (Ptr 1 0, 2, st'))
    by (vm_compute; reflexivity).
  exists st'. split; [exact H|].
  exact (proj1 (errno_restored (no_realloc_world [97; 13; 10]%Z)
                  (Some "f"%string) demo_state st' 1 0 2) 1%Z 0%Z 0%Z H).
Defined.

(** ** C6: the size limit *)

Section ReadFileForward.
Variable w : world.

Lemma allowance_range (textMode terminate : Z) :
  (0 <= allowance textMode terminate <= 1)%Z.
Proof.
  unfold allowance. destruct (textMode =? 0)%Z; [|lia].
  destruct (terminate =? 0)%Z; lia.
Qed.

(** readFile once the file is open. *)
Lemma readFile_opened (st : state) (name : string) (content : list Z)
    (textMode terminate maxSize : Z) :
  fopen_r w name = Ok content ->
  readFile w (Some name) textMode terminate maxSize st
  = match readFile_stream w content textMode
            (if (textMode =? 0)%Z then terminate else TRUE)
            (allowance textMode terminate) maxSize (with_errno 0 st) with
    | Some (buf, n, st1) => epilogue (errno st) buf n st1
    | None => None
    end.
Proof.
  intros Hopen.
  assert (Ht : (if ((if (textMode =? 0)%Z then terminate else TRUE) =? 0)%Z
                then 0%Z else 1%Z) = allowance textMode terminate).
  { unfold allowance. destruct (textMode =? 0)%Z; reflexivity. }
  unfold readFile. rewrite Ht. unfold fopen. rewrite Hopen.
  unfold bind, get_errno, set_errno, ret.
  destruct (readFile_stream _ _ _ _ _ _ _) as [[[buf n] st1]|]; reflexivity.
Qed.

(** The stream part once the seek has succeeded and the size been found
    within the limit. *)
Lemma readFile_stream_sized (st : state) (content : list Z)
    (textMode terminate t maxSize : Z) :
  fseek_r w = Ok tt ->
  (maxSize =? 0)%Z || (wrap (ftell content + t) <=? maxSize)%Z = true ->
  readFile_stream w content textMode terminate t maxSize st
  = match malloc_chars w (wrap (ftell content + t)) st with
    | Some (Ptr b _, st1) =>
      match readFile_fill w b content textMode terminate (ftell content) t st1 with
      | Some (r, st2) =>
        match fclose w st2 with
        | Some (_, st3) => Some (r, st3)
        | None => None
        end
      | None => None
      end
    | Some (NULL, st1) =>
      match fclose w st1 with
      | Some (_, st3) => Some (NULL, 0, st3)
      | None => None
      end
    | None => None
    end.
Proof.
  intros Hseek Hchk. unfold readFile_stream, fseek_end. rewrite Hseek, Hchk.
  unfold bind, ret.
  destruct (malloc_chars w _ st) as [[[|b o] st1]|]; [| |reflexivity].
  - destruct (fclose w st1) as [[[] st3]|]; reflexivity.
  - destruct (readFile_fill w b content textMode terminate _ t st1)
      as [[r st2]|]; [|reflexivity].
    destruct (fclose w st2) as [[[] st3]|]; reflexivity.
Qed.

Lemma readFile_stream_unseeked (st : state) (content : list Z)
    (textMode terminate t maxSize : Z) (e : positive) :
  fseek_r w = Fail e ->
  readFile_stream w content textMode terminate t maxSize st
  = match fclose w (with_errno (Z.pos e) st) with
    | Some (_, st3) => Some (NULL, 0, st3)
    | None => None
    end.
Proof.
  intros Hseek. unfold readFile_stream, fseek_end. rewrite Hseek.
  unfold bind, ret, lib_fail, set_errno.
  destruct (fclose w _) as [[[] st3]|]; reflexivity.
Qed.

Lemma readFile_stream_too_big (st : state) (content : list Z)
    (textMode terminate t maxSize : Z) :
  fseek_r w = Ok tt ->
  (maxSize =? 0)%Z || (wrap (ftell content + t) <=? maxSize)%Z = false ->
  readFile_stream w content textMode terminate t maxSize st
  = match fclose w (with_errno EFBIG st) with
    | Some (_, st3) => Some (NULL, 0, st3)
    | None => None
    end.
Proof.
  intros Hseek Hchk. unfold readFile_stream, fseek_end. rewrite Hseek, Hchk.
  unfold bind, ret, set_errno.
  destruct (fclose w _) as [[[] st3]|]; reflexivity.
Qed.

(** fclose keeps a non-zero errno non-zero and the heap as it is. *)
Lemma fclose_after_error (st : state) :
  errno st ≠ 0%Z ->
  ∃ st1, fclose w st = Some (tt, st1) ∧ errno st1 ≠ 0%Z ∧ heap st1 = heap st.
Proof.
  intros He. unfold fclose. destruct (fclose_r w) as [[]|e].
  - exists st. auto.
  - eexists. split; [reflexivity|]. simpl. split; [lia|reflexivity].
Qed.

Lemma epilogue_error (e : Z) (buf : ptr) (n : nat) (st : state) :
  errno st ≠ 0%Z ->
  epilogue e buf n st
  = match free buf st with
    | Some (_, st1) => Some (NULL, 0, st1)
    | None => None
    end.
Proof.
  intros He. unfold epilogue, bind, get_errno, ret.
  destruct (Z.eqb_spec (errno st) 0); [contradiction|].
  destruct (free buf st) as [[[] st1]|]; reflexivity.
Qed.

End ReadFileForward.

(** C6. When the file's size plus the terminator allowance exceeds a
    non-zero [maxSize], readFile returns NULL with errno EFBIG and *length
    0, and has not called the allocator: the heap and the count of
    allocator calls are unchanged. *)
Theorem readFile_size_limit (w : world) (st : state) (name : string)
    (content : list Z) (textMode terminate maxSize : Z) :
  fopen_r w name = Ok content -> fseek_r w = Ok tt -> fclose_r w = Ok tt ->
  (Z.of_nat (length content) <= LONG_MAX)%Z ->
  maxSize ≠ 0%Z ->
  (maxSize < Z.of_nat (length content) + allowance textMode terminate)%Z ->
  readFile w (Some name) textMode terminate maxSize st
  = Some (NULL, 0, with_errno EFBIG st).
Proof.
  intros Hopen Hseek Hclose Hsize Hnz Hmax.
  pose proof LONG_MAX_lt_SIZE_MAX as HLS.
  pose proof (allowance_range textMode terminate) as Ht01.
  rewrite (readFile_opened w st name content _ _ _ Hopen).
  unfold readFile_stream, fseek_end, fclose. rewrite Hseek, Hclose.
  unfold ftell. rewrite (wrap_small (Z.of_nat (length content))) by lia.
  rewrite wrap_small by lia.
  destruct (Z.eqb_spec maxSize 0); [contradiction|].
  destruct (Z.leb_spec (Z.of_nat (length content) + allowance textMode terminate)
              maxSize); [lia|].
  reflexivity.
Qed.

Lemma readFile_size_limit_witness :
  readFile (demo_world [97; 98; 99]%Z) (Some "f"%string) 0 1 3 demo_state
  = Some (NULL, 0, with_errno EFBIG demo_state).
Proof.
  apply (readFile_size_limit (demo_world [97; 98; 99]%Z) demo_state "f"%string
           [97; 98; 99]%Z 0 1 3);
    first [reflexivity | discriminate].
Defined.

(** ** C7: the error paths *)

(** C7. On an invalid path, an open or seek failure, a size-limit failure,
    an allocation failure and a read error, readFile returns NULL, stores 0
    in *length, leaves errno non-zero and leaves live nothing that it
    allocated. *)
Theorem readFile_error_paths (w : world) (st : state)
    (fileName : option string) (textMode terminate maxSize : Z) :
  readFile_failure w st textMode terminate maxSize fileName ->
  ∃ st', readFile w fileName textMode terminate maxSize st = Some (NULL, 0, st')
         ∧ errno st' ≠ 0%Z
         ∧ all_released (heap st) (heap st').
Proof.
  pose proof (allowance_range textMode terminate) as Ht01.
  intros [ |name e Hopen|name content e Hopen Hseek
         |name content Hopen Hseek Hnz Hmax
         |name content e Hopen Hseek Hmax Hmalloc
         |name content e Hopen Hseek Hmax Hmalloc Hnull Hsize Hread].
  - eexists. split; [reflexivity|]. simpl.
    split; [discriminate|apply all_released_refl].
  - unfold readFile, fopen. rewrite Hopen.
    eexists. split; [reflexivity|]. simpl.
    split; [lia|apply all_released_refl].
  - rewrite (readFile_opened w st name content _ _ _ Hopen).
    rewrite (readFile_stream_unseeked w _ _ _ _ _ _ _ Hseek).
    destruct (fclose_after_error w (with_errno (Z.pos e) (with_errno 0 st))
                ltac:(simpl; lia))
      as (st1 & Hc & He1 & Hh1).
    rewrite Hc, (epilogue_error _ _ _ _ He1).
    eexists. split; [reflexivity|]. split; [exact He1|].
    rewrite Hh1. apply all_released_refl.
  - rewrite (readFile_opened w st name content _ _ _ Hopen).
    rewrite (readFile_stream_too_big w _ _ _ _ _ _ Hseek).
    2: { destruct (Z.eqb_spec maxSize 0); [contradiction|].
         destruct (Z.leb_spec (wrap (ftell content + allowance textMode terminate))
                     maxSize); [lia|reflexivity]. }
    destruct (fclose_after_error w (with_errno EFBIG (with_errno 0 st))
                ltac:(discriminate))
      as (st1 & Hc & He1 & Hh1).
    rewrite Hc, (epilogue_error _ _ _ _ He1).
    eexists. split; [reflexivity|]. split; [exact He1|].
    rewrite Hh1. apply all_released_refl.
  - assert (Hchk : (maxSize =? 0)%Z
                   || (wrap (ftell content + allowance textMode terminate)
                       <=? maxSize)%Z = true).
    { apply orb_true_iff. destruct Hmax as [->|H]; [left; reflexivity|right; lia]. }
    rewrite (readFile_opened w st name content _ _ _ Hopen).
    rewrite (readFile_stream_sized w _ _ _ _ _ _ Hseek Hchk).
    unfold malloc_chars, malloc. cbn [allocs with_errno]. rewrite Hmalloc.
    unfold bind at 1. unfold lib_fail, set_errno at 1, ret at 1.
    destruct (fclose_after_error w (with_errno (Z.pos e) (tick (with_errno 0 st)))
                ltac:(simpl; lia))
      as (st1 & Hc & He1 & Hh1).
    rewrite Hc, (epilogue_error _ _ _ _ He1).
    eexists. split; [reflexivity|]. split; [exact He1|].
    rewrite Hh1. apply all_released_refl.
  - pose proof LONG_MAX_lt_SIZE_MAX as HLS.
    assert (Hchk : (maxSize =? 0)%Z
                   || (wrap (ftell content + allowance textMode terminate)
                       <=? maxSize)%Z = true).
    { apply orb_true_iff. destruct Hmax as [->|H]; [left; reflexivity|right; lia]. }
    rewrite (readFile_opened w st name content _ _ _ Hopen).
    rewrite (readFile_stream_sized w _ _ _ _ _ _ Hseek Hchk).
    unfold malloc_chars, malloc. cbn [allocs with_errno]. rewrite Hmalloc.
    unfold ftell. rewrite (wrap_small (Z.of_nat (length content))) by lia.
    rewrite wrap_small by lia.
    assert (Hz : (Z.of_nat (length content) + allowance textMode terminate =? 0)%Z
                 && malloc0_null w = false).
    { destruct Hnull as [->|H]; [apply andb_false_r|].
      apply andb_false_iff. left. lia. }
    rewrite Hz.
    set (d0 := fresh_chars w 0
                 (Z.to_nat (Z.of_nat (length content)
                            + allowance textMode terminate))).
    set (st1 := with_heap (heap (with_errno 0 st) ++ [Chars d0])
                  (tick (with_errno 0 st))).
    assert (Hb1 : heap st1 !! length (heap st) = Some (Chars d0))
      by apply lookup_snoc_last.
    cbn [heap with_errno].
    unfold readFile_fill, fread. rewrite Hread.
    set (data := take _ content).
    assert (Hdata : length data ≤ length d0).
    { unfold data, d0, fresh_chars.
      rewrite length_take, length_map, length_seq. lia. }
    unfold bind at 1 2. rewrite (read_chars_run _ _ _ Hb1).
    destruct (decide (length data ≤ length d0)) as [_|]; [|contradiction].
    unfold bind at 1. rewrite (write_chars_run _ _ _ _ Hb1).
    unfold bind at 1. unfold lib_fail, set_errno at 1, ret at 1 2.
    set (st2 := with_errno (Z.pos e) _).
    destruct (fclose_after_error w st2 ltac:(simpl; lia)) as (st3 & Hc & He3 & Hh3).
    rewrite Hc, (epilogue_error _ _ _ _ He3).
    unfold free. rewrite Hh3. cbn [heap st2 with_errno with_heap st1].
    rewrite insert_pre_head, lookup_snoc_last.
    eexists. split; [reflexivity|]. split; [exact He3|].
    cbn [heap with_heap]. rewrite insert_pre_head.
    exists 1. reflexivity.
Qed.

Lemma readFile_error_paths_witness :
  ∃ st',
    readFile (read_error_world [97; 98; 99]%Z) (Some "f"%string) 0 1 0 demo_state
    = Some (NULL, 0, st')
    ∧ errno st' ≠ 0%Z
    ∧ all_released (heap demo_state) (heap st').
Proof.
  apply (readFile_error_paths (read_error_world [97; 98; 99]%Z) demo_state
           (Some "f"%string) 0 1 0).
  apply (fail_read (read_error_world [97; 98; 99]%Z) demo_state 0 1 0
           "f"%string [97; 98; 99]%Z 5%positive);
    first [reflexivity | left; reflexivity | discriminate].
Defined.

(** ** C8: the empty file *)

(** C8. Where malloc(0) returns NULL, which the C standard allows
    (7.22.3), readFile takes the NULL of a request that succeeded for a
    failure nobody reported: on an empty file, in binary mode and without a
    terminator, every library call succeeds and readFile returns NULL with
    *length 0 and errno as it was on entry, so that the caller is told
    neither of a buffer nor of an error. *)
Theorem readFile_empty_malloc0_null (w : world) (st : state) (name : string)
    (maxSize : Z) :
  fopen_r w name = Ok [] ->
  fseek_r w = Ok tt ->
  fclose_r w = Ok tt ->
  malloc_r w (allocs st) = Ok tt ->
  malloc0_null w = true ->
  (0 <= maxSize)%Z ->
  ∃ st',
    readFile w (Some name) 0 0 maxSize st = Some (NULL, 0, st')
    ∧ errno st' = errno st
    ∧ heap st' = heap st.
Proof.
  intros Hopen Hseek Hclose Hmalloc Hnull Hmax.
  rewrite (readFile_opened w st name [] 0 0 maxSize Hopen).
  cbn [Z.eqb]. change (allowance 0 0) with 0%Z.
  assert (Hw : wrap (ftell [] + 0) = 0%Z) by reflexivity.
  rewrite (readFile_stream_sized w _ _ _ _ _ _ Hseek)
    by (rewrite Hw; apply orb_true_iff;
        destruct (Z.eqb_spec maxSize 0); [left; reflexivity|right; lia]).
  rewrite Hw. unfold malloc_chars, malloc. cbn [allocs with_errno].
  rewrite Hmalloc, Hnull. cbn [Z.eqb andb].
  unfold fclose. rewrite Hclose. unfold ret at 1.
  unfold epilogue, bind, get_errno, set_errno, ret.
  cbn [errno tick with_errno Z.eqb].
  eexists. split; [reflexivity|]. split; reflexivity.
Qed.

Lemma readFile_empty_malloc0_null_witness :
  ∃ st',
    readFile (malloc0_world []) (Some "f"%string) 0 0 0 demo_state
    = Some (NULL, 0, st')
    ∧ errno st' = errno demo_state
    ∧ heap st' = heap demo_state.
Proof.
  apply (readFile_empty_malloc0_null (malloc0_world []) demo_state "f"%string 0).
  - reflexivity.
  - reflexivity.
  - reflexivity.
  - reflexivity.
  - reflexivity.
  - discriminate.
Defined.

(** Where the claim holds.  For every zero-length file whose stream calls
    succeed, when a terminator is asked for (the request is for one byte),
    or when malloc(0) returns a pointer, and the allocation succeeds,
    readFile returns a live buffer, which free accepts, with *length 0 and
    errno unchanged. *)
Theorem readFile_empty_file (w : world) (st : state) (name : string)
    (textMode terminate maxSize : Z) :
  io_ok w name [] ->
  malloc_r w (allocs st) = Ok tt ->
  (0 <= maxSize)%Z ->
  (terminate ≠ 0%Z ∨ textMode ≠ 0%Z ∨ malloc0_null w = false) ->
  ∃ b st' st'',
    readFile w (Some name) textMode terminate maxSize st = Some (Ptr b 0, 0, st')
    ∧ errno st' = errno st
    ∧ free (Ptr b 0) st' = Some (tt, st'').
Proof.
  intros Hio Hm Hmax Hreq.
  pose proof (allowance_range textMode terminate) as Ht01.
  destruct (readFile_ok w st name [] textMode terminate maxSize Hio Hm)
    as (b & data & st' & Hrun & Hb & _ & _ & He & _).
  { simpl. discriminate. }
  { simpl. destruct (Z.eqb_spec maxSize 0) as [->|Hnz]; [left; reflexivity|].
    right. lia. }
  { unfold allowance. simpl.
    destruct (Z.eqb_spec textMode 0) as [Htm|Htm]; [|right; lia].
    destruct (Z.eqb_spec terminate 0) as [Hte|Hte]; [|right; lia].
    destruct Hreq as [H|[H|H]]; [contradiction|contradiction|left; exact H]. }
  assert (Hout : mode_content textMode [] = []).
  { unfold mode_content. destruct (textMode =? 0)%Z; reflexivity. }
  rewrite Hout in Hrun. simpl in Hrun.
  exists b, st'. eexists. split; [exact Hrun|]. split; [exact He|].
  unfold free. rewrite Hb. reflexivity.
Qed.

Lemma readFile_empty_file_witness :
  ∃ b st' st'',
    readFile (demo_world []) (Some "f"%string) 0 0 0 demo_state
    = Some (Ptr b 0, 0, st')
    ∧ errno st' = errno demo_state
    ∧ free (Ptr b 0) st' = Some (tt, st'').
Proof.
  apply (readFile_empty_file (demo_world []) demo_state "f"%string 0 0 0).
  - repeat split.
  - reflexivity.
  - discriminate.
  - right. right. reflexivity.
Defined.

(** * Lines as strings *)

Section LinesFacts.

Lemma split_lines_nil (text : list Z) : split_lines text = [] -> text = [].
Proof.
  destruct text as [|x text]; [reflexivity|]. cbn [split_lines].
  destruct (x =? LF)%Z; [discriminate|].
  destruct (split_lines text); discriminate.
Qed.

Lemma split_lines_join (text : list Z) :
  concat (map (λ s, s ++ [LF]) (split_lines text)) = text ++ final_lf text.
Proof.
  unfold final_lf. induction text as [|x text IH]; [reflexivity|].
  assert (Hends : ends_lf (x :: text)
                  = match text with [] => (x =? LF)%Z | _ :: _ => ends_lf text end)
    by (destruct text; reflexivity).
  cbn [split_lines]. rewrite Hends.
  destruct (Z.eqb_spec x LF) as [->|Hne].
  - cbn [map concat app]. rewrite IH. f_equal.
    destruct text; [reflexivity|]. destruct (ends_lf _); reflexivity.
  - destruct (split_lines text) as [|line lines] eqn:Hs.
    + apply split_lines_nil in Hs. subst text. reflexivity.
    + cbn [map concat app] in IH |- *. rewrite IH. f_equal.
      destruct text; [discriminate|]. destruct (ends_lf _); reflexivity.
Qed.

Lemma split_lines_length (text : list Z) :
  length (split_lines text) = line_count text.
Proof.
  unfold line_count, count_lf. induction text as [|x text IH]; [reflexivity|].
  assert (Hends : ends_lf (x :: text)
                  = match text with [] => (x =? LF)%Z | _ :: _ => ends_lf text end)
    by (destruct text; reflexivity).
  cbn [split_lines]. rewrite Hends.
  destruct (Z.eqb_spec x LF) as [->|Hne].
  - rewrite filter_cons_True by reflexivity. cbn [length]. rewrite IH.
    destruct text; [reflexivity|]. destruct (ends_lf _); lia.
  - rewrite filter_cons_False by exact Hne.
    destruct (split_lines text) as [|line lines] eqn:Hs.
    + apply split_lines_nil in Hs. subst text. reflexivity.
    + cbn [length] in IH |- *. rewrite IH.
      destruct text; [discriminate|]. destruct (ends_lf _); lia.
Qed.

(** A char of a line is a char of the text, and no line feed. *)
Lemma split_lines_chars (text : list Z) :
  ∀ line x, line ∈ split_lines text -> x ∈ line -> x ∈ text ∧ x ≠ LF.
Proof.
  induction text as [|y text IH]; intros line x Hl Hx; [inversion Hl|].
  cbn [split_lines] in Hl. destruct (Z.eqb_spec y LF) as [->|Hne].
  - apply elem_of_cons in Hl as [->|Hl]; [inversion Hx|].
    destruct (IH line x Hl Hx) as [H1 H2]. split; [right; exact H1|exact H2].
  - destruct (split_lines text) as [|line0 lines] eqn:Hs.
    + apply list_elem_of_singleton in Hl. subst line.
      apply list_elem_of_singleton in Hx. subst x. split; [left|exact Hne].
    + apply elem_of_cons in Hl as [->|Hl].
      * apply elem_of_cons in Hx as [->|Hx]; [split; [left|exact Hne]|].
        destruct (IH line0 x ltac:(left) Hx) as [H1 H2].
        split; [right; exact H1|exact H2].
      * destruct (IH line x ltac:(right; exact Hl) Hx) as [H1 H2].
        split; [right; exact H1|exact H2].
Qed.

Lemma cut_lines_cons (x : Z) (l : list Z) :
  cut_lines (x :: l) = (if (x =? LF)%Z then NUL else x) :: cut_lines l.
Proof. reflexivity. Qed.

Lemma drop_pre (pre l : list Z) : drop (length pre) (pre ++ l) = l.
Proof. apply drop_app_length. Qed.

(** The strings at the line starts of a buffer whose line feeds have been
    cut are the lines of the text. *)
Lemma c_strings_split (suf : list Z) :
  ∀ pre rest : list Z,
    no_nul suf -> suf ≠ [] ->
    map (λ o, c_string (drop o (pre ++ cut_lines suf ++ 0%Z :: rest)))
        (length pre :: line_starts (length pre) suf)
    = map Some (split_lines suf).
Proof.
  induction suf as [|x suf IH]; intros pre rest Hnn Hne; [contradiction|].
  apply Forall_cons in Hnn as [Hx Hnn].
  assert (Hstep : ∀ y : Z, pre ++ y :: cut_lines suf ++ 0%Z :: rest
                           = (pre ++ [y]) ++ cut_lines suf ++ 0%Z :: rest)
    by (intros y; rewrite <- app_assoc; reflexivity).
  assert (Hlen : ∀ y : Z, S (length pre) = length (pre ++ [y]))
    by (intros y; rewrite length_app; simpl; lia).
  cbn [map split_lines]. rewrite cut_lines_cons. cbn [app]. rewrite drop_pre.
  destruct (Z.eqb_spec x LF) as [->|Hlf].
  - unfold NUL. cbn [c_string Z.eqb]. destruct suf as [|y suf].
    + reflexivity.
    + rewrite line_starts_lf. cbn [map]. f_equal.
      rewrite (Hstep 0%Z), (Hlen 0%Z).
      apply (IH (pre ++ [0%Z]) rest Hnn). discriminate.
  - rewrite (line_starts_other _ _ _ Hlf). cbn [c_string].
    destruct (Z.eqb_spec x 0); [contradiction|].
    destruct suf as [|y suf].
    + reflexivity.
    + specialize (IH (pre ++ [x]) rest Hnn ltac:(discriminate)).
      cbn [map] in IH. rewrite drop_pre in IH.
      rewrite <- (Hlen x), <- (Hstep x) in IH.
      destruct (split_lines (y :: suf)) as [|line lines] eqn:Hs;
        [apply split_lines_nil in Hs; discriminate|].
      cbn [map] in IH |- *. injection IH as Hhead Htail.
      assert (Hh : c_string (cut_lines (y :: suf) ++ 0%Z :: rest) = Some line)
        by exact Hhead.
      rewrite Hh. cbn [fmap option_fmap option_map]. f_equal. exact Htail.
Qed.

End LinesFacts.

(** * Further properties of readFile *)

(** X1. In binary mode readFile returns the file's bytes as they are,
    NULs and carriage returns included: *length is the file's size, the
    buffer starts with the file's content and, when a terminator is asked
    for, holds NUL right after it. *)
Theorem readFile_binary_exact (w : world) (st : state) (name : string)
    (content : list Z) (terminate maxSize : Z) :
  io_ok w name content ->
  malloc_r w (allocs st) = Ok tt ->
  (Z.of_nat (length content) <= LONG_MAX)%Z ->
  (maxSize = 0
   ∨ Z.of_nat (length content) + allowance 0 terminate <= maxSize)%Z ->
  (malloc0_null w = false
   ∨ 0 < Z.of_nat (length content) + allowance 0 terminate)%Z ->
  ∃ b data st',
    readFile w (Some name) 0 terminate maxSize st
    = Some (Ptr b 0, length content, st')
    ∧ heap st' !! b = Some (Chars data)
    ∧ take (length content) data = content
    ∧ (terminate ≠ 0%Z -> data !! length content = Some NUL)
    ∧ errno st' = errno st.
Proof.
  intros Hio Hm Hsize Hmax Hnull.
  destruct (readFile_ok w st name content 0 terminate maxSize Hio Hm Hsize Hmax Hnull)
    as (b & data & st' & Hrun & Hb & Htake & Hnul & He & _).
  exists b, data, st'. repeat split; auto.
  intros Ht. apply Hnul. unfold allowance. simpl.
  destruct (Z.eqb_spec terminate 0); [contradiction|reflexivity].
Qed.

Lemma readFile_binary_exact_witness :
  ∃ b data st',
    readFile (demo_world [97; 0; 13; 10]%Z) (Some "f"%string) 0 1 0 demo_state
    = Some (Ptr b 0, 4, st')
    ∧ heap st' !! b = Some (Chars data)
    ∧ take 4 data = [97; 0; 13; 10]%Z
    ∧ (1%Z ≠ 0%Z -> data !! 4 = Some NUL)
    ∧ errno st' = errno demo_state.
Proof.
  apply (readFile_binary_exact (demo_world [97; 0; 13; 10]%Z) demo_state
           "f"%string [97; 0; 13; 10]%Z 1 0).
  - repeat split.
  - reflexivity.
  - discriminate.
  - left. reflexivity.
  - left. reflexivity.
Defined.

Lemma strip_cr_without_cr (l : list Z) : CR ∉ l -> strip_cr l = l.
Proof.
  unfold strip_cr. induction l as [|x l IH]; intros H; [reflexivity|].
  apply not_elem_of_cons in H as [Hx Hl].
  rewrite filter_cons_True by (intros E; apply Hx; symmetry; exact E).
  rewrite IH by exact Hl. reflexivity.
Qed.

Lemma strchr_str_first_cr (pre post tail : list Z) :
  CR ∉ pre ->
  strchr_str (pre ++ CR :: post ++ tail) CR
  = if decide (NUL ∈ pre) then None else Some (length pre).
Proof.
  induction pre as [|x pre IH]; intros Hcr.
  - simpl. destruct (decide (NUL ∈ [])) as [H|_]; [inversion H|reflexivity].
  - apply not_elem_of_cons in Hcr as [Hx Hcr]. specialize (IH Hcr).
    cbn [app strchr_str]. destruct (Z.eqb_spec x CR); [congruence|].
    destruct (Z.eqb_spec x 0) as [->|Hz].
    + destruct (decide (NUL ∈ 0%Z :: pre)) as [_|H]; [reflexivity|].
      exfalso. apply H. left.
    + rewrite IH. destruct (decide (NUL ∈ pre)) as [Hin|Hin].
      * destruct (decide (NUL ∈ x :: pre)) as [_|H]; [reflexivity|].
        exfalso. apply H. right. exact Hin.
      * destruct (decide (NUL ∈ x :: pre)) as [H|_]; [|reflexivity].
        apply elem_of_cons in H as [H|H]; [unfold NUL in H; congruence|contradiction].
Qed.

(** X2. What text mode returns is decided by the chars before the first
    carriage return: with no NUL among them, every carriage return of the
    file is taken out, NULs after the first one notwithstanding; with a NUL
    among them, the file's chars are returned as they are. *)
Theorem readFile_text_mode_first_cr (w : world) (st : state) (name : string)
    (pre post : list Z) (terminate maxSize : Z) :
  io_ok w name (pre ++ CR :: post) ->
  malloc_r w (allocs st) = Ok tt ->
  (Z.of_nat (length (pre ++ CR :: post)) <= LONG_MAX)%Z ->
  (maxSize = 0 ∨ Z.of_nat (length (pre ++ CR :: post)) + 1 <= maxSize)%Z ->
  CR ∉ pre ->
  let out := if decide (NUL ∈ pre) then pre ++ CR :: post
             else pre ++ strip_cr post in
  ∃ b data st',
    readFile w (Some name) 1 terminate maxSize st
    = Some (Ptr b 0, length out, st')
    ∧ heap st' !! b = Some (Chars data)
    ∧ take (length out) data = out
    ∧ data !! length out = Some NUL.
Proof.
  intros Hio Hm Hsize Hmax Hcr out.
  destruct (readFile_ok w st name (pre ++ CR :: post) 1 terminate maxSize
              Hio Hm Hsize)
    as (b & data & st' & Hrun & Hb & Htake & Hnul & _).
  { exact Hmax. }
  { right. unfold allowance. simpl. lia. }
  assert (Hout : mode_content 1 (pre ++ CR :: post) = out).
  { unfold mode_content, text_mode_content. simpl.
    rewrite <- app_assoc. cbn [app].
    rewrite (strchr_str_first_cr pre post [NUL] Hcr). subst out.
    destruct (decide (NUL ∈ pre)); [reflexivity|].
    unfold strip_cr. rewrite filter_app.
    rewrite filter_cons_False by (intros H; apply H; reflexivity).
    f_equal. apply (strip_cr_without_cr pre Hcr). }
  rewrite Hout in Hrun, Htake, Hnul.
  exists b, data, st'. repeat split; auto.
Qed.

Lemma readFile_text_mode_first_cr_witness :
  ∃ b data st',
    readFile (demo_world [97; 13; 10; 0; 13; 98]%Z) (Some "f"%string) 1 0 0
      demo_state
    = Some (Ptr b 0, 4, st')
    ∧ heap st' !! b = Some (Chars data)
    ∧ take 4 data = [97; 10; 0; 98]%Z
    ∧ data !! 4 = Some NUL.
Proof.
  apply (readFile_text_mode_first_cr (demo_world [97; 13; 10; 0; 13; 98]%Z)
           demo_state "f"%string [97]%Z [10; 0; 13; 98]%Z 0 0).
  - repeat split.
  - reflexivity.
  - discriminate.
  - left. reflexivity.
  - intros H. apply list_elem_of_singleton in H. discriminate.
Defined.



(** * NULL results *)

Section NullResults.
Variable w : world.

Lemma malloc_null_inv (mk : Z -> block) (sz : Z) (st st1 : state) :
  malloc w mk sz st = Some (NULL, st1) -> malloc0_null w = false ->
  errno st1 ≠ 0%Z ∧ heap st1 = heap st.
Proof.
  unfold malloc. intros H H0. rewrite H0, andb_false_r in H.
  destruct (malloc_r w (allocs st)) as [[]|e]; [discriminate|].
  apply bind_inv in H as (u & st2 & (Hh & _ & He)%lib_fail_inv & [_ ->]%ret_inv).
  auto.
Qed.

Lemma readFile_stream_null (st st' : state) (content : list Z)
    (textMode terminate t maxSize : Z) (n : nat) :
  readFile_stream w content textMode terminate t maxSize st
  = Some (NULL, n, st') ->
  errno st = 0%Z ->
  t = (if (terminate =? 0)%Z then 0%Z else 1%Z) ->
  (textMode ≠ 0%Z -> terminate ≠ 0%Z) ->
  malloc0_null w = false ->
  errno st' ≠ 0%Z.
Proof.
  intros H He Ht Htext H0. unfold readFile_stream in H.
  apply bind_inv in H as (seeked & st1 & Hseek & H).
  apply bind_inv in H as ([buf0 n0] & st2 & Hbody & H).
  apply bind_inv in H as (u & st3 & [Hh3 He3]%fclose_inv & [[= <- ->] ->]%ret_inv).
  assert (He2 : errno st2 ≠ 0%Z); [|destruct He3 as [->|]; assumption].
  unfold fseek_end in Hseek. destruct (fseek_r w) as [[]|e].
  2: { apply bind_inv in Hseek as (u' & st0 & (_ & _ & He0)%lib_fail_inv
                                     & [-> ->]%ret_inv).
       apply ret_inv in Hbody as [_ ->]. exact He0. }
  apply ret_inv in Hseek as [-> ->].
  destruct ((maxSize =? 0)%Z || (wrap (ftell content + t) <=? maxSize)%Z).
  2: { apply bind_inv in Hbody as (u' & st0 & ->%set_errno_inv & [_ ->]%ret_inv).
       discriminate. }
  apply bind_inv in Hbody as (p & st0 & Hm & Hbody).
  destruct p as [|b o].
  - apply malloc_null_inv in Hm as [Hne _]; [|exact H0].
    apply ret_inv in Hbody as [_ ->]. exact Hne.
  - apply malloc_inv in Hm as [([=] & _)|([= -> ->] & Hh0 & He0)].
    rewrite He in He0.
    assert (Hhold : holds_buf (heap st) (heap st0) (length (heap st))
                      (fresh_chars w 0 (Z.to_nat (wrap (ftell content + t)))))
      by (rewrite Hh0; apply holds_buf_alloc).
    destruct (readFile_fill_inv w _ _ _ _ _ _ _ _ _ _ _ _ Hbody Hhold He0 Ht Htext)
      as (b' & [=] & _).
    apply wrap_range.
Qed.

Lemma readFile_null_errno (fileName : option string)
    (textMode terminate maxSize : Z) (st st' : state) (n : nat) :
  readFile w fileName textMode terminate maxSize st = Some (NULL, n, st') ->
  malloc0_null w = false ->
  errno st' ≠ 0%Z.
Proof.
  intros H H0. unfold readFile in H.
  apply bind_inv in H as (e & st0 & [-> ->]%get_errno_inv & H).
  apply bind_inv in H as ([buf0 n0] & st1 & Hbody & H).
  apply epilogue_inv in H
    as [(Hz & <- & _ & ->)|(Hnz & _ & _ & He & _)]; [|congruence].
  exfalso. destruct fileName as [name|].
  2: { apply bind_inv in Hbody as (u & st2 & ->%set_errno_inv & [_ ->]%ret_inv).
       discriminate. }
  apply bind_inv in Hbody as (u & st2 & ->%set_errno_inv & Hbody).
  apply bind_inv in Hbody as (in_ & st3 & Hopen & Hbody).
  unfold fopen in Hopen. destruct (fopen_r w name) as [content|e].
  2: { apply bind_inv in Hopen as (u' & st4 & (_ & _ & He)%lib_fail_inv
                                     & [-> ->]%ret_inv).
       apply ret_inv in Hbody as [_ ->]. contradiction. }
  apply ret_inv in Hopen as [-> ->].
  apply readFile_stream_null in Hbody; auto.
  intros Hnz. destruct (Z.eqb_spec textMode 0); [contradiction|].
  unfold TRUE. lia.
Qed.

End NullResults.

(** X4. Where malloc(0) returns a pointer, readFile never returns NULL
    without an error: whenever it returns NULL, *length is 0, errno is not
    zero and no block allocated during the call is live. *)
Theorem readFile_null_is_error (w : world) (fileName : option string)
    (textMode terminate maxSize : Z) (st st' : state) (n : nat) :
  readFile w fileName textMode terminate maxSize st = Some (NULL, n, st') ->
  malloc0_null w = false ->
  n = 0 ∧ errno st' ≠ 0%Z ∧ all_released (heap st) (heap st').
Proof.
  intros H H0. pose proof (readFile_null_errno w _ _ _ _ _ _ _ H H0) as He.
  apply readFile_inv_all in H as [Hn Hrel]. auto.
Qed.

Lemma readFile_null_is_error_witness :
  ∃ st',
    readFile (read_error_world [97; 98; 99]%Z) (Some "f"%string) 1 0 0 demo_state
    = Some (NULL, 0, st')
    ∧ errno st' ≠ 0%Z ∧ all_released (heap demo_state) (heap st').
Proof.
  pose (st' := {| errno := 5; allocs := 1; heap := [Chars [120%Z]; Freed] |}).
  assert (H : readFile (read_error_world [97; 98; 99]%Z) (Some "f"%string)
                1 0 0 demo_state
              = Some (NULL, 0, st'))
    by (vm_compute; reflexivity).
  destruct (readFile_null_is_error (read_error_world [97; 98; 99]%Z)
              (Some "f"%string) 1 0 0 demo_state st' 0 H eq_refl)
    as (_ & He & Hrel).
  exists st'. repeat split; assumption.
Defined.

(** * Further properties of readLines *)

Section ReadLinesMore.
Variable w : world.

(** readLines once readFile has returned. *)
Lemma readLines_after_readFile (fileName : option string) (maxSize : Z)
    (st st1 : state) (buf : ptr) (len : nat) :
  readFile w fileName 1 1 maxSize (with_errno 0 st) = Some (buf, len, st1) ->
  readLines w fileName maxSize st
  = match readLines_split w buf len maxSize st1 with
    | Some (lines, buf', lnCnt, st2) =>
      match epilogue (errno st) buf' lnCnt st2 with
      | Some (_, lnCnt', st3) => Some (lines, lnCnt', st3)
      | None => None
      end
    | None => None
    end.
Proof.
  intros H. unfold readLines, bind, get_errno, set_errno. rewrite H.
  destruct (readLines_split w buf len maxSize st1)
    as [[[[lines buf'] lnCnt] st2]|]; [|reflexivity].
  destruct (epilogue (errno st) buf' lnCnt st2) as [[[b' n'] st3]|]; reflexivity.
Qed.

Lemma readLines_split_null (h0 : list block) (b len : nat) (d : list Z)
    (maxSize : Z) (buf' : ptr) (lnCnt : nat) (st st' : state) :
  readLines_split w (Ptr b 0) len maxSize st = Some (NULL, buf', lnCnt, st') ->
  holds_buf h0 (heap st) b d -> malloc0_null w = false ->
  buf' = Ptr b 0 ∧ errno st' ≠ 0%Z ∧ heap st' = heap st.
Proof.
  intros H Hh H0. unfold readLines_split in H.
  apply bind_inv in H as (d0 & st0 & [_ ->]%read_chars_inv & H).
  apply bind_inv in H as (c0 & st0 & [_ ->]%lift_inv & H).
  apply bind_inv in H as (c1 & st0 & [_ ->]%lift_inv & H).
  destruct ((maxSize =? 0)%Z || _).
  2: { apply bind_inv in H as (u & st0 & ->%set_errno_inv & [[= -> _] ->]%ret_inv).
       repeat split. discriminate. }
  apply bind_inv in H as (p & st1 & Hm & H).
  destruct p as [|lb o].
  - apply malloc_null_inv in Hm as [Hne Hheap]; [|exact H0].
    apply ret_inv in H as [[= -> _] ->]. auto.
  - apply bind_inv in H as (buf0 & st2 & _ & [[=] _]%ret_inv).
Qed.

End ReadLinesMore.

(** Every way readLines can return NULL. *)
Lemma readLines_null_inv (w : world) (fileName : option string)
    (maxSize : Z) (st st' : state) (n : nat) :
  readLines w fileName maxSize st = Some (NULL, n, st') ->
  malloc0_null w = false ->
  n = 0 ∧ errno st' ≠ 0%Z ∧ all_released (heap st) (heap st').
Proof.
  intros H H0.
  destruct (readFile w fileName 1 1 maxSize (with_errno 0 st))
    as [[[buf len] st1]|] eqn:Hrf.
  2: { unfold readLines, bind, get_errno, set_errno in H. rewrite Hrf in H.
       discriminate. }
  rewrite (readLines_after_readFile w _ _ _ _ _ _ Hrf) in H.
  destruct (readLines_split w buf len maxSize st1)
    as [[[[lines buf'] lnCnt] st2]|] eqn:Hsplit; [|discriminate].
  destruct (epilogue (errno st) buf' lnCnt st2) as [[[b' n'] st3]|] eqn:Hep;
    [|discriminate].
  injection H as -> -> ->.
  destruct buf as [|b o].
  - pose proof (readFile_null_errno w _ _ _ _ _ _ _ Hrf H0) as He1.
    apply readFile_inv_all in Hrf as [_ Hrel]. cbn [heap with_errno] in Hrel.
    apply ret_inv in Hsplit as [[= -> ->] ->].
    apply epilogue_inv in Hep
      as [(Hz & _)|(_ & _ & -> & He & Hfree)]; [contradiction|].
    injection Hfree as <-. auto.
  - apply readFile_inv in Hrf; [|right; left; reflexivity].
    destruct Hrf as (-> & He1 & name & content & d & _ & _ & _ & Hh & _).
    cbn [heap errno with_errno] in Hh, He1.
    destruct (readLines_split_null w _ _ _ _ _ _ _ _ _ Hsplit Hh H0)
      as (-> & He2 & Hheap).
    apply epilogue_inv in Hep
      as [(Hz & _)|(_ & _ & -> & He & Hfree)]; [contradiction|].
    split; [reflexivity|]. split; [congruence|].
    unfold free in Hfree. rewrite Hheap, (holds_buf_lookup _ _ _ _ Hh) in Hfree.
    injection Hfree as <-. cbn [heap with_heap].
    apply (holds_buf_free _ _ _ _ Hh).
Qed.

(** X5. When the file cannot be opened readLines returns NULL with
    *lineCount 0 and errno holding the error fopen left; nothing has been
    allocated and nothing else has changed. *)
Theorem readLines_open_failure (w : world) (st : state) (name : string)
    (maxSize : Z) (e : positive) :
  fopen_r w name = Fail e ->
  readLines w (Some name) maxSize st = Some (NULL, 0, with_errno (Z.pos e) st).
Proof.
  intros Hopen.
  assert (H : readFile w (Some name) 1 1 maxSize (with_errno 0 st)
              = Some (NULL, 0, with_errno (Z.pos e) st)).
  { unfold readFile, fopen. rewrite Hopen. reflexivity. }
  rewrite (readLines_after_readFile w _ _ _ _ _ _ H). reflexivity.
Qed.

Lemma readLines_open_failure_witness :
  readLines
    {| char_signed := true; malloc0_null := false; junk_char := λ _, 85%Z;
       junk_ptr := NULL; fopen_r := λ _, Fail 2%positive; fseek_r := Ok tt;
       fread_r := Ok tt; fread_short := None; fclose_r := Ok tt;
       malloc_r := λ _, Ok tt; realloc_r := λ _, Ok false;
       realloc0_frees := false |}
    (Some "missing"%string) 0 demo_state
  = Some (NULL, 0, with_errno 2 demo_state).
Proof.
  apply (readLines_open_failure _ demo_state "missing"%string 0 2%positive).
  reflexivity.
Defined.

(** X6. Where malloc(0) returns a pointer, readLines never returns NULL
    without an error: whenever it returns NULL, *lineCount is 0, errno is
    not zero and no block allocated during the call is live, the content
    buffer included. *)
Theorem readLines_null_is_error (w : world) (fileName : option string)
    (maxSize : Z) (st st' : state) (n : nat) :
  readLines w fileName maxSize st = Some (NULL, n, st') ->
  malloc0_null w = false ->
  n = 0 ∧ errno st' ≠ 0%Z ∧ all_released (heap st) (heap st').
Proof. apply readLines_null_inv. Qed.

Lemma readLines_null_is_error_witness :
  ∃ st',
    readLines (demo_world [97; 10; 98]%Z) (Some "f"%string) 20 demo_state
    = Some (NULL, 0, st')
    ∧ errno st' ≠ 0%Z ∧ all_released (heap demo_state) (heap st').
Proof.
  pose (st' := {| errno := EFBIG; allocs := 1; heap := [Chars [120%Z]; Freed] |}).
  assert (H : readLines (demo_world [97; 10; 98]%Z) (Some "f"%string) 20
                demo_state
              = Some (NULL, 0, st'))
    by (vm_compute; reflexivity).
  destruct (readLines_null_is_error (demo_world [97; 10; 98]%Z)
              (Some "f"%string) 20 demo_state st' 0 H eq_refl)
    as (_ & He & Hrel).
  exists st'. repeat split; assumption.
Defined.

(** X7. readLines applies maxSize a second time, to the table of line
    pointers plus the text and its terminator: a NUL-free file that readFile
    accepts but whose table and text together exceed a non-zero maxSize
    makes readLines return NULL with *lineCount 0 and errno EFBIG, and
    the content buffer is released: no block allocated during the call is
    live. *)
Theorem readLines_table_size_limit (w : world) (st : state) (name : string)
    (content : list Z) (maxSize : Z) :
  io_ok w name content ->
  malloc_r w (allocs st) = Ok tt ->
  no_nul content ->
  (Z.of_nat (length content) < FILE_MAX)%Z ->
  (Z.of_nat (length content) + 1 <= maxSize)%Z ->
  (maxSize < (Z.of_nat (line_count (strip_cr content)) + 1) * PTR_SIZE
             + Z.of_nat (length (strip_cr content)) + 1)%Z ->
  ∃ st',
    readLines w (Some name) maxSize st = Some (NULL, 0, st')
    ∧ errno st' = EFBIG
    ∧ all_released (heap st) (heap st').
Proof.
  intros Hio Hmalloc Hnn Hsize Hfit Hbig.
  set (text := strip_cr content) in *.
  assert (HF : FILE_MAX = 1152921504606846976%Z) by reflexivity.
  assert (HS : SIZE_MAX = 18446744073709551615%Z) by reflexivity.
  assert (HL : LONG_MAX = 9223372036854775807%Z) by reflexivity.
  assert (Htl : length text ≤ length content) by apply strip_cr_length.
  pose proof (line_count_le text) as Hlc.
  destruct (readFile_ok w (with_errno 0 st) name content 1 1 maxSize Hio)
    as (b & data & st1 & Hrun1 & Hb1 & Htake1 & Hnul1 & He1 & Hh1).
  { exact Hmalloc. }
  { lia. }
  { right. exact Hfit. }
  { right. unfold allowance. simpl. lia. }
  unfold mode_content in Hrun1, Htake1, Hnul1. cbn [Z.eqb] in Hrun1, Htake1, Hnul1.
  rewrite (text_mode_content_no_nul _ Hnn) in Hrun1, Htake1, Hnul1.
  fold text in Hrun1, Htake1, Hnul1. specialize (Hnul1 eq_refl).
  cbn [errno with_errno] in He1.
  rewrite (readLines_after_readFile w _ _ _ _ _ _ Hrun1).
  pose proof (buffer_split _ _ _ Htake1 Hnul1) as Hdata.
  set (rest := drop (S (length text)) data) in Hdata.
  apply readFile_inv in Hrun1; [|right; left; reflexivity].
  destruct Hrun1 as (_ & _ & name' & content' & d & _ & _ & _ & Hh & _).
  cbn [heap with_errno] in Hh.
  pose proof (holds_buf_lookup _ _ _ _ Hh) as Hb1'.
  assert (d = data) by congruence. subst d. clear Hb1'.
  rewrite Hdata in Hb1.
  unfold readLines_split.
  unfold bind at 1. unfold bind at 1.
  rewrite (read_chars_run _ _ _ Hb1).
  unfold bind at 1. unfold lift at 1. rewrite first_count.
  unfold bind at 1. unfold lift at 1.
  pose proof (count_loop_spec w text [] rest
                (if ends_lf text then 0 else match text with [] => 0 | _ :: _ => 1 end)
                (S (length (text ++ 0%Z :: rest))) (no_nul_strip_cr _ Hnn)) as Hcnt.
  cbn [app length] in Hcnt.
  rewrite Hcnt by (rewrite length_app; simpl; lia). clear Hcnt.
  rewrite (Nat.add_comm _ (count_lf text)). fold (line_count text).
  rewrite (wrap_small ((Z.of_nat (line_count text) + 1) * PTR_SIZE))
    by (unfold PTR_SIZE; lia).
  rewrite (wrap_small ((Z.of_nat (line_count text) + 1) * PTR_SIZE
                       + Z.of_nat (length text)))
    by (unfold PTR_SIZE; lia).
  rewrite (wrap_small ((Z.of_nat (line_count text) + 1) * PTR_SIZE
                       + Z.of_nat (length text) + 1))
    by (unfold PTR_SIZE; lia).
  assert (Hchk : (maxSize =? 0)%Z
                 || ((Z.of_nat (line_count text) + 1) * PTR_SIZE
                     + Z.of_nat (length text) + 1 <=? maxSize)%Z = false).
  { apply orb_false_iff. split; [apply Z.eqb_neq|apply Z.leb_gt]; lia. }
  rewrite Hchk.
  unfold epilogue, get_errno, free, set_errno, ret, bind.
  cbn [errno heap with_errno with_heap]. unfold EFBIG at 1. cbn [Z.eqb].
  change (heap (with_errno EFBIG st1)) with (heap st1). rewrite Hb1.
  eexists. split; [reflexivity|]. split; [reflexivity|].
  cbn [heap with_heap with_errno]. apply (holds_buf_free _ _ _ _ Hh).
Qed.

Lemma readLines_table_size_limit_witness :
  ∃ st',
    readLines (demo_world [97; 10; 98]%Z) (Some "f"%string) 20 demo_state
    = Some (NULL, 0, st')
    ∧ errno st' = EFBIG
    ∧ all_released (heap demo_state) (heap st').
Proof.
  apply (readLines_table_size_limit (demo_world [97; 10; 98]%Z) demo_state
           "f"%string [97; 10; 98]%Z 20).
  - repeat split.
  - reflexivity.
  - repeat constructor; discriminate.
  - vm_compute. reflexivity.
  - vm_compute. discriminate.
  - vm_compute. reflexivity.
Defined.

Section TableStrings.

(** The strings a filled table points at are the lines of the text. *)
Lemma table_strings (h : list block) (b : nat) (text : list Z) :
  no_nul text ->
  match text with
  | [] => h !! b = Some Freed
  | _ :: _ => ∃ rest, h !! b = Some (Chars (cut_lines text ++ 0%Z :: rest))
  end ->
  map (string_at h) (map (Ptr b) (line_offsets text))
  = map Some (split_lines text).
Proof.
  intros Hnn Hb. rewrite map_map.
  destruct text as [|x text]; [reflexivity|].
  destruct Hb as [rest Hb]. unfold line_offsets.
  rewrite <- (c_strings_split (x :: text) [] rest Hnn); [|discriminate].
  apply map_ext. intros o. unfold string_at. rewrite Hb. reflexivity.
Qed.

End TableStrings.

(** X8. For a NUL-free file within the size limits and with every library
    call succeeding, the table readLines returns holds one pointer per line
    of the text (the content without its carriage returns, cut at the line
    feeds), in order and followed by NULL; the C string at each pointer is
    that line, and no line holds a line feed, a carriage return or a NUL. *)
Theorem readLines_strings (w : world) (st : state) (name : string)
    (content : list Z) (maxSize : Z) :
  io_ok w name content ->
  (∀ k, malloc_r w k = Ok tt) ->
  no_nul content ->
  (Z.of_nat (length content) < FILE_MAX)%Z ->
  (maxSize = 0
   ∨ (Z.of_nat (length content) + 1 <= maxSize
      ∧ (Z.of_nat (line_count (strip_cr content)) + 1) * PTR_SIZE
        + Z.of_nat (length (strip_cr content)) + 1 <= maxSize))%Z ->
  ∃ lb ps st',
    readLines w (Some name) maxSize st
    = Some (Ptr lb 0, length (split_lines (strip_cr content)), st')
    ∧ heap st' !! lb = Some (Ptrs (ps ++ [NULL]))
    ∧ map (string_at (heap st')) ps = map Some (split_lines (strip_cr content))
    ∧ (∀ line x, line ∈ split_lines (strip_cr content) -> x ∈ line ->
                 x ≠ LF ∧ x ≠ CR ∧ x ≠ NUL).
Proof.
  intros Hio Hmalloc Hnn Hsize Hmax.
  destruct (readLines_ok w st name content maxSize Hio Hmalloc Hnn Hsize Hmax)
    as (lb & b & st' & Hrun & Hlb & Hb & _ & _).
  exists lb, (map (Ptr b) (line_offsets (strip_cr content))), st'.
  rewrite split_lines_length. split; [exact Hrun|]. split; [exact Hlb|]. split.
  - apply table_strings; [apply no_nul_strip_cr; exact Hnn|exact Hb].
  - intros line x Hline Hx.
    destruct (split_lines_chars _ _ _ Hline Hx) as [Hin Hlf].
    apply list_elem_of_filter in Hin as [Hcr Hin].
    split; [exact Hlf|]. split; [exact Hcr|].
    unfold no_nul in Hnn. rewrite Forall_forall in Hnn. apply Hnn. exact Hin.
Qed.

Lemma readLines_strings_witness :
  ∃ lb ps st',
    readLines (demo_world [97; 13; 10; 98; 13; 10; 99]%Z) (Some "f"%string) 0
      demo_state
    = Some (Ptr lb 0, 3, st')
    ∧ heap st' !! lb = Some (Ptrs (ps ++ [NULL]))
    ∧ map (string_at (heap st')) ps = [Some [97]; Some [98]; Some [99]]%Z.
Proof.
  destruct (readLines_strings (demo_world [97; 13; 10; 98; 13; 10; 99]%Z)
              demo_state "f"%string [97; 13; 10; 98; 13; 10; 99]%Z 0)
    as (lb & ps & st' & Hrun & Hlb & Hs & _).
  - repeat split.
  - intros k. reflexivity.
  - repeat constructor; discriminate.
  - reflexivity.
  - left. reflexivity.
  - exists lb, ps, st'. repeat split; assumption.
Defined.

(** * The test program *)

Section MainFacts.

Lemma load_ptr_run (st : state) (lb i : nat) (tbl : list ptr) (p : ptr) :
  heap st !! lb = Some (Ptrs tbl) -> tbl !! i = Some p ->
  load_ptr lb i st = Some (p, st).
Proof.
  intros Hlb Hi. unfold load_ptr.
  rewrite (bind_run _ _ _ _ _ (read_ptrs_run _ _ _ Hlb)).
  unfold lift. rewrite Hi. reflexivity.
Qed.

Lemma lookup_pre_head_ptr (pre : list ptr) (x : ptr) (l : list ptr) :
  (pre ++ x :: l) !! length pre = Some x.
Proof. apply list_lookup_middle. reflexivity. Qed.

(** The printing loop walks the table up to its NULL entry and leaves the
    state alone. *)
Lemma print_loop_run (st : state) (lb : nat) (suf : list ptr) :
  ∀ (pre : list ptr) (lines : list (list Z)) (fuel : nat),
    heap st !! lb = Some (Ptrs (pre ++ suf ++ [NULL])) ->
    map (string_at (heap st)) suf = map Some lines ->
    length suf < fuel ->
    print_loop fuel lb (length pre) st = Some (map Line lines, st).
Proof.
  induction suf as [|p suf IH]; intros pre lines fuel Hlb Hs Hfuel;
    (destruct fuel as [|fuel]; [simpl in Hfuel; lia|]).
  - destruct lines; [|discriminate]. cbn [print_loop].
    rewrite (bind_run _ _ _ _ _ (load_ptr_run st lb _ _ NULL Hlb
                                   (lookup_pre_head_ptr pre NULL []))).
    reflexivity.
  - destruct lines as [|line lines]; [discriminate|]. cbn [map] in Hs.
    injection Hs as Hp Hs. cbn [print_loop].
    rewrite (bind_run _ _ _ _ _ (load_ptr_run st lb _ _ p Hlb
                                   (lookup_pre_head_ptr pre p (suf ++ [NULL])))).
    destruct p as [|b o]; [discriminate|]. unfold string_at in Hp.
    destruct (heap st !! b) as [[|d|]|] eqn:Hb; try discriminate.
    rewrite (bind_run _ _ _ _ _ (read_chars_run _ _ _ Hb)).
    unfold bind at 1. unfold lift at 1. rewrite Hp.
    replace (length pre + 1) with (length (pre ++ [Ptr b o]))
      by (rewrite length_app; reflexivity).
    rewrite (bind_run _ _ _ _ _
               (IH (pre ++ [Ptr b o]) lines fuel
                  ltac:(rewrite <- app_assoc; exact Hlb) Hs
                  ltac:(simpl in Hfuel; lia))).
    reflexivity.
Qed.

Lemma print_loop_inv (lb : nat) (fuel : nat) :
  ∀ (i : nat) (out : list event) (st st' : state),
    print_loop fuel lb i st = Some (out, st') ->
    st' = st ∧ ∃ lines, out = map Line lines.
Proof.
  induction fuel as [|fuel IH]; intros i out st st' H; [discriminate|].
  cbn [print_loop] in H.
  apply bind_inv in H as (p & st1 & Hp & H).
  unfold load_ptr in Hp.
  apply bind_inv in Hp as (tbl & st0 & [_ ->]%read_ptrs_inv & [_ ->]%lift_inv).
  destruct p as [|b o].
  - apply ret_inv in H as [-> ->]. split; [reflexivity|]. exists []. reflexivity.
  - apply bind_inv in H as (d & st0 & [_ ->]%read_chars_inv & H).
    apply bind_inv in H as (s & st0 & [_ ->]%lift_inv & H).
    apply bind_inv in H as (out' & st2 & Hrec & [-> ->]%ret_inv).
    destruct (IH _ _ _ _ Hrec) as [-> [lines ->]].
    split; [reflexivity|]. exists (s :: lines). reflexivity.
Qed.

Lemma to_long_small (x : Z) : (0 <= x < 2 ^ 63)%Z -> to_long x = x.
Proof.
  intros H. unfold to_long.
  change (2 ^ (SIZE_BITS - 1))%Z with 9223372036854775808%Z in *.
  change (2 ^ SIZE_BITS)%Z with 18446744073709551616%Z.
  change (2 ^ 63)%Z with 9223372036854775808%Z in H.
  rewrite Z.mod_small by lia. lia.
Qed.

Lemma stdout_of_lines (lines : list (list Z)) (n : Z) :
  stdout_of (map Line lines ++ [LineCount n])
  = concat (map (λ s, s ++ [LF]) lines).
Proof.
  unfold stdout_of. rewrite map_app, concat_app, map_map. cbn [map concat app].
  rewrite app_nil_r. reflexivity.
Qed.

End MainFacts.

(** X9. Run on a NUL-free file with every library call succeeding, the
    test program prints the lines of the text (the content without its
    carriage returns), then the line count on stderr, and exits with 0.
    What it writes to stdout is the text, completed by a line feed when the
    text is not empty and lacks a final one.  errno is left as it was and no
    block allocated during the run is live. *)
Theorem main_prints_lines (w : world) (st : state) (prog name : string)
    (content : list Z) :
  io_ok w name content ->
  (∀ k, malloc_r w k = Ok tt) ->
  no_nul content ->
  (Z.of_nat (length content) < FILE_MAX)%Z ->
  ∃ evs st',
    main w [prog; name] st = Some (0%Z, evs, st')
    ∧ evs = map Line (split_lines (strip_cr content))
            ++ [LineCount (Z.of_nat (line_count (strip_cr content)))]
    ∧ stdout_of evs = strip_cr content ++ final_lf (strip_cr content)
    ∧ errno st' = errno st
    ∧ all_released (heap st) (heap st').
Proof.
  intros Hio Hmalloc Hnn Hsize.
  set (text := strip_cr content).
  destruct (readLines_ok w st name content 0 Hio Hmalloc Hnn Hsize
              ltac:(left; reflexivity))
    as (lb & b & st1 & Hrun & Hlb & Hb & _ & _).
  fold text in Hrun, Hlb, Hb.
  destruct (readLines_inv w _ _ _ _ _ _ Hrun ltac:(discriminate)) as [He Hown].
  destruct (freeLines_table _ _ _ _ Hown) as (st2 & Hfree & Hrel & He2).
  pose proof (table_strings (heap st1) b text (no_nul_strip_cr _ Hnn) Hb) as Hs.
  assert (Hcnt : to_long (Z.of_nat (line_count text)) = Z.of_nat (line_count text)).
  { apply to_long_small. pose proof (line_count_le text) as Hlc.
    pose proof (strip_cr_length content) as Htl. fold text in Htl.
    assert (HF : FILE_MAX = 1152921504606846976%Z) by reflexivity.
    change (2 ^ 63)%Z with 9223372036854775808%Z. lia. }
  assert (Hfuel : length (map (Ptr b) (line_offsets text))
                  < S (length (map (Ptr b) (line_offsets text) ++ [NULL])))
    by (rewrite length_app; simpl; lia).
  exists (map Line (split_lines text) ++ [LineCount (Z.of_nat (line_count text))]),
         st2.
  split.
  - unfold main. cbn [length Nat.eqb negb lookup]. cbn [list_lookup].
    rewrite (bind_run _ _ _ _ _ Hrun).
    rewrite (bind_run _ _ _ _ _ (read_ptrs_run _ _ _ Hlb)).
    rewrite (bind_run _ _ _ _ _
               (print_loop_run st1 lb (map (Ptr b) (line_offsets text)) []
                  (split_lines text)
                  (S (length (map (Ptr b) (line_offsets text) ++ [NULL])))
                  Hlb Hs Hfuel)).
    rewrite (bind_run _ _ _ _ _ Hfree). rewrite Hcnt. reflexivity.
  - split; [reflexivity|]. split.
    + rewrite stdout_of_lines. apply split_lines_join.
    + split; [congruence|exact Hrel].
Qed.

Lemma main_prints_lines_witness :
  ∃ evs st',
    main (demo_world [97; 13; 10; 98; 13; 10; 99]%Z) ["prog"; "f"]%string
      demo_state
    = Some (0%Z, evs, st')
    ∧ evs = [Line [97]; Line [98]; Line [99]; LineCount 3]%Z
    ∧ stdout_of evs = [97; 10; 98; 10; 99; 10]%Z
    ∧ errno st' = errno demo_state
    ∧ all_released (heap demo_state) (heap st').
Proof.
  apply (main_prints_lines (demo_world [97; 13; 10; 98; 13; 10; 99]%Z)
           demo_state "prog"%string "f"%string [97; 13; 10; 98; 13; 10; 99]%Z).
  - repeat split.
  - intros k. reflexivity.
  - repeat constructor; discriminate.
  - reflexivity.
Defined.

(** X10. Where malloc(0) returns a pointer, every run of the test program
    ends in one of three ways: exit 1 after the usage message, with no
    library call made, when it was not given exactly one argument; exit 1
    after the error message for the non-zero errno readLines left, with
    nothing written to stdout; or exit 0 after the lines and the line
    count, with errno as it was.  In each case no block allocated during
    the run is live at exit. *)
Theorem main_outcomes (w : world) (argv : list string) (st st' : state)
    (code : Z) (evs : list event) :
  main w argv st = Some (code, evs, st') ->
  malloc0_null w = false ->
  all_released (heap st) (heap st')
  ∧ ((code = 1%Z ∧ length argv ≠ 2 ∧ evs = [Usage (argv !! 0)] ∧ st' = st)
     ∨ (code = 1%Z ∧ length argv = 2 ∧ errno st' ≠ 0%Z
        ∧ evs = [ReadError (argv !! 0) (argv !! 1) (errno st')]
        ∧ stdout_of evs = [])
     ∨ (code = 0%Z ∧ length argv = 2 ∧ errno st' = errno st
        ∧ ∃ lines n, evs = map Line lines ++ [LineCount n])).
Proof.
  intros H H0. unfold main in H.
  destruct (Nat.eqb_spec (length argv) 2) as [Hlen|Hlen]; cbn [negb] in H.
  2: { apply ret_inv in H as [[= -> ->] ->].
       split; [apply all_released_refl|]. left. auto. }
  apply bind_inv in H as ([lines n] & st1 & Hrl & H).
  destruct lines as [|lb i].
  - apply bind_inv in H as (e & st2 & [-> ->]%get_errno_inv & [[= -> ->] ->]%ret_inv).
    destruct (readLines_null_inv w _ _ _ _ _ Hrl H0) as (_ & He & Hrel).
    split; [exact Hrel|]. right. left. auto.
  - apply bind_inv in H as (tbl & st2 & [_ ->]%read_ptrs_inv & H).
    apply bind_inv in H as (out & st2 & Hprint & H).
    apply print_loop_inv in Hprint as [-> [ls ->]].
    apply bind_inv in H as ([] & st3 & Hfree & [[= -> ->] ->]%ret_inv).
    destruct (readLines_inv w _ _ _ _ _ _ Hrl ltac:(discriminate)) as [He Hown].
    destruct (freeLines_table _ _ _ _ Hown) as (st4 & Hfree' & Hrel & He4).
    assert (st4 = st3) as -> by congruence.
    split; [exact Hrel|]. right. right.
    split; [reflexivity|]. split; [exact Hlen|]. split; [congruence|].
    exists ls, (to_long (Z.of_nat n)). reflexivity.
Qed.

Lemma main_outcomes_witness :
  main (read_error_world [97; 98; 99]%Z) ["prog"; "f"]%string demo_state
  = Some (1%Z, [ReadError (Some "prog"%string) (Some "f"%string) 5],
          {| errno := 5; allocs := 1; heap := [Chars [120%Z]; Freed] |})
  ∧ all_released (heap demo_state) [Chars [120%Z]; Freed].
Proof.
  pose (st' := {| errno := 5; allocs := 1; heap := [Chars [120%Z]; Freed] |}).
  assert (H : main (read_error_world [97; 98; 99]%Z) ["prog"; "f"]%string
                demo_state
              = Some (1%Z, [ReadError (Some "prog"%string) (Some "f"%string) 5],
                      st'))
    by (vm_compute; reflexivity).
  split; [exact H|].
  exact (proj1 (main_outcomes (read_error_world [97; 98; 99]%Z)
                  ["prog"; "f"]%string demo_state st' 1%Z
                  [ReadError (Some "prog"%string) (Some "f"%string) 5]
                  H eq_refl)).
Defined.


(** X11. A failing fclose turns a read that succeeded, and delivered the
    whole file, into an error: readFile tests errno only after closing the
    stream, so it releases the buffer it has filled and returns NULL with
    *length 0 and errno holding the error fclose left. *)
Theorem readFile_close_failure (w : world) (st : state) (name : string)
    (content : list Z) (textMode terminate maxSize : Z) (e : positive) :
  fopen_r w name = Ok content ->
  fseek_r w = Ok tt ->
  fread_r w = Ok tt ->
  fread_short w = None ->
  fclose_r w = Fail e ->
  malloc_r w (allocs st) = Ok tt ->
  (Z.of_nat (length content) <= LONG_MAX)%Z ->
  (maxSize = 0
   ∨ Z.of_nat (length content) + allowance textMode terminate <= maxSize)%Z ->
  (malloc0_null w = false
   ∨ 0 < Z.of_nat (length content) + allowance textMode terminate)%Z ->
  ∃ st',
    readFile w (Some name) textMode terminate maxSize st = Some (NULL, 0, st')
    ∧ errno st' = Z.pos e
    ∧ all_released (heap st) (heap st').
Proof.
  intros Hopen Hseek Hread Hfull Hclose Hmalloc Hsize Hmax Hnull.
  pose proof LONG_MAX_lt_SIZE_MAX as HLS.
  pose proof (allowance_range textMode terminate) as Ht01.
  set (terminate' := if (textMode =? 0)%Z then terminate else TRUE).
  set (t := allowance textMode terminate) in *.
  assert (Ht : t = if (terminate' =? 0)%Z then 0%Z else 1%Z).
  { unfold t, allowance, terminate'. destruct (textMode =? 0)%Z; reflexivity. }
  assert (Htext : textMode ≠ 0%Z -> terminate' ≠ 0%Z).
  { unfold terminate'. intros H. destruct (Z.eqb_spec textMode 0); [contradiction|].
    unfold TRUE. lia. }
  rewrite (readFile_opened w st name content textMode terminate maxSize Hopen).
  fold terminate' t.
  assert (Hfs : ftell content = Z.of_nat (length content))
    by (unfold ftell; apply wrap_small; lia).
  assert (Hw : wrap (ftell content + t) = (Z.of_nat (length content) + t)%Z)
    by (rewrite Hfs; apply wrap_small; lia).
  rewrite (readFile_stream_sized w _ _ _ _ _ _ Hseek)
    by (rewrite Hw; apply orb_true_iff;
        destruct Hmax as [->|H]; [left; reflexivity|right; lia]).
  rewrite Hw, Hfs.
  unfold malloc_chars, malloc. cbn [allocs with_errno]. rewrite Hmalloc.
  assert (Hz : (Z.of_nat (length content) + t =? 0)%Z && malloc0_null w = false).
  { destruct Hnull as [->|H]; [apply andb_false_r|].
    apply andb_false_iff. left. lia. }
  rewrite Hz.
  set (d0 := fresh_chars w 0 (Z.to_nat (Z.of_nat (length content) + t))).
  set (st1 := with_heap (heap (with_errno 0 st) ++ [Chars d0]) (tick (with_errno 0 st))).
  assert (Hh1 : holds_buf (heap st) (heap st1) (length (heap (with_errno 0 st))) d0)
    by apply holds_buf_alloc.
  destruct (readFile_fill_run w st1 (length (heap (with_errno 0 st))) content d0
              textMode terminate' (Z.of_nat (length content)) t)
    as (b & data & st2 & Hrun & Hb & _ & _ & He2 & _); auto.
  { apply lookup_snoc_last. }
  { unfold d0, fresh_chars. rewrite length_map, length_seq. lia. }
  { lia. }
  rewrite Hrun.
  destruct (readFile_fill_inv w (heap st) _ _ _ _ d0 _ _ _ _ _ _ Hrun Hh1
              eq_refl Ht Htext ltac:(lia))
    as (b' & [= <-] & _ & _ & _ & [(d' & Hh2 & _)|(_ & _ & _ & _ & Hfreed)]);
    [|congruence].
  unfold fclose. rewrite Hclose. unfold lib_fail, set_errno.
  rewrite epilogue_error by (cbn [errno with_errno]; lia).
  unfold free. cbn [heap with_errno]. rewrite (holds_buf_lookup _ _ _ _ Hh2).
  eexists. split; [reflexivity|]. split; [reflexivity|].
  cbn [heap with_heap with_errno]. apply (holds_buf_free _ _ _ _ Hh2).
Qed.

Lemma readFile_close_failure_witness :
  ∃ st',
    readFile
      {| char_signed := true; malloc0_null := false; junk_char := λ _, 85%Z;
         junk_ptr := NULL; fopen_r := λ _, Ok [97; 98]%Z; fseek_r := Ok tt;
         fread_r := Ok tt; fread_short := None; fclose_r := Fail 5%positive;
         malloc_r := λ _, Ok tt; realloc_r := λ _, Ok false;
              realloc0_frees := false |}
      (Some "f"%string) 0 0 0 demo_state
    = Some (NULL, 0, st')
    ∧ errno st' = 5%Z
    ∧ all_released (heap demo_state) (heap st').
Proof.
  apply (readFile_close_failure
           {| char_signed := true; malloc0_null := false; junk_char := λ _, 85%Z;
              junk_ptr := NULL; fopen_r := λ _, Ok [97; 98]%Z; fseek_r := Ok tt;
              fread_r := Ok tt; fread_short := None; fclose_r := Fail 5%positive;
              malloc_r := λ _, Ok tt; realloc_r := λ _, Ok false;
              realloc0_frees := false |}
           demo_state "f"%string [97; 98]%Z 0 0 0 5%positive).
  - reflexivity.
  - reflexivity.
  - reflexivity.
  - reflexivity.
  - reflexivity.
  - reflexivity.
  - vm_compute. discriminate.
  - left. reflexivity.
  - left. reflexivity.
Defined.

(** * Strchr for every [int] argument *)

Section StrchrBounds.
Variable w : world.

Lemma Strchr_loop_bounds (c : Z) (mem : list Z) :
  ∀ fuel s, terminated mem s -> length mem - s < fuel ->
    ∃ r, Strchr_loop w fuel mem s c = Some r
         ∧ match r with
           | Some i =>
             s ≤ i
             ∧ (mem !! i = Some c ∨ mem !! i = Some (to_char w c))
             ∧ ∀ j, s ≤ j < i -> ∃ x, mem !! j = Some x ∧ x ≠ 0%Z
           | None => True
           end.
Proof.
  induction fuel as [|fuel IH]; intros s Ht Hf; [lia|].
  cbn [Strchr_loop].
  destruct (terminated_lookup _ _ Ht) as [x0 H0].
  rewrite H0. cbn [mbind option_bind].
  destruct (Z.eqb_spec x0 (to_char w c)) as [E0|_].
  { exists (Some s). split; [reflexivity|]. split; [lia|].
    split; [right; rewrite <- E0; exact H0|]. intros j Hj. lia. }
  destruct (Z.eqb_spec x0 0) as [|N0]; [exists None; split; [reflexivity|exact I]|].
  pose proof (terminated_next _ _ _ Ht H0 N0) as Ht1.
  destruct (terminated_lookup _ _ Ht1) as [x1 H1].
  replace (s + 1) with (S s) by lia.
  rewrite H1. cbn [mbind option_bind].
  destruct (Z.eqb_spec x1 c) as [E1|_].
  { exists (Some (S s)). split; [reflexivity|]. split; [lia|].
    split; [left; rewrite <- E1; exact H1|].
    intros j Hj. assert (j = s) as -> by lia. exists x0. auto. }
  destruct (Z.eqb_spec x1 0) as [|N1]; [exists None; split; [reflexivity|exact I]|].
  pose proof (terminated_next _ _ _ Ht1 H1 N1) as Ht2.
  destruct (terminated_lookup _ _ Ht2) as [x2 H2].
  replace (s + 2) with (S (S s)) by lia.
  rewrite H2. cbn [mbind option_bind].
  destruct (Z.eqb_spec x2 c) as [E2|_].
  { exists (Some (S (S s))). split; [reflexivity|]. split; [lia|].
    split; [left; rewrite <- E2; exact H2|].
    intros j Hj. destruct (decide (j = s)) as [->|]; [exists x0; auto|].
    assert (j = S s) as -> by lia. exists x1. auto. }
  destruct (Z.eqb_spec x2 0) as [|N2]; [exists None; split; [reflexivity|exact I]|].
  pose proof (terminated_next _ _ _ Ht2 H2 N2) as Ht3.
  replace (s + 3) with (S (S (S s))) by lia.
  destruct (IH (S (S (S s))) Ht3) as (r & Hr & Hfound).
  { apply lookup_lt_Some in H2. lia. }
  exists r. split; [exact Hr|].
  destruct r as [i|]; [|exact I].
  destruct Hfound as (Hi & Hat & Hbefore).
  split; [lia|]. split; [exact Hat|].
  intros j Hj. destruct (decide (j = s)) as [->|]; [exists x0; auto|].
  destruct (decide (j = S s)) as [->|]; [exists x1; auto|].
  destruct (decide (j = S (S s))) as [->|]; [exists x2; auto|].
  apply Hbefore. lia.
Qed.

End StrchrBounds.

(** X12. Whatever [int] it is given, in the range of [char] or not, Strchr
    on a terminated string stays inside the string: it returns NULL or a
    pointer that no terminator precedes, at a char equal to [c] or to [c]
    converted to [char]; it never reads outside the object. *)
Theorem Strchr_in_bounds (w : world) (mem : list Z) (s : nat) (c : Z) :
  terminated mem s ->
  ∃ r, Strchr w mem s c = Some r
       ∧ match r with
         | Some i =>
           s ≤ i
           ∧ (mem !! i = Some c ∨ mem !! i = Some (to_char w c))
           ∧ ∀ j, s ≤ j < i -> ∃ x, mem !! j = Some x ∧ x ≠ 0%Z
         | None => True
         end.
Proof.
  intros Ht. unfold Strchr. apply (Strchr_loop_bounds w c mem); [exact Ht|lia].
Qed.

Lemma Strchr_in_bounds_witness :
  ∃ r, Strchr (demo_world []) [65; 0]%Z 0 321 = Some r
       ∧ match r with
         | Some i =>
           0 ≤ i
           ∧ ([65; 0]%Z !! i = Some 321%Z
              ∨ [65; 0]%Z !! i = Some (to_char (demo_world []) 321))
           ∧ ∀ j, 0 ≤ j < i -> ∃ x, [65; 0]%Z !! j = Some x ∧ x ≠ 0%Z
         | None => True
         end.
Proof.
  apply (Strchr_in_bounds (demo_world []) [65; 0]%Z 0 321).
  exists 1. split; [lia|reflexivity].
Defined.

(** * A read that delivers nothing *)

Section ShortRead.
Variable w : world.

Lemma fread_nothing (st : state) (b : nat) (fsize : Z) (content d : list Z) :
  fread_short w = Some 0 -> fread_r w = Ok tt ->
  heap st !! b = Some (Chars d) ->
  fread w b fsize content st
  = Some ((0, false), with_heap (<[b:=Chars d]> (heap st)) st).
Proof.
  intros Hshort Hread Hb. unfold fread. rewrite Hshort, Hread.
  cbn [Nat.min]. change (take 0 content) with (@nil Z).
  cbn [length app drop].
  rewrite (bind_run _ _ _ _ _ (read_chars_run _ _ _ Hb)).
  destruct (decide (0 ≤ length d)) as [_|]; [|lia].
  rewrite (bind_run _ _ _ _ _ (write_chars_run _ _ _ _ Hb)). reflexivity.
Qed.

Lemma readFile_shrink_zero (st : state) (b : nat) (fsize : Z) (d : list Z) :
  realloc0_frees w = true -> (0 < fsize)%Z ->
  heap st !! b = Some (Chars d) ->
  readFile_shrink w b 0 fsize 0 st
  = Some (Ptr b 0, with_errno 0 (with_heap (<[b:=Freed]> (heap st)) (tick st))).
Proof.
  intros Hfrees Hfs Hb. unfold readFile_shrink.
  destruct (Z.ltb_spec (Z.of_nat 0) fsize) as [_|]; [|lia].
  change (wrap (Z.of_nat 0 + 0)) with 0%Z.
  unfold bind at 1. unfold realloc. rewrite Hb, Hfrees. reflexivity.
Qed.

End ShortRead.

(** X13. Where realloc(p, 0) releases [p] and returns NULL, readFile hands
    out a released pointer: when a file that is not empty is read in binary
    mode without terminator and the read ends at once without an error (the
    file was cut after its size was taken), line 135 asks realloc for 0
    bytes, line 139 takes its NULL for a failed shrink and keeps the old
    pointer.  readFile returns it with *length 0 and errno as it was; the
    block is released already, and the free the caller owes is a second
    one. *)
Theorem readFile_short_read_released (w : world) (st : state) (name : string)
    (content : list Z) (maxSize : Z) :
  fopen_r w name = Ok content ->
  fseek_r w = Ok tt ->
  fread_r w = Ok tt ->
  fread_short w = Some 0 ->
  fclose_r w = Ok tt ->
  malloc_r w (allocs st) = Ok tt ->
  realloc0_frees w = true ->
  content ≠ [] ->
  (Z.of_nat (length content) <= LONG_MAX)%Z ->
  (maxSize = 0 ∨ Z.of_nat (length content) <= maxSize)%Z ->
  ∃ b st',
    readFile w (Some name) 0 0 maxSize st = Some (Ptr b 0, 0, st')
    ∧ errno st' = errno st
    ∧ heap st' !! b = Some Freed
    ∧ all_released (heap st) (heap st')
    ∧ free (Ptr b 0) st' = None.
Proof.
  intros Hopen Hseek Hread Hshort Hclose Hmalloc Hfrees Hne Hsize Hmax.
  pose proof LONG_MAX_lt_SIZE_MAX as HLS.
  assert (Hlen : 0 < length content) by (destruct content; [contradiction|simpl; lia]).
  rewrite (readFile_opened w st name content 0 0 maxSize Hopen).
  cbn [Z.eqb]. change (allowance 0 0) with 0%Z.
  assert (Hfs : ftell content = Z.of_nat (length content))
    by (unfold ftell; apply wrap_small; lia).
  assert (Hw : wrap (ftell content + 0) = Z.of_nat (length content))
    by (rewrite Hfs, Z.add_0_r; apply wrap_small; lia).
  rewrite (readFile_stream_sized w _ _ _ _ _ _ Hseek)
    by (rewrite Hw; apply orb_true_iff;
        destruct Hmax as [->|H]; [left; reflexivity|right; lia]).
  rewrite Hw, Hfs.
  unfold malloc_chars, malloc. cbn [allocs with_errno]. rewrite Hmalloc.
  destruct (Z.eqb_spec (Z.of_nat (length content)) 0) as [Hz|_]; [lia|].
  cbn [andb heap with_errno].
  set (b := length (heap st)).
  set (d0 := fresh_chars w 0 (Z.to_nat (Z.of_nat (length content)))).
  set (st1 := with_heap (heap st ++ [Chars d0]) (tick (with_errno 0 st))).
  assert (Hh1 : holds_buf (heap st) (heap st1) b d0) by apply holds_buf_alloc.
  pose proof (holds_buf_lookup _ _ _ _ Hh1) as Hb1.
  (* the read delivers nothing, the shrink releases the block *)
  unfold readFile_fill.
  rewrite (bind_run _ _ _ _ _ (fread_nothing w st1 b _ content d0 Hshort Hread Hb1)).
  cbn [Z.eqb]. unfold ret at 1. unfold bind at 1. unfold ret at 1.
  unfold bind at 1.
  set (st2 := with_heap (<[b:=Chars d0]> (heap st1)) st1).
  assert (Hb2 : heap st2 !! b = Some (Chars d0)) by apply (heap_updated _ _ _ _ Hb1).
  assert (Hpos : (0 < Z.of_nat (length content))%Z) by lia.
  rewrite (bind_run _ _ _ _ _
             (readFile_shrink_zero w st2 b (Z.of_nat (length content)) d0
                Hfrees Hpos Hb2)).
  unfold ret at 1. unfold fclose. rewrite Hclose. unfold ret at 1.
  assert (Hh2 : holds_buf (heap st) (heap st2) b d0)
    by apply (holds_buf_write _ _ _ _ _ Hh1).
  set (st3 := with_errno 0 (with_heap (<[b:=Freed]> (heap st2)) (tick st2))).
  assert (Hb3 : heap st3 !! b = Some Freed).
  { apply list_lookup_insert_eq. apply (lookup_lt_Some _ _ _ Hb2). }
  exists b, (with_errno (errno st) st3).
  split; [reflexivity|]. split; [reflexivity|]. split; [exact Hb3|].
  split; [apply (holds_buf_free _ _ _ _ Hh2)|].
  unfold free. cbn [heap with_errno]. rewrite Hb3. reflexivity.
Qed.

Lemma readFile_short_read_released_witness :
  ∃ b st',
    readFile (short_read_world [97; 98; 99]%Z 0) (Some "f"%string) 0 0 0
      demo_state
    = Some (Ptr b 0, 0, st')
    ∧ errno st' = errno demo_state
    ∧ heap st' !! b = Some Freed
    ∧ all_released (heap demo_state) (heap st')
    ∧ free (Ptr b 0) st' = None.
Proof.
  apply (readFile_short_read_released (short_read_world [97; 98; 99]%Z 0)
           demo_state "f"%string [97; 98; 99]%Z 0).
  - reflexivity.
  - reflexivity.
  - reflexivity.
  - reflexivity.
  - reflexivity.
  - reflexivity.
  - reflexivity.
  - discriminate.
  - vm_compute. discriminate.
  - left. reflexivity.
Defined.
